(** * Instrumentation and metrics sampling of the QUIC-BBR / TCP-CUBIC
      ns-3 experiments

    A shallow embedding of the measurement code of the repository's
    simulation programs ([Point-To-Point/quicbbr.cc],
    [Point-To-Point/tcpcubic.cc], [Mesh/quicbbr.cc], [Bus/quicbbr.cc],
    [Ring/tcpcubic.cc]): the trace callbacks, the packet counters, the
    periodic samplers, the trace-attachment retry loop and the part of
    [main] that schedules them.

    Conventions.
    - [uint32_t] and [uint64_t] values are integers of [Z]; every
      operation of the source that can leave the range is followed by its
      wrap-around ([u32], [u64]).
    - [double] is an interface ([Double]) with two instances: exact
      rationals ([Q]), over which the general statements are proved, and
      the IEEE 754 binary64 numbers of the kernel ([float]), over which
      the concrete values are evaluated.
    - [ns3::Time] is an integer number of nanoseconds (the resolution the
      programs run with).
    - The ns-3 kernel is a sorted event list with first-in first-out order
      among events of equal time; its events are the callbacks of the
      programs (defunctionalised) and the notifications of the trace
      sources the programs connect to. *)

From Stdlib Require Import ZArith QArith Qround List Bool String Lia Lqa Floats.
Import ListNotations.
Local Open Scope Z_scope.

(** ** Machine integers *)

Definition u32 (z : Z) : Z := z mod 2 ^ 32.
Definition u64 (z : Z) : Z := z mod 2 ^ 64.

(** ** The type [double] *)

Class Double (D : Type) : Type := {
  to_double : Z -> D;          (* conversion of an integer value *)
  dmul : D -> D -> D;
  ddiv : D -> D -> D;
  dsub : D -> D -> D
}.

#[export] Instance Double_Q : Double Q := {
  to_double := inject_Z;
  dmul := Qmult;
  ddiv := Qdiv;
  dsub := Qminus
}.

(** Conversion of a non-negative integer to binary64, rounding to nearest
    even as the hardware conversion does. *)
Definition float_of_Z (z : Z) : float :=
  SF2Prim (binary_normalize prec emax z 0 false).

#[export] Instance Double_float : Double float := {
  to_double := float_of_Z;
  dmul := PrimFloat.mul;
  ddiv := PrimFloat.div;
  dsub := PrimFloat.sub
}.

(** ** ns-3 objects the programs handle *)

Definition Time : Type := Z.

(** [Seconds(x)] and [MilliSeconds(n)] at nanosecond resolution. *)
Definition Seconds (x : Q) : Time := Qfloor (x * inject_Z 1000000000).
Definition MilliSeconds (n : Z) : Time := n * 1000000.

(** Dynamic type of an application handle ([Ptr<Application>]). *)
Inductive application : Type :=
| BulkSendApplication
| OtherApplication.

(** Dynamic type of a non-null socket handle ([Ptr<Socket>]). *)
Inductive socket : Type :=
| QuicSocketBase
| TcpSocketBase
| OtherSocket.

(** What the programs read from the simulated network, by virtual time:
    the socket of the sending application ([None] is the null pointer the
    application returns before it has connected) and the byte total of
    the packet sink. *)
Record network : Type := {
  GetSocket : Time -> option socket;
  GetTotalRx : Time -> Z
}.

(** Notifications of the trace sources the programs connect to. *)
Inductive notification : Type :=
| Tx
| Rx
| CongestionWindow (oldCwnd newCwnd : Z)
| RTT (oldRtt newRtt : Time).

(** Callbacks a program connects to the [CongestionWindow] and [RTT]
    trace sources of a socket. *)
Inductive callback : Type :=
| CwndTracer_cb
| RttTracer_cb
| CwndChange_cb
| RttChange_cb.

(** Events of the simulator: the functions the programs pass to
    [Simulator::Schedule], the stop event of [Simulator::Stop], and the
    notifications of the network. *)
Inductive event : Type :=
| AttachTraces_ev (app : application)
| TraceMetrics_ev
| CalculatePacketLoss_ev
| findThroughput_ev
| TraceCwnd_ev
| TraceRtt_ev
| Stop_ev
| Notify (n : notification).

Inductive log_level : Type :=
| LOG_ERROR
| LOG_INFO
| STDOUT.

(** ** Program and simulator state *)

Section State.

Context {D : Type}.

(** A row of an output stream: the time of the write (printed in
    seconds by the source) and the value. *)
Definition row : Type := (Time * D)%type.

(** The global variables of a program (a program that lacks one of them
    leaves it at its initial value). *)
Record globals : Type := {
  g_cwnd : D;
  g_rtt : D;
  packetsSent : Z;
  packetsReceived : Z;
  lastTotalRx : Z
}.

(** The four output streams, each the list of rows written so far. *)
Record files : Type := {
  cwndFile : list row;
  rttFile : list row;
  throughputFile : list row;
  packetLossFile : list row
}.

(** The simulator: virtual time, pending events, stop flag, the callbacks
    connected to the socket's trace sources, and the log. *)
Record kernel : Type := {
  now : Time;
  queue : list (Time * event);
  stopped : bool;
  cwnd_callbacks : list callback;
  rtt_callbacks : list callback;
  ns_log : list (log_level * string)
}.

Record sim : Type := {
  ker : kernel;
  glob : globals;
  out : files
}.

Definition Now (s : sim) : Time := now (ker s).

Definition with_ker (f : kernel -> kernel) (s : sim) : sim :=
  {| ker := f (ker s); glob := glob s; out := out s |}.
Definition with_glob (f : globals -> globals) (s : sim) : sim :=
  {| ker := ker s; glob := f (glob s); out := out s |}.
Definition with_out (f : files -> files) (s : sim) : sim :=
  {| ker := ker s; glob := glob s; out := f (out s) |}.

Definition set_g_cwnd (v : D) : sim -> sim :=
  with_glob (fun g => {| g_cwnd := v; g_rtt := g_rtt g;
    packetsSent := packetsSent g; packetsReceived := packetsReceived g;
    lastTotalRx := lastTotalRx g |}).
Definition set_g_rtt (v : D) : sim -> sim :=
  with_glob (fun g => {| g_cwnd := g_cwnd g; g_rtt := v;
    packetsSent := packetsSent g; packetsReceived := packetsReceived g;
    lastTotalRx := lastTotalRx g |}).
Definition set_packetsSent (v : Z) : sim -> sim :=
  with_glob (fun g => {| g_cwnd := g_cwnd g; g_rtt := g_rtt g;
    packetsSent := v; packetsReceived := packetsReceived g;
    lastTotalRx := lastTotalRx g |}).
Definition set_packetsReceived (v : Z) : sim -> sim :=
  with_glob (fun g => {| g_cwnd := g_cwnd g; g_rtt := g_rtt g;
    packetsSent := packetsSent g; packetsReceived := v;
    lastTotalRx := lastTotalRx g |}).
Definition set_lastTotalRx (v : Z) : sim -> sim :=
  with_glob (fun g => {| g_cwnd := g_cwnd g; g_rtt := g_rtt g;
    packetsSent := packetsSent g; packetsReceived := packetsReceived g;
    lastTotalRx := v |}).

(** [file << time << sep << value << std::endl]: one row appended. *)
Definition write_cwndFile (r : row) : sim -> sim :=
  with_out (fun o => {| cwndFile := cwndFile o ++ [r]; rttFile := rttFile o;
    throughputFile := throughputFile o; packetLossFile := packetLossFile o |}).
Definition write_rttFile (r : row) : sim -> sim :=
  with_out (fun o => {| cwndFile := cwndFile o; rttFile := rttFile o ++ [r];
    throughputFile := throughputFile o; packetLossFile := packetLossFile o |}).
Definition write_throughputFile (r : row) : sim -> sim :=
  with_out (fun o => {| cwndFile := cwndFile o; rttFile := rttFile o;
    throughputFile := throughputFile o ++ [r];
    packetLossFile := packetLossFile o |}).
Definition write_packetLossFile (r : row) : sim -> sim :=
  with_out (fun o => {| cwndFile := cwndFile o; rttFile := rttFile o;
    throughputFile := throughputFile o;
    packetLossFile := packetLossFile o ++ [r] |}).

Definition set_now (t : Time) : sim -> sim :=
  with_ker (fun k => {| now := t; queue := queue k; stopped := stopped k;
    cwnd_callbacks := cwnd_callbacks k; rtt_callbacks := rtt_callbacks k;
    ns_log := ns_log k |}).
Definition set_queue (q : list (Time * event)) : sim -> sim :=
  with_ker (fun k => {| now := now k; queue := q; stopped := stopped k;
    cwnd_callbacks := cwnd_callbacks k; rtt_callbacks := rtt_callbacks k;
    ns_log := ns_log k |}).
Definition set_stopped (b : bool) : sim -> sim :=
  with_ker (fun k => {| now := now k; queue := queue k; stopped := b;
    cwnd_callbacks := cwnd_callbacks k; rtt_callbacks := rtt_callbacks k;
    ns_log := ns_log k |}).

(** [socket->TraceConnectWithoutContext("CongestionWindow", cb)] and the
    same for ["RTT"]: the callback joins the list of the trace source. *)
Definition TraceConnect_CongestionWindow (cb : callback) : sim -> sim :=
  with_ker (fun k => {| now := now k; queue := queue k; stopped := stopped k;
    cwnd_callbacks := cwnd_callbacks k ++ [cb];
    rtt_callbacks := rtt_callbacks k; ns_log := ns_log k |}).
Definition TraceConnect_RTT (cb : callback) : sim -> sim :=
  with_ker (fun k => {| now := now k; queue := queue k; stopped := stopped k;
    cwnd_callbacks := cwnd_callbacks k;
    rtt_callbacks := rtt_callbacks k ++ [cb]; ns_log := ns_log k |}).

(** [NS_LOG_ERROR], [NS_LOG_INFO] and [std::cout]: one line appended. *)
Definition log (l : log_level) (msg : string) : sim -> sim :=
  with_ker (fun k => {| now := now k; queue := queue k; stopped := stopped k;
    cwnd_callbacks := cwnd_callbacks k; rtt_callbacks := rtt_callbacks k;
    ns_log := ns_log k ++ [(l, msg)] |}).

(** *** The event list *)

(** Insertion after every event that is not later: events of equal time
    run in the order they were scheduled. *)
Fixpoint insert_event (t : Time) (e : event) (q : list (Time * event))
  : list (Time * event) :=
  match q with
  | [] => [(t, e)]
  | (t', e') :: q' =>
      if t <? t' then (t, e) :: q else (t', e') :: insert_event t e q'
  end.

(** [Simulator::Schedule(delay, f, args)]. *)
Definition Schedule (delay : Time) (e : event) (s : sim) : sim :=
  set_queue (insert_event (Now s + delay) e (queue (ker s))) s.

(** [Simulator::Stop(delay)]. *)
Definition Stop (delay : Time) : sim -> sim := Schedule delay Stop_ev.

(** One iteration of the simulator's loop: the earliest event leaves the
    list, the clock moves to its time, and it runs. *)
Definition ProcessOneEvent (dispatch : event -> sim -> sim) (s : sim) : sim :=
  match queue (ker s) with
  | [] => s
  | (t, e) :: q => dispatch e (set_now t (set_queue q s))
  end.

Definition finished (s : sim) : bool :=
  stopped (ker s) || match queue (ker s) with [] => true | _ => false end.

(** [Simulator::Run()]: events are processed until the list is empty or
    the stop event has run; [fuel] bounds the number of events. *)
Fixpoint Run (dispatch : event -> sim -> sim) (fuel : nat) (s : sim) : sim :=
  match fuel with
  | O => s
  | S n => if finished s then s else Run dispatch n (ProcessOneEvent dispatch s)
  end.

End State.

Arguments row D : clear implicits.
Arguments globals D : clear implicits.
Arguments files D : clear implicits.
Arguments sim D : clear implicits.

(** The state a program starts in: globals zero-initialised, empty
    streams, nothing scheduled or connected, and the notifications the
    network will deliver already in the event list. *)
Definition startup {D} `{Double D} (net_events : list (Time * notification))
  : sim D :=
  fold_left (fun s tn => Schedule (fst tn) (Notify (snd tn)) s) net_events
    {| ker := {| now := 0; queue := []; stopped := false;
                 cwnd_callbacks := []; rtt_callbacks := []; ns_log := [] |};
       glob := {| g_cwnd := to_double 0; g_rtt := to_double 0;
                  packetsSent := 0; packetsReceived := 0; lastTotalRx := 0 |};
       out := {| cwndFile := []; rttFile := []; throughputFile := [];
                 packetLossFile := [] |} |}.

(** The state of a program whose callbacks have counted [sent] sent and
    [received] received packets, nothing else having run. *)
Definition counted {D} `{Double D} (sent received : Z) : sim D :=
  set_packetsReceived received (set_packetsSent sent (startup [])).

(** ** Periodic samplers *)

(** The times of [m] samples taken every [period] from [first] on. *)
Definition sample_times (first period : Time) (m : nat) : list Time :=
  map (fun k => first + Z.of_nat k * period) (seq 0 m).

(** The times of the ticks number [ks] of a sampler that ticks every
    [period] from [first] on ([sample_times first period m] is
    [tick_times first period (seq 0 m)]). *)
Definition tick_times (first period : Time) (ks : list nat) : list Time :=
  map (fun k => first + Z.of_nat k * period) ks.

(** The numbers [ks] are in strictly increasing order and below [m]. *)
Fixpoint increasing_below (m : nat) (ks : list nat) : Prop :=
  match ks with
  | [] => True
  | k :: ks' =>
      (k < m)%nat /\ Forall (fun k' => (k < k')%nat) ks'
      /\ increasing_below m ks'
  end.

Definition is_TraceMetrics (e : event) : bool :=
  match e with TraceMetrics_ev => true | _ => false end.
Definition is_findThroughput (e : event) : bool :=
  match e with findThroughput_ev => true | _ => false end.
Definition is_CalculatePacketLoss (e : event) : bool :=
  match e with CalculatePacketLoss_ev => true | _ => false end.
Definition is_AttachTraces (e : event) : bool :=
  match e with AttachTraces_ev _ => true | _ => false end.

(** The times at which the events selected by [sel] are pending. *)
Definition pending (sel : event -> bool) (q : list (Time * event))
  : list Time :=
  map fst (filter (fun te => sel (snd te)) q).

(** The stages of the trace attachment of the QUIC programs: one attempt
    is pending and nothing is connected, or no attempt is pending and each
    source has its one callback, or the attachment was abandoned. *)
Definition attaching {D} (s : sim D) : Prop :=
  ((exists t, pending is_AttachTraces (queue (ker s)) = [t])
   /\ cwnd_callbacks (ker s) = [] /\ rtt_callbacks (ker s) = [])
  \/ (pending is_AttachTraces (queue (ker s)) = []
      /\ cwnd_callbacks (ker s) = [CwndTracer_cb]
      /\ rtt_callbacks (ker s) = [RttTracer_cb])
  \/ (pending is_AttachTraces (queue (ker s)) = []
      /\ cwnd_callbacks (ker s) = [] /\ rtt_callbacks (ker s) = []).

(** A network for the examples: the sending application is connected from
    the start and the sink has received 0, 1250000 and 2500000 bytes in
    total at the start, after one second and after two seconds. *)
Definition example_network : network :=
  {| GetSocket := fun _ => Some QuicSocketBase;
     GetTotalRx := fun t =>
       if t <? 1000000000 then 0
       else if t <? 2000000000 then 1250000 else 2500000 |}.

(** ** [Point-To-Point/quicbbr.cc] *)

Module PointToPoint_quicbbr.
Section Program.

Context {D : Type} `{Double D}.
Variable net : network.

Definition PACKET_SIZE : Z := 1500.
Definition DURATION : Q := 100.

(** [g_cwnd = newCwnd / PACKET_SIZE]: both operands are [uint32_t], so the
    division is the integer one and its result is then converted. *)
Definition CwndTracer (oldCwnd newCwnd : Z) (s : sim D) : sim D :=
  set_g_cwnd (to_double (u32 newCwnd / PACKET_SIZE)) s.

(** [g_rtt = newRtt.GetSeconds()]. *)
Definition RttTracer (oldRtt newRtt : Time) (s : sim D) : sim D :=
  set_g_rtt (ddiv (to_double newRtt) (to_double 1000000000)) s.

Definition PacketSentCallback (s : sim D) : sim D :=
  set_packetsSent (u32 (packetsSent (glob s) + 1)) s.

Definition PacketReceivedCallback (s : sim D) : sim D :=
  set_packetsReceived (u32 (packetsReceived (glob s) + 1)) s.

(** The value [((packetsSent - packetsReceived) /
    static_cast<double>(packetsSent)) * 100]: the difference is taken on
    [uint32_t] before the conversion. *)
Definition packetLoss (sent received : Z) : D :=
  dmul (ddiv (to_double (u32 (sent - received))) (to_double sent))
       (to_double 100).

Definition CalculatePacketLoss (s : sim D) : sim D :=
  let time := Now s in
  let s :=
    if 0 <? packetsSent (glob s) then
      write_packetLossFile
        (time, packetLoss (packetsSent (glob s)) (packetsReceived (glob s))) s
    else s in
  Schedule (Seconds 1) CalculatePacketLoss_ev s.

Definition TraceMetrics (s : sim D) : sim D :=
  let timeInSeconds := Now s in
  let totalRx := u64 (GetTotalRx net (Now s)) in
  let throughput :=
    ddiv (dmul (to_double (u64 (totalRx - lastTotalRx (glob s))))
               (to_double 8))
         (to_double 1000000) in
  let s := set_lastTotalRx totalRx s in
  let s := write_throughputFile (timeInSeconds, throughput) s in
  let s := write_rttFile
             (timeInSeconds, dmul (g_rtt (glob s)) (to_double 1000)) s in
  let s := write_cwndFile (timeInSeconds, g_cwnd (glob s)) s in
  Schedule (Seconds 1) TraceMetrics_ev s.

Definition AttachTraces (app : application) (s : sim D) : sim D :=
  match app with
  | BulkSendApplication =>
      match GetSocket net (Now s) with
      | Some QuicSocketBase =>
          let s := TraceConnect_CongestionWindow CwndTracer_cb s in
          let s := TraceConnect_RTT RttTracer_cb s in
          log LOG_INFO "Successfully attached traces for cwnd and RTT." s
      | Some _ =>
          let s := log LOG_INFO "Socket not available yet, retrying..." s in
          Schedule (Seconds (1 # 10)) (AttachTraces_ev app) s
      | None =>
          let s := log LOG_INFO "Socket is null, retrying..." s in
          Schedule (Seconds (1 # 10)) (AttachTraces_ev app) s
      end
  | OtherApplication => log LOG_ERROR "Failed to get BulkSendApplication." s
  end.

(** A connected callback invoked with the arguments of a notification. *)
Definition invoke (n : notification) (s : sim D) (cb : callback) : sim D :=
  match cb, n with
  | CwndTracer_cb, CongestionWindow oldCwnd newCwnd =>
      CwndTracer oldCwnd newCwnd s
  | RttTracer_cb, RTT oldRtt newRtt => RttTracer oldRtt newRtt s
  | _, _ => s
  end.

(** A trace source fires: ["Tx"] and ["Rx"] were connected by [main], the
    socket's sources call whatever [AttachTraces] has connected. *)
Definition deliver (n : notification) (s : sim D) : sim D :=
  match n with
  | Tx => PacketSentCallback s
  | Rx => PacketReceivedCallback s
  | CongestionWindow _ _ => fold_left (invoke n) (cwnd_callbacks (ker s)) s
  | RTT _ _ => fold_left (invoke n) (rtt_callbacks (ker s)) s
  end.

Definition dispatch (e : event) : sim D -> sim D :=
  match e with
  | AttachTraces_ev app => AttachTraces app
  | TraceMetrics_ev => TraceMetrics
  | CalculatePacketLoss_ev => CalculatePacketLoss
  | Stop_ev => set_stopped true
  | Notify n => deliver n
  | _ => fun s => s
  end.

(** The scheduling part of [main], in source order. *)
Definition main (net_events : list (Time * notification)) : sim D :=
  let s := startup net_events in
  let s := Schedule (Seconds (1 # 10)) (AttachTraces_ev BulkSendApplication) s in
  let s := Schedule (Seconds 1) TraceMetrics_ev s in
  let s := Schedule (Seconds 1) CalculatePacketLoss_ev s in
  Stop (Seconds DURATION) s.

End Program.
End PointToPoint_quicbbr.

(** ** [Point-To-Point/tcpcubic.cc] *)

Module PointToPoint_tcpcubic.
Section Program.

Context {D : Type} `{Double D}.
Variable net : network.

Definition TCP_SEGMENT_SIZE : Z := 1500.
Definition DURATION : Q := 100.

Definition PacketSentCallback (s : sim D) : sim D :=
  set_packetsSent (u32 (packetsSent (glob s) + 1)) s.

Definition PacketReceivedCallback (s : sim D) : sim D :=
  set_packetsReceived (u32 (packetsReceived (glob s) + 1)) s.

Definition CwndChange (oldCwnd newCwnd : Z) (s : sim D) : sim D :=
  let time := Now s in
  let cwndInPackets := to_double (u32 newCwnd / TCP_SEGMENT_SIZE) in
  write_cwndFile (time, cwndInPackets) s.

(** [newRtt.GetMilliSeconds()] is an integer number of milliseconds. *)
Definition RttChange (oldRtt newRtt : Time) (s : sim D) : sim D :=
  let time := Now s in
  write_rttFile (time, to_double (newRtt / 1000000)) s.

Definition findThroughput (s : sim D) : sim D :=
  let time := Now s in
  let currentThroughput :=
    ddiv (dmul (to_double (u64 (u64 (GetTotalRx net (Now s))
                                - lastTotalRx (glob s))))
               (to_double 8))
         (to_double 1000000) in
  let s := write_throughputFile (time, currentThroughput) s in
  let s := set_lastTotalRx (u64 (GetTotalRx net (Now s))) s in
  Schedule (MilliSeconds 100) findThroughput_ev s.

Definition packetLossRate (sent received : Z) : D :=
  dmul (ddiv (to_double (u32 (sent - received))) (to_double sent))
       (to_double 100).

Definition CalculatePacketLoss (s : sim D) : sim D :=
  let time := Now s in
  let s :=
    if 0 <? packetsSent (glob s) then
      write_packetLossFile
        (time, packetLossRate (packetsSent (glob s))
                              (packetsReceived (glob s))) s
    else write_packetLossFile (time, to_double 0) s in
  Schedule (MilliSeconds 100) CalculatePacketLoss_ev s.

(** [Config::ConnectWithoutContext] on the sockets' trace sources. *)
Definition TraceCwnd (s : sim D) : sim D :=
  TraceConnect_CongestionWindow CwndChange_cb s.

Definition TraceRtt (s : sim D) : sim D :=
  TraceConnect_RTT RttChange_cb s.

Definition invoke (n : notification) (s : sim D) (cb : callback) : sim D :=
  match cb, n with
  | CwndChange_cb, CongestionWindow oldCwnd newCwnd =>
      CwndChange oldCwnd newCwnd s
  | RttChange_cb, RTT oldRtt newRtt => RttChange oldRtt newRtt s
  | _, _ => s
  end.

Definition deliver (n : notification) (s : sim D) : sim D :=
  match n with
  | Tx => PacketSentCallback s
  | Rx => PacketReceivedCallback s
  | CongestionWindow _ _ => fold_left (invoke n) (cwnd_callbacks (ker s)) s
  | RTT _ _ => fold_left (invoke n) (rtt_callbacks (ker s)) s
  end.

Definition dispatch (e : event) : sim D -> sim D :=
  match e with
  | TraceCwnd_ev => TraceCwnd
  | TraceRtt_ev => TraceRtt
  | findThroughput_ev => findThroughput
  | CalculatePacketLoss_ev => CalculatePacketLoss
  | Stop_ev => set_stopped true
  | Notify n => deliver n
  | _ => fun s => s
  end.

Definition main (net_events : list (Time * notification)) : sim D :=
  let s := startup net_events in
  let s := Schedule (Seconds (1 # 100)) TraceCwnd_ev s in
  let s := Schedule (Seconds (1 # 100)) TraceRtt_ev s in
  let s := Schedule (Seconds 1) findThroughput_ev s in
  let s := Schedule (Seconds 1) CalculatePacketLoss_ev s in
  Stop (Seconds DURATION) s.

End Program.
End PointToPoint_tcpcubic.

(** ** [Mesh/quicbbr.cc]

    The trace attacher of the mesh program; it differs from the
    point-to-point one in the retry delay and in the log texts. *)

Module Mesh_quicbbr.
Section Program.

Context {D : Type} `{Double D}.
Variable net : network.

Definition AttachTraces (app : application) (s : sim D) : sim D :=
  match app with
  | BulkSendApplication =>
      match GetSocket net (Now s) with
      | Some QuicSocketBase =>
          let s := TraceConnect_CongestionWindow CwndTracer_cb s in
          let s := TraceConnect_RTT RttTracer_cb s in
          log LOG_INFO "Successfully attached traces for Cwnd and RTT." s
      | Some _ =>
          let s := log LOG_INFO
                     "QUIC socket not available yet, retrying in 0.2 seconds..."
                     s in
          Schedule (Seconds (2 # 10)) (AttachTraces_ev app) s
      | None =>
          let s := log LOG_INFO "Socket is null, retrying in 0.2 seconds..." s in
          Schedule (Seconds (2 # 10)) (AttachTraces_ev app) s
      end
  | OtherApplication => log LOG_ERROR "Failed to get BulkSendApplication." s
  end.

End Program.
End Mesh_quicbbr.

(** ** [Bus/quicbbr.cc]

    The packet counters of the bus program: the sent counter is advanced
    by the ["Tx"] callback, the received counter is recomputed from the
    sink's byte total by the loss calculation itself (the program connects
    no ["Rx"] callback). A log line keeps the fixed text of its message,
    without the numbers streamed into it. *)

Module Bus_quicbbr.
Section Program.

Context {D : Type} `{Double D}.
Variable net : network.

Definition PACKET_SIZE : Z := 1500.

Definition PacketSentCallback (s : sim D) : sim D :=
  let s := set_packetsSent (u32 (packetsSent (glob s) + 1)) s in
  log LOG_INFO "Packet sent. Total packets sent: " s.

Definition packetLoss (sent received : Z) : D :=
  dmul (ddiv (to_double (u32 (sent - received))) (to_double sent))
       (to_double 100).

(** [packetsReceived = sink->GetTotalRx() / PACKET_SIZE]: a [uint64_t]
    quotient stored in a [uint32_t]. *)
Definition CalculatePacketLoss (s : sim D) : sim D :=
  let time := Now s in
  let s := set_packetsReceived
             (u32 (u64 (GetTotalRx net (Now s)) / PACKET_SIZE)) s in
  let s := log LOG_INFO "Packets Sent:  Packets Received: " s in
  let s :=
    if 0 <? packetsSent (glob s) then
      let s := write_packetLossFile
                 (time, packetLoss (packetsSent (glob s))
                                   (packetsReceived (glob s))) s in
      log LOG_INFO "Packet Loss at  seconds: " s
    else write_packetLossFile (time, to_double 0) s in
  Schedule (Seconds 1) CalculatePacketLoss_ev s.

End Program.
End Bus_quicbbr.

(** ** [Ring/tcpcubic.cc]

    The counters of this program are [uint64_t] ([totalPacketsSent] and
    [totalPacketsReceived], kept in the fields [packetsSent] and
    [packetsReceived]) and are advanced by the [MacTx] and [MacRx] sources
    of the devices. The copies of the rows that the functions print on
    [std::cout] are left out. *)

Module Ring_tcpcubic.
Section Program.

Context {D : Type} `{Double D}.
Variable net : network.

Definition TCP_SEGMENT_SIZE : Z := 1500.
Definition DURATION : Q := 100.

Definition PacketSent (s : sim D) : sim D :=
  set_packetsSent (u64 (packetsSent (glob s) + 1)) s.

Definition PacketReceived (s : sim D) : sim D :=
  set_packetsReceived (u64 (packetsReceived (glob s) + 1)) s.

(** [(1 - (double)totalPacketsReceived / totalPacketsSent) * 100]. *)
Definition packetLossPercent (sent received : Z) : D :=
  dmul (dsub (to_double 1) (ddiv (to_double received) (to_double sent)))
       (to_double 100).

Definition CalculatePacketLoss (s : sim D) : sim D :=
  let time := Now s in
  let s :=
    if 0 <? packetsSent (glob s) then
      write_packetLossFile
        (time, packetLossPercent (packetsSent (glob s))
                                 (packetsReceived (glob s))) s
    else s in
  Schedule (Seconds 1) CalculatePacketLoss_ev s.

Definition CwndChange (oldCwnd newCwnd : Z) (s : sim D) : sim D :=
  let time := Now s in
  let g_cwnd := to_double (u32 newCwnd / TCP_SEGMENT_SIZE) in
  write_cwndFile (time, g_cwnd) s.

Definition RttChange (oldRtt newRtt : Time) (s : sim D) : sim D :=
  let time := Now s in
  let g_rtt := to_double (newRtt / 1000000) in
  write_rttFile (time, g_rtt) s.

Definition findThroughput (s : sim D) : sim D :=
  let time := Now s in
  let currentThroughput :=
    ddiv (dmul (to_double (u64 (u64 (GetTotalRx net (Now s))
                                - lastTotalRx (glob s))))
               (to_double 8))
         (to_double 1000000) in
  let s := write_throughputFile (time, currentThroughput) s in
  let s := set_lastTotalRx (u64 (GetTotalRx net (Now s))) s in
  Schedule (Seconds 1) findThroughput_ev s.

Definition TraceCwndRtt (sock : socket) (s : sim D) : sim D :=
  match sock with
  | TcpSocketBase =>
      let s := TraceConnect_CongestionWindow CwndChange_cb s in
      let s := TraceConnect_RTT RttChange_cb s in
      log STDOUT "Traces attached to the socket" s
  | _ =>
      log STDOUT "Failed to attach traces. Socket is not a TcpSocketBase." s
  end.

Definition AttachSocketTraces (app : application) (s : sim D) : sim D :=
  match app with
  | BulkSendApplication =>
      match GetSocket net (Now s) with
      | Some sock => TraceCwndRtt sock s
      | None =>
          let s := log STDOUT "Socket not available yet. Retrying in 0.1s." s in
          Schedule (Seconds (1 # 10)) (AttachTraces_ev app) s
      end
  | OtherApplication =>
      log STDOUT "Application is not a BulkSendApplication." s
  end.

Definition invoke (n : notification) (s : sim D) (cb : callback) : sim D :=
  match cb, n with
  | CwndChange_cb, CongestionWindow oldCwnd newCwnd =>
      CwndChange oldCwnd newCwnd s
  | RttChange_cb, RTT oldRtt newRtt => RttChange oldRtt newRtt s
  | _, _ => s
  end.

Definition deliver (n : notification) (s : sim D) : sim D :=
  match n with
  | Tx => PacketSent s
  | Rx => PacketReceived s
  | CongestionWindow _ _ => fold_left (invoke n) (cwnd_callbacks (ker s)) s
  | RTT _ _ => fold_left (invoke n) (rtt_callbacks (ker s)) s
  end.

(** [AttachTraces_ev] stands for the scheduled [AttachSocketTraces]. *)
Definition dispatch (e : event) : sim D -> sim D :=
  match e with
  | AttachTraces_ev app => AttachSocketTraces app
  | findThroughput_ev => findThroughput
  | CalculatePacketLoss_ev => CalculatePacketLoss
  | Stop_ev => set_stopped true
  | Notify n => deliver n
  | _ => fun s => s
  end.

Definition main (net_events : list (Time * notification)) : sim D :=
  let s := startup net_events in
  let s := Schedule (Seconds (1 # 10)) (AttachTraces_ev BulkSendApplication) s in
  let s := Schedule (Seconds (1 # 100)) findThroughput_ev s in
  let s := Schedule (Seconds 1) CalculatePacketLoss_ev s in
  Stop (Seconds DURATION) s.

End Program.
End Ring_tcpcubic.

(** ** Predicates on runs *)

(** The event list is in time order, from time [t] on. *)
Fixpoint sorted_from (t : Time) (q : list (Time * event)) : Prop :=
  match q with
  | [] => True
  | (t', _) :: q' => t <= t' /\ sorted_from t' q'
  end.

Fixpoint nondecreasing (l : list Time) : Prop :=
  match l with
  | [] => True
  | t :: l' => Forall (fun t' => t <= t') l' /\ nondecreasing l'
  end.

(** The rows of a stream are in time order and none is later than
    [bound]. *)
Definition in_order {D} (bound : Time) (f : list (row D)) : Prop :=
  nondecreasing (map fst f) /\ Forall (fun r => fst r <= bound) f.

(** Nothing pending is earlier than the clock, and nothing written is
    later. *)
Definition timeline {D} (s : sim D) : Prop :=
  sorted_from (Now s) (queue (ker s))
  /\ in_order (Now s) (cwndFile (out s))
  /\ in_order (Now s) (rttFile (out s))
  /\ in_order (Now s) (throughputFile (out s))
  /\ in_order (Now s) (packetLossFile (out s)).

Definition is_Notify (e : event) : bool :=
  match e with Notify _ => true | _ => false end.

(** The stop event is pending at [horizon]: no event before it in the
    list is later than [horizon], and those among them that a program
    scheduled are earlier than [horizon]. *)
Definition stop_pending (horizon : Time) (q : list (Time * event)) : Prop :=
  exists q1 q2 : list (Time * event),
    q = q1 ++ (horizon, Stop_ev) :: q2
    /\ Forall (fun te => fst te <= horizon
                        /\ (is_Notify (snd te) = false -> fst te < horizon))
         q1.

Definition rows_before {D} (strict : bool) (horizon : Time)
    (f : list (row D)) : Prop :=
  Forall (fun r => if strict then fst r < horizon else fst r <= horizon) f.

(** The clock has not passed [horizon], the stop event is pending until
    it has run, the throughput and loss rows are earlier than [horizon]
    and the window and RTT rows are earlier ([strict]) or not later. *)
Definition within_horizon {D} (strict : bool) (horizon : Time) (s : sim D)
  : Prop :=
  Now s <= horizon
  /\ (stopped (ker s) = false -> stop_pending horizon (queue (ker s)))
  /\ rows_before strict horizon (cwndFile (out s))
  /\ rows_before strict horizon (rttFile (out s))
  /\ rows_before true horizon (throughputFile (out s))
  /\ rows_before true horizon (packetLossFile (out s)).

(** The byte total [TraceMetrics] holds in [lastTotalRx] when it has run
    [k] times, at [first], [first + period], ...: 0 at the start, then the
    sink's total at the previous tick. *)
Definition last_total (net : network) (first period : Time) (k : nat) : Z :=
  match k with
  | O => 0
  | S j => u64 (GetTotalRx net (first + Z.of_nat j * period))
  end.

(** The throughput rows of [m] ticks, each computed from the sink's total
    at its tick and at the tick before. *)
Definition throughput_rows {D} `{Double D} (net : network)
    (first period : Time) (m : nat) : list (row D) :=
  map (fun k =>
         (first + Z.of_nat k * period,
          ddiv (dmul (to_double
                        (u64 (u64 (GetTotalRx net (first + Z.of_nat k * period))
                              - last_total net first period k)))
                     (to_double 8))
               (to_double 1000000)))
      (seq 0 m).

(** The sum of a list of values. *)
Definition total (l : list Q) : Q := fold_right Qplus 0%Q l.

(** The events [Run] processes, in order. *)
Fixpoint processed {D} (dispatch : event -> sim D -> sim D) (fuel : nat)
    (s : sim D) : list event :=
  match fuel with
  | O => []
  | S n =>
      if finished s then []
      else match queue (ker s) with
           | [] => []
           | (_, e) :: _ => e :: processed dispatch n (ProcessOneEvent dispatch s)
           end
  end.

Definition is_Tx (e : event) : bool :=
  match e with Notify Tx => true | _ => false end.
Definition is_Rx (e : event) : bool :=
  match e with Notify Rx => true | _ => false end.

(** How many of the events of a list [sel] selects. *)
Definition count (sel : event -> bool) (l : list event) : Z :=
  Z.of_nat (List.length (filter sel l)).

Definition is_AttachTraces_other (e : event) : bool :=
  match e with AttachTraces_ev OtherApplication => true | _ => false end.

(** Nothing is connected to the socket's trace sources, the cached window
    and RTT still have their initial value, and every window and RTT row
    written so far holds that value. *)
Definition unattached {D} `{Double D} (s : sim D) : Prop :=
  cwnd_callbacks (ker s) = [] /\ rtt_callbacks (ker s) = []
  /\ g_cwnd (glob s) = to_double 0 /\ g_rtt (glob s) = to_double 0
  /\ Forall (fun r => snd r = to_double 0) (cwndFile (out s))
  /\ Forall (fun r => snd r = dmul (to_double 0) (to_double 1000))
       (rttFile (out s)).

(** The socket of the sender is never a QUIC socket. *)
Definition never_quic (net : network) : Prop :=
  forall t, GetSocket net t <> Some QuicSocketBase.

(** What every run of a QUIC program keeps: only the bulk sender is being
    attached, only information lines are logged, and either one attempt
    is pending with nothing attached yet, or the socket was a QUIC socket
    and the callbacks are connected. *)
Definition attach_progress {D} `{Double D} (net : network) (s : sim D)
  : Prop :=
  pending is_AttachTraces_other (queue (ker s)) = []
  /\ Forall (fun l => fst l = LOG_INFO) (ns_log (ker s))
  /\ (((exists t, pending is_AttachTraces (queue (ker s)) = [t])
       /\ unattached s)
      \/ (~ never_quic net
          /\ pending is_AttachTraces (queue (ker s)) = []
          /\ cwnd_callbacks (ker s) = [CwndTracer_cb]
          /\ rtt_callbacks (ker s) = [RttTracer_cb])).

(** The stages of the trace attachment of the ring TCP program: one
    attempt is pending and nothing is connected, or no attempt is pending
    and each source has its one callback, or no attempt is pending and
    nothing is connected (the attachment was given up). *)
Definition ring_attaching {D} (s : sim D) : Prop :=
  ((exists t, pending is_AttachTraces (queue (ker s)) = [t])
   /\ cwnd_callbacks (ker s) = [] /\ rtt_callbacks (ker s) = [])
  \/ (pending is_AttachTraces (queue (ker s)) = []
      /\ cwnd_callbacks (ker s) = [CwndChange_cb]
      /\ rtt_callbacks (ker s) = [RttChange_cb])
  \/ (pending is_AttachTraces (queue (ker s)) = []
      /\ cwnd_callbacks (ker s) = [] /\ rtt_callbacks (ker s) = []).

(** The time of attempt number [k] of the trace attachment of the
    point-to-point QUIC program: [main] schedules attempt 0 at 0.1 s and
    each failed attempt schedules the next one 0.1 s later. *)
Definition attempt_time (k : nat) : Time :=
  Seconds (1 # 10) + Z.of_nat k * Seconds (1 # 10).

(** The line a failed attempt logs: the socket is null, or it is not a
    QUIC socket. *)
Definition retry_line (sock : option socket) : log_level * string :=
  match sock with
  | None => (LOG_INFO, "Socket is null, retrying..."%string)
  | Some _ => (LOG_INFO, "Socket not available yet, retrying..."%string)
  end.

(** The lines the attempts number 0 to [k - 1] log when they fail. *)
Definition retry_log (net : network) (k : nat) : list (log_level * string) :=
  map (fun j => retry_line (GetSocket net (attempt_time j))) (seq 0 k).

(** Some [k <= n] attempts have failed and have logged their retry,
    attempt [k] is the one pending, nothing is connected. *)
Definition retrying {D} (net : network) (n : nat) (s : sim D) : Prop :=
  exists k : nat,
    (k <= n)%nat
    /\ pending is_AttachTraces (queue (ker s)) = [attempt_time k]
    /\ ns_log (ker s) = retry_log net k
    /\ cwnd_callbacks (ker s) = [] /\ rtt_callbacks (ker s) = [].

(** [n] retries and then one success are logged, each trace source has
    its one callback, and no attempt is pending. *)
Definition attached {D} (net : network) (n : nat) (s : sim D) : Prop :=
  pending is_AttachTraces (queue (ker s)) = []
  /\ ns_log (ker s)
     = retry_log net n
       ++ [(LOG_INFO, "Successfully attached traces for cwnd and RTT."%string)]
  /\ cwnd_callbacks (ker s) = [CwndTracer_cb]
  /\ rtt_callbacks (ker s) = [RttTracer_cb].

(** The stage of the attachment, the pending attempt being the one of
    the bulk sender. *)
Definition retry_stage {D} (net : network) (n : nat) (s : sim D) : Prop :=
  pending is_AttachTraces_other (queue (ker s)) = []
  /\ (retrying net n s \/ attached net n s).

(** The delay after which an event of the point-to-point QUIC program
    schedules itself again, when it does. *)
Definition quicbbr_period (e : event) : option Time :=
  match e with
  | AttachTraces_ev _ => Some (Seconds (1 # 10))
  | TraceMetrics_ev => Some (Seconds 1)
  | CalculatePacketLoss_ev => Some (Seconds 1)
  | _ => None
  end.

(** A bound on the number of events that a pending event gives rise to
    up to time [T]: itself and the occurrences of itself it schedules. *)
Definition weight (T : Time) (te : Time * event) : nat :=
  if fst te <=? T then
    match quicbbr_period (snd te) with
    | Some p => S (Z.to_nat ((T - fst te) / p))
    | None => 1
    end
  else 0.

(** A bound on the number of events the simulator runs up to time [T]. *)
Definition work (T : Time) (q : list (Time * event)) : nat :=
  list_sum (map (weight T) q).

(** No stop event is pending at or before time [T]. *)
Definition no_stop_until (T : Time) (q : list (Time * event)) : Prop :=
  Forall (fun te => snd te = Stop_ev -> T < fst te) q.

(** * Properties *)

(** ** Arithmetic of the models *)

Lemma u32_small (z : Z) : 0 <= z < 2 ^ 32 -> u32 z = z.
Proof. intros Hz; unfold u32; apply Z.mod_small; exact Hz. Qed.

Lemma u64_small (z : Z) : 0 <= z < 2 ^ 64 -> u64 z = z.
Proof. intros Hz; unfold u64; apply Z.mod_small; exact Hz. Qed.

Lemma u32_range (z : Z) : 0 <= u32 z < 2 ^ 32.
Proof. unfold u32; apply Z.mod_pos_bound; lia. Qed.

Lemma u64_range (z : Z) : 0 <= u64 z < 2 ^ 64.
Proof. unfold u64; apply Z.mod_pos_bound; lia. Qed.

(** The wrapped difference of two 32-bit values when the second is the
    larger one. *)
Lemma u32_sub_wraps (a b : Z) :
  0 <= a -> a < b -> b < 2 ^ 32 -> u32 (a - b) = 2 ^ 32 - (b - a).
Proof.
  intros Ha Hab Hb; unfold u32.
  symmetry; apply (Z.mod_unique_pos _ _ (-1)); lia.
Qed.

Lemma inject_Z_pos (z : Z) : 0 < z -> (0 < inject_Z z)%Q.
Proof. intros Hz; change 0%Q with (inject_Z 0); rewrite <- Zlt_Qlt; exact Hz. Qed.

Lemma inject_Z_nonneg (z : Z) : 0 <= z -> (0 <= inject_Z z)%Q.
Proof. intros Hz; change 0%Q with (inject_Z 0); rewrite <- Zle_Qle; exact Hz. Qed.

(** A part of a positive whole, as a percentage. *)
Lemma percent_of_part (a b : Z) :
  0 <= a <= b -> 0 < b ->
  (0 <= inject_Z a / inject_Z b * 100 <= 100)%Q.
Proof.
  intros Ha Hb.
  pose proof (inject_Z_pos b Hb) as Hb'.
  assert (Ha' : (0 <= inject_Z a)%Q) by (apply inject_Z_nonneg; lia).
  assert (Hab : (inject_Z a <= inject_Z b)%Q) by (rewrite <- Zle_Qle; lia).
  assert (H1 : (0 <= inject_Z a / inject_Z b)%Q)
    by (apply Qle_shift_div_l; [assumption | lra]).
  assert (H2 : (inject_Z a / inject_Z b <= 1)%Q)
    by (apply Qle_shift_div_r; [assumption | lra]).
  split; nra.
Qed.

(** More than the whole, as a percentage. *)
Lemma percent_of_excess (a b : Z) :
  0 < b < a -> (100 < inject_Z a / inject_Z b * 100)%Q.
Proof.
  intros Hab.
  assert (Hb' : (0 < inject_Z b)%Q) by (apply inject_Z_pos; lia).
  assert (Hlt : (inject_Z b < inject_Z a)%Q) by (rewrite <- Zlt_Qlt; lia).
  assert (H1 : (1 < inject_Z a / inject_Z b)%Q)
    by (apply Qlt_shift_div_l; [assumption | lra]).
  nra.
Qed.

(** ** The start state *)

Lemma schedule_all_frame {D} (net_events : list (Time * notification))
    (s : sim D) :
  let s' := fold_left (fun s tn => Schedule (fst tn) (Notify (snd tn)) s)
              net_events s in
  glob s' = glob s /\ out s' = out s /\ Now s' = Now s
  /\ stopped (ker s') = stopped (ker s)
  /\ cwnd_callbacks (ker s') = cwnd_callbacks (ker s)
  /\ rtt_callbacks (ker s') = rtt_callbacks (ker s)
  /\ ns_log (ker s') = ns_log (ker s).
Proof.
  revert s; induction net_events as [| tn evs IH]; intros s.
  - cbn; repeat split.
  - cbn [fold_left]; cbv zeta.
    specialize (IH (Schedule (fst tn) (Notify (snd tn)) s)).
    cbv zeta in IH; exact IH.
Qed.

Lemma startup_glob {D} `{Double D} (net_events : list (Time * notification)) :
  glob (startup net_events)
  = {| g_cwnd := to_double 0; g_rtt := to_double 0;
       packetsSent := 0; packetsReceived := 0; lastTotalRx := 0 |}.
Proof. unfold startup; apply schedule_all_frame. Qed.

Lemma startup_out {D} `{Double D} (net_events : list (Time * notification)) :
  out (startup net_events)
  = {| cwndFile := []; rttFile := []; throughputFile := [];
       packetLossFile := [] |}.
Proof. unfold startup; apply schedule_all_frame. Qed.

(** ** Loss percentage *)

(** The three programs that compute the loss from wrapped counters use
    the same expression. *)
Lemma packetLoss_same {D} `{Double D} (sent received : Z) :
  PointToPoint_tcpcubic.packetLossRate sent received
    = PointToPoint_quicbbr.packetLoss sent received
  /\ Bus_quicbbr.packetLoss sent received
    = PointToPoint_quicbbr.packetLoss sent received.
Proof. split; reflexivity. Qed.

Lemma quicbbr_loss_row {D} `{Double D} (s : sim D) :
  0 < packetsSent (glob s) ->
  packetLossFile (out (PointToPoint_quicbbr.CalculatePacketLoss s))
  = packetLossFile (out s)
    ++ [(Now s, PointToPoint_quicbbr.packetLoss (packetsSent (glob s))
                                                (packetsReceived (glob s)))].
Proof.
  intros Hs; unfold PointToPoint_quicbbr.CalculatePacketLoss.
  apply Z.ltb_lt in Hs; rewrite Hs; reflexivity.
Qed.

Lemma tcpcubic_loss_row {D} `{Double D} (s : sim D) :
  0 < packetsSent (glob s) ->
  packetLossFile (out (PointToPoint_tcpcubic.CalculatePacketLoss s))
  = packetLossFile (out s)
    ++ [(Now s, PointToPoint_quicbbr.packetLoss (packetsSent (glob s))
                                                (packetsReceived (glob s)))].
Proof.
  intros Hs; unfold PointToPoint_tcpcubic.CalculatePacketLoss.
  apply Z.ltb_lt in Hs; rewrite Hs; reflexivity.
Qed.

Lemma bus_loss_row {D} `{Double D} (net : network) (s : sim D) :
  0 < packetsSent (glob s) ->
  packetLossFile (out (Bus_quicbbr.CalculatePacketLoss net s))
  = packetLossFile (out s)
    ++ [(Now s, PointToPoint_quicbbr.packetLoss
                  (packetsSent (glob s))
                  (u32 (u64 (GetTotalRx net (Now s)) / Bus_quicbbr.PACKET_SIZE)))].
Proof.
  intros Hs; unfold Bus_quicbbr.CalculatePacketLoss.
  cbn [glob set_packetsReceived with_glob log with_ker packetsSent].
  apply Z.ltb_lt in Hs; rewrite Hs; reflexivity.
Qed.

(** C1 (as amended). At a loss tick with [sent > 0] and [received <= sent]
    both point-to-point programs append one row whose value is
    [max(0, sent - received) / sent] as a percentage, and that value lies
    in [[0, 100]]. *)
Theorem loss_percent_when_received_le_sent :
  forall s : sim Q,
    0 < packetsSent (glob s) < 2 ^ 32 ->
    0 <= packetsReceived (glob s) <= packetsSent (glob s) ->
    exists loss : Q,
      packetLossFile (out (PointToPoint_quicbbr.CalculatePacketLoss s))
        = packetLossFile (out s) ++ [(Now s, loss)]
      /\ packetLossFile (out (PointToPoint_tcpcubic.CalculatePacketLoss s))
        = packetLossFile (out s) ++ [(Now s, loss)]
      /\ (loss == inject_Z (Z.max 0 (packetsSent (glob s)
                                     - packetsReceived (glob s)))
                  / inject_Z (packetsSent (glob s)) * 100)%Q
      /\ (0 <= loss <= 100)%Q.
Proof.
  intros s Hsent Hrecv.
  exists (PointToPoint_quicbbr.packetLoss (packetsSent (glob s))
                                          (packetsReceived (glob s))).
  split; [apply quicbbr_loss_row; lia |].
  split; [apply tcpcubic_loss_row; lia |].
  unfold PointToPoint_quicbbr.packetLoss.
  cbn [to_double dmul ddiv Double_Q].
  rewrite u32_small by lia.
  rewrite Z.max_r by lia.
  split; [reflexivity |].
  apply percent_of_part; lia.
Qed.

Lemma loss_percent_when_received_le_sent_witness :
  exists loss : Q,
    packetLossFile (out (PointToPoint_quicbbr.CalculatePacketLoss
                           (counted 100 95))) = [(0, loss)]
    /\ (loss == 5)%Q.
Proof.
  destruct (loss_percent_when_received_le_sent (counted 100 95))
    as (loss & Hq & _ & Hv & _); [cbn; lia | cbn; lia |].
  exists loss; split; [exact Hq | rewrite Hv; reflexivity].
Defined.

(** C1 (as stated) fails: after one sent and two received packets the
    point-to-point QUIC program writes the loss value 429496729500, which
    is neither within [[0, 100]] nor [max(0, sent - received) / sent]. *)
Lemma loss_percent_out_of_range :
  let s : sim Q :=
    PointToPoint_quicbbr.PacketReceivedCallback
      (PointToPoint_quicbbr.PacketReceivedCallback
         (PointToPoint_quicbbr.PacketSentCallback (startup []))) in
  packetsSent (glob s) = 1 /\ packetsReceived (glob s) = 2
  /\ packetLossFile (out (PointToPoint_quicbbr.CalculatePacketLoss s))
     = [(0, 429496729500 # 1)]
  /\ ~ (429496729500 # 1 <= 100)%Q
  /\ ~ (429496729500 # 1 == inject_Z (Z.max 0 (1 - 2)) / inject_Z 1 * 100)%Q.
Proof.
  cbv zeta; repeat split; try reflexivity.
  - intros Hle; revert Hle; unfold Qle; cbn; lia.
  - intros Heq; revert Heq; unfold Qeq; cbn; lia.
Qed.

(** The same input on binary64 numbers. *)
Example loss_percent_out_of_range_binary64 :
  packetLossFile (out (PointToPoint_quicbbr.CalculatePacketLoss
                         (counted (D := float) 1 2)))
  = [(0, 429496729500%float)].
Proof. vm_compute. reflexivity. Qed.

(** C10. With [sent > 0] and [received > sent] the difference is taken
    modulo 2^32 before the conversion: the loss value written by the
    point-to-point programs and by the bus program is
    [((sent - received) mod 2^32) / sent * 100], that is
    [(2^32 - (received - sent)) / sent * 100], a value above 100. *)
Theorem loss_percent_wraps_when_received_gt_sent :
  forall (net : network) (s : sim Q),
    0 < packetsSent (glob s) ->
    (packetsSent (glob s) < packetsReceived (glob s) < 2 ^ 32
     -> exists loss : Q,
       packetLossFile (out (PointToPoint_quicbbr.CalculatePacketLoss s))
         = packetLossFile (out s) ++ [(Now s, loss)]
       /\ packetLossFile (out (PointToPoint_tcpcubic.CalculatePacketLoss s))
         = packetLossFile (out s) ++ [(Now s, loss)]
       /\ (loss == inject_Z ((packetsSent (glob s) - packetsReceived (glob s))
                             mod 2 ^ 32)
                   / inject_Z (packetsSent (glob s)) * 100)%Q
       /\ (loss == inject_Z (2 ^ 32 - (packetsReceived (glob s)
                                       - packetsSent (glob s)))
                   / inject_Z (packetsSent (glob s)) * 100)%Q
       /\ (100 < loss)%Q)
    /\ (let received :=
          u32 (u64 (GetTotalRx net (Now s)) / Bus_quicbbr.PACKET_SIZE) in
        packetsSent (glob s) < received
        -> exists loss : Q,
          packetLossFile (out (Bus_quicbbr.CalculatePacketLoss net s))
            = packetLossFile (out s) ++ [(Now s, loss)]
          /\ (loss == inject_Z ((packetsSent (glob s) - received) mod 2 ^ 32)
                      / inject_Z (packetsSent (glob s)) * 100)%Q
          /\ (loss == inject_Z (2 ^ 32 - (received - packetsSent (glob s)))
                      / inject_Z (packetsSent (glob s)) * 100)%Q
          /\ (100 < loss)%Q).
Proof.
  intros net s Hsent; split.
  - intros Hrecv.
    exists (PointToPoint_quicbbr.packetLoss (packetsSent (glob s))
                                            (packetsReceived (glob s))).
    split; [apply quicbbr_loss_row; lia |].
    split; [apply tcpcubic_loss_row; lia |].
    unfold PointToPoint_quicbbr.packetLoss.
    cbn [to_double dmul ddiv Double_Q].
    split; [reflexivity |].
    rewrite u32_sub_wraps by lia.
    split; [reflexivity |].
    apply percent_of_excess; lia.
  - cbv zeta; intros Hrecv.
    pose proof (u32_range (u64 (GetTotalRx net (Now s)) / Bus_quicbbr.PACKET_SIZE))
      as Hrange.
    exists (PointToPoint_quicbbr.packetLoss
              (packetsSent (glob s))
              (u32 (u64 (GetTotalRx net (Now s)) / Bus_quicbbr.PACKET_SIZE))).
    split; [apply bus_loss_row; lia |].
    unfold PointToPoint_quicbbr.packetLoss.
    cbn [to_double dmul ddiv Double_Q].
    split; [reflexivity |].
    rewrite u32_sub_wraps by lia.
    split; [reflexivity |].
    apply percent_of_excess; lia.
Qed.

Lemma loss_percent_wraps_when_received_gt_sent_witness :
  exists loss : Q,
    packetLossFile (out (PointToPoint_quicbbr.CalculatePacketLoss
                           (counted 1 2))) = [(0, loss)]
    /\ (loss == 429496729500)%Q.
Proof.
  destruct (loss_percent_wraps_when_received_gt_sent
              {| GetSocket := fun _ => None; GetTotalRx := fun _ => 0 |}
              (counted 1 2)) as [Hp2p _]; [cbn; lia |].
  destruct Hp2p as (loss & Hq & _ & _ & Hv & _); [cbn; lia |].
  exists loss; split; [exact Hq | rewrite Hv; reflexivity].
Defined.

(** ** Loss tick with nothing sent *)

(** C6 (as amended). At a loss tick with [sent = 0] no quotient is
    computed. The point-to-point TCP program and the bus program append
    one row with value 0; the point-to-point QUIC program appends no row
    for that tick. Each of them schedules its next tick. *)
Theorem loss_tick_with_nothing_sent :
  forall (D : Type) (DD : Double D) (net : network) (s : sim D),
    packetsSent (glob s) = 0 ->
    packetLossFile (out (PointToPoint_tcpcubic.CalculatePacketLoss s))
      = packetLossFile (out s) ++ [(Now s, to_double 0)]
    /\ packetLossFile (out (Bus_quicbbr.CalculatePacketLoss net s))
      = packetLossFile (out s) ++ [(Now s, to_double 0)]
    /\ packetLossFile (out (PointToPoint_quicbbr.CalculatePacketLoss s))
      = packetLossFile (out s)
    /\ queue (ker (PointToPoint_tcpcubic.CalculatePacketLoss s))
      = insert_event (Now s + MilliSeconds 100) CalculatePacketLoss_ev
          (queue (ker s))
    /\ queue (ker (Bus_quicbbr.CalculatePacketLoss net s))
      = insert_event (Now s + Seconds 1) CalculatePacketLoss_ev (queue (ker s))
    /\ queue (ker (PointToPoint_quicbbr.CalculatePacketLoss s))
      = insert_event (Now s + Seconds 1) CalculatePacketLoss_ev (queue (ker s)).
Proof.
  intros D DD net s Hzero.
  unfold PointToPoint_tcpcubic.CalculatePacketLoss,
    Bus_quicbbr.CalculatePacketLoss, PointToPoint_quicbbr.CalculatePacketLoss.
  cbn [glob set_packetsReceived with_glob log with_ker packetsSent].
  rewrite Hzero; cbn [Z.ltb Z.compare].
  repeat split.
Qed.

Lemma loss_tick_with_nothing_sent_witness :
  packetLossFile (out (PointToPoint_tcpcubic.CalculatePacketLoss
                         (startup (D := Q) []))) = [(0, 0%Q)]
  /\ packetLossFile (out (PointToPoint_quicbbr.CalculatePacketLoss
                            (startup (D := Q) []))) = [].
Proof.
  destruct (loss_tick_with_nothing_sent Q Double_Q
              {| GetSocket := fun _ => None; GetTotalRx := fun _ => 0 |}
              (startup [])) as (Htcp & _ & Hquic & _); [reflexivity |].
  split; [exact Htcp | exact Hquic].
Defined.

(** C6 (as stated) fails: at its first tick, with nothing sent yet, the
    point-to-point QUIC program leaves the loss stream empty. *)
Lemma loss_tick_with_nothing_sent_writes_no_row :
  packetsSent (glob (startup (D := Q) [])) = 0
  /\ packetLossFile (out (PointToPoint_quicbbr.CalculatePacketLoss
                            (startup (D := Q) []))) = []
  /\ packetLossFile (out (PointToPoint_quicbbr.CalculatePacketLoss
                            (startup (D := float) []))) = [].
Proof. repeat split. Qed.

(** ** Congestion window in packets *)

Lemma exact_multiple_quotient (b m : Z) :
  0 < m -> b mod m = 0 -> (inject_Z (b / m) == inject_Z b / inject_Z m)%Q.
Proof.
  intros Hm Hmod.
  assert (Hm' : (0 < inject_Z m)%Q) by (apply inject_Z_pos; exact Hm).
  assert (Hb : b = m * (b / m)) by (rewrite (Z.div_mod b m) at 1; lia).
  rewrite Hb at 2. rewrite inject_Z_mult. field. lra.
Qed.

(** C7 (as amended). A congestion window of [b] bytes is reported as the
    integer quotient [b / 1500] (whole packets): by the QUIC program at
    the next sample, by the TCP program at once. The integer quotient is
    the exact one when [b] is a multiple of 1500; 15000 bytes are reported
    as 10 packets. *)
Theorem cwnd_sample_is_integer_quotient :
  forall (D : Type) (DD : Double D) (net : network) (s : sim D)
         (oldCwnd b : Z),
    0 <= b < 2 ^ 32 ->
    cwndFile (out (PointToPoint_quicbbr.TraceMetrics net
                     (PointToPoint_quicbbr.CwndTracer oldCwnd b s)))
      = cwndFile (out s) ++ [(Now s, to_double (b / 1500))]
    /\ cwndFile (out (PointToPoint_tcpcubic.CwndChange oldCwnd b s))
      = cwndFile (out s) ++ [(Now s, to_double (b / 1500))]
    /\ (b mod 1500 = 0
        -> (to_double (Double := Double_Q) (b / 1500)
            == inject_Z b / inject_Z 1500)%Q)
    /\ to_double (Double := Double_Q) (15000 / 1500) = 10%Q
    /\ to_double (Double := Double_float) (15000 / 1500) = 10%float.
Proof.
  intros D DD net s oldCwnd b Hb.
  unfold PointToPoint_quicbbr.TraceMetrics, PointToPoint_quicbbr.CwndTracer,
    PointToPoint_tcpcubic.CwndChange, PointToPoint_quicbbr.PACKET_SIZE,
    PointToPoint_tcpcubic.TCP_SEGMENT_SIZE.
  rewrite (u32_small b Hb).
  split; [reflexivity |].
  split; [reflexivity |].
  split; [intros Hmod; apply exact_multiple_quotient; [lia | exact Hmod] |].
  split; [reflexivity | vm_compute; reflexivity].
Qed.

Lemma cwnd_sample_is_integer_quotient_witness :
  cwndFile (out (PointToPoint_quicbbr.TraceMetrics
                   {| GetSocket := fun _ => None; GetTotalRx := fun _ => 0 |}
                   (PointToPoint_quicbbr.CwndTracer 0 15000
                      (startup (D := float) []))))
  = [(0, 10%float)].
Proof.
  destruct (cwnd_sample_is_integer_quotient float Double_float
              {| GetSocket := fun _ => None; GetTotalRx := fun _ => 0 |}
              (startup []) 0 15000) as (Hq & _ & _ & _ & Hten); [lia |].
  rewrite <- Hten; exact Hq.
Defined.

(** C7 (as stated) fails: a window of 2000 bytes is reported as 1 packet,
    which is not the exact quotient 2000 / 1500. *)
Lemma cwnd_sample_not_exact_quotient :
  cwndFile (out (PointToPoint_quicbbr.TraceMetrics
                   {| GetSocket := fun _ => None; GetTotalRx := fun _ => 0 |}
                   (PointToPoint_quicbbr.CwndTracer 0 2000
                      (startup (D := Q) []))))
  = [(0, 1%Q)]
  /\ cwndFile (out (PointToPoint_tcpcubic.CwndChange 0 2000
                      (startup (D := Q) [])))
  = [(0, 1%Q)]
  /\ ~ (1 == inject_Z 2000 / inject_Z 1500)%Q.
Proof.
  repeat split.
  intros Heq; revert Heq; unfold Qeq; cbn; lia.
Qed.

(** ** Throughput *)

Lemma quicbbr_throughput_row {D} `{Double D} (net : network) (s : sim D) :
  throughputFile (out (PointToPoint_quicbbr.TraceMetrics net s))
  = throughputFile (out s)
    ++ [(Now s,
         ddiv (dmul (to_double (u64 (u64 (GetTotalRx net (Now s))
                                     - lastTotalRx (glob s))))
                    (to_double 8))
              (to_double 1000000))]
  /\ lastTotalRx (glob (PointToPoint_quicbbr.TraceMetrics net s))
     = u64 (GetTotalRx net (Now s))
  /\ Now (PointToPoint_quicbbr.TraceMetrics net s) = Now s.
Proof. repeat split. Qed.

Lemma tcpcubic_throughput_row {D} `{Double D} (net : network) (s : sim D) :
  throughputFile (out (PointToPoint_tcpcubic.findThroughput net s))
  = throughputFile (out s)
    ++ [(Now s,
         ddiv (dmul (to_double (u64 (u64 (GetTotalRx net (Now s))
                                     - lastTotalRx (glob s))))
                    (to_double 8))
              (to_double 1000000))]
  /\ lastTotalRx (glob (PointToPoint_tcpcubic.findThroughput net s))
     = u64 (GetTotalRx net (Now s))
  /\ Now (PointToPoint_tcpcubic.findThroughput net s) = Now s.
Proof. repeat split. Qed.

(** C5. At a tick, [TraceMetrics] and [findThroughput] append the row
    [(now, (total - last) * 8 / 1e6)], where [total] is the sink's byte
    total at the tick and [last] the private total kept from the previous
    tick, and then overwrite [last] with [total]; [last] starts at 0. With
    the totals 0, 1250000, 2500000 at 0 s, 1 s and 2 s the two samples
    are 10 and 10, on rationals and on binary64 numbers. *)
Theorem throughput_is_byte_delta_in_mbps :
  (forall (net : network) (s : sim Q),
      0 <= lastTotalRx (glob s) <= GetTotalRx net (Now s) ->
      GetTotalRx net (Now s) < 2 ^ 64 ->
      exists throughput : Q,
        throughputFile (out (PointToPoint_quicbbr.TraceMetrics net s))
          = throughputFile (out s) ++ [(Now s, throughput)]
        /\ throughputFile (out (PointToPoint_tcpcubic.findThroughput net s))
          = throughputFile (out s) ++ [(Now s, throughput)]
        /\ (throughput
            == inject_Z (GetTotalRx net (Now s) - lastTotalRx (glob s))
               * 8 / 1000000)%Q
        /\ lastTotalRx (glob (PointToPoint_quicbbr.TraceMetrics net s))
           = GetTotalRx net (Now s)
        /\ lastTotalRx (glob (PointToPoint_tcpcubic.findThroughput net s))
           = GetTotalRx net (Now s))
  /\ (forall net_events,
         lastTotalRx (glob (PointToPoint_quicbbr.main (D := Q) net_events)) = 0
         /\ lastTotalRx (glob (PointToPoint_tcpcubic.main (D := Q) net_events))
            = 0)
  /\ map (fun r => (fst r, Qred (snd r)))
       (throughputFile
          (out (Run (PointToPoint_quicbbr.dispatch example_network) 5
                  (PointToPoint_quicbbr.main [])))) 
     = [(Seconds 1, 10%Q); (Seconds 2, 10%Q)]
  /\ throughputFile
       (out (Run (PointToPoint_quicbbr.dispatch example_network) 5
               (PointToPoint_quicbbr.main [])))
     = [(Seconds 1, 10%float); (Seconds 2, 10%float)]
  /\ throughputFile
       (out (PointToPoint_tcpcubic.findThroughput example_network
               (set_now (Seconds 2)
                  (PointToPoint_tcpcubic.findThroughput example_network
                     (set_now (Seconds 1) (startup []))))))
     = [(Seconds 1, 10%float); (Seconds 2, 10%float)].
Proof.
  split.
  { intros net s Hlast Htotal.
    destruct (quicbbr_throughput_row net s) as (Hq & Hql & _).
    destruct (tcpcubic_throughput_row net s) as (Ht & Htl & _).
    rewrite (u64_small (GetTotalRx net (Now s))) in Hq, Hql, Ht, Htl by lia.
    rewrite u64_small in Hq, Ht by lia.
    eexists; split; [exact Hq |].
    split; [exact Ht |].
    split; [reflexivity |].
    split; [exact Hql | exact Htl]. }
  split.
  { intros net_events; unfold PointToPoint_quicbbr.main,
      PointToPoint_tcpcubic.main.
    cbn [Stop Schedule set_queue with_ker glob].
    rewrite startup_glob; split; reflexivity. }
  split; [vm_compute; reflexivity |].
  split; vm_compute; reflexivity.
Qed.

Lemma throughput_is_byte_delta_in_mbps_witness :
  exists throughput : Q,
    throughputFile
      (out (PointToPoint_quicbbr.TraceMetrics example_network
              (set_now (Seconds 1) (startup []))))
    = [(Seconds 1, throughput)]
    /\ (throughput == 10)%Q.
Proof.
  destruct (proj1 throughput_is_byte_delta_in_mbps example_network
              (set_now (Seconds 1) (startup [])))
    as (throughput & Hq & _ & Hv & _); [cbn; lia | cbn; lia |].
  exists throughput; split; [exact Hq | rewrite Hv; reflexivity].
Defined.

(** C9. A second run of the tick at the same virtual time, hence with the
    same byte total of the sink, appends a throughput row computed from a
    byte difference of 0: its value is [0 * 8 / 1e6], which is 0 on
    rationals and exactly [0.0] on binary64 numbers. This holds for
    [TraceMetrics] and for [findThroughput]. *)
Theorem second_tick_at_same_total_reports_zero :
  forall (D : Type) (DD : Double D) (net : network) (s : sim D),
    throughputFile
      (out (PointToPoint_quicbbr.TraceMetrics net
              (PointToPoint_quicbbr.TraceMetrics net s)))
    = throughputFile (out (PointToPoint_quicbbr.TraceMetrics net s))
      ++ [(Now s, ddiv (dmul (to_double 0) (to_double 8)) (to_double 1000000))]
    /\ throughputFile
         (out (PointToPoint_tcpcubic.findThroughput net
                 (PointToPoint_tcpcubic.findThroughput net s)))
       = throughputFile (out (PointToPoint_tcpcubic.findThroughput net s))
         ++ [(Now s,
              ddiv (dmul (to_double 0) (to_double 8)) (to_double 1000000))]
    /\ (ddiv (Double := Double_Q) (dmul (to_double 0) (to_double 8))
             (to_double 1000000) == 0)%Q
    /\ ddiv (Double := Double_float) (dmul (to_double 0) (to_double 8))
            (to_double 1000000) = 0%float.
Proof.
  intros D DD net s.
  assert (Hzero : forall x, u64 (x - x) = 0)
    by (intros x; rewrite Z.sub_diag; reflexivity).
  split.
  { destruct (quicbbr_throughput_row net (PointToPoint_quicbbr.TraceMetrics net s))
      as (Hrow & _).
    destruct (quicbbr_throughput_row net s) as (_ & Hlast & Hnow).
    rewrite Hlast, Hnow, Hzero in Hrow; exact Hrow. }
  split.
  { destruct (tcpcubic_throughput_row net
                (PointToPoint_tcpcubic.findThroughput net s)) as (Hrow & _).
    destruct (tcpcubic_throughput_row net s) as (_ & Hlast & Hnow).
    rewrite Hlast, Hnow, Hzero in Hrow; exact Hrow. }
  split; [reflexivity | vm_compute; reflexivity].
Qed.

(** ** Trace attachment *)

Lemma Run_finished {D} (dispatch : event -> sim D -> sim D) (fuel : nat)
    (s : sim D) :
  finished s = true -> Run dispatch fuel s = s.
Proof. intros Hfin; destruct fuel as [| n]; cbn; [| rewrite Hfin]; reflexivity. Qed.

(** C4. [AttachTraces] on an application that is not a bulk sender logs
    an error and does nothing else: no event is scheduled, nothing is
    connected, the simulation is not stopped. On a bulk sender whose
    socket is still null it logs an information line and schedules one
    event, the same attempt, 0.1 s later (point-to-point program) or 0.2 s
    later (mesh program), and does nothing else. *)
Theorem attach_failure_classes :
  forall (D : Type) (DD : Double D) (net : network) (s : sim D),
    (let s' := PointToPoint_quicbbr.AttachTraces net OtherApplication s in
     let m' := Mesh_quicbbr.AttachTraces net OtherApplication s in
     ns_log (ker s')
       = ns_log (ker s) ++ [(LOG_ERROR, "Failed to get BulkSendApplication."%string)]
     /\ queue (ker s') = queue (ker s)
     /\ cwnd_callbacks (ker s') = cwnd_callbacks (ker s)
     /\ rtt_callbacks (ker s') = rtt_callbacks (ker s)
     /\ stopped (ker s') = stopped (ker s)
     /\ glob s' = glob s /\ out s' = out s
     /\ m' = s')
    /\ (GetSocket net (Now s) = None ->
        let s' := PointToPoint_quicbbr.AttachTraces net BulkSendApplication s in
        let m' := Mesh_quicbbr.AttachTraces net BulkSendApplication s in
        queue (ker s')
          = insert_event (Now s + 100000000)
              (AttachTraces_ev BulkSendApplication) (queue (ker s))
        /\ queue (ker m')
          = insert_event (Now s + 200000000)
              (AttachTraces_ev BulkSendApplication) (queue (ker s))
        /\ List.length (queue (ker s')) = S (List.length (queue (ker s)))
        /\ List.length (queue (ker m')) = S (List.length (queue (ker s)))
        /\ ns_log (ker s')
          = ns_log (ker s) ++ [(LOG_INFO, "Socket is null, retrying..."%string)]
        /\ ns_log (ker m')
          = ns_log (ker s)
            ++ [(LOG_INFO, "Socket is null, retrying in 0.2 seconds..."%string)]
        /\ cwnd_callbacks (ker s') = cwnd_callbacks (ker s)
        /\ rtt_callbacks (ker s') = rtt_callbacks (ker s)
        /\ cwnd_callbacks (ker m') = cwnd_callbacks (ker s)
        /\ rtt_callbacks (ker m') = rtt_callbacks (ker s)
        /\ stopped (ker s') = stopped (ker s)
        /\ stopped (ker m') = stopped (ker s)
        /\ glob s' = glob s /\ out s' = out s
        /\ glob m' = glob s /\ out m' = out s).
Proof.
  intros D DD net s; split.
  - cbv zeta; repeat split.
  - intros Hnull; cbv zeta.
    unfold PointToPoint_quicbbr.AttachTraces, Mesh_quicbbr.AttachTraces.
    rewrite Hnull.
    assert (Hlen : forall t e (q : list (Time * event)),
               List.length (insert_event t e q) = S (List.length q)).
    { intros t e q; induction q as [| [t' e'] q IH]; [reflexivity |].
      cbn [insert_event]; destruct (t <? t'); cbn [List.length]; congruence. }
    repeat split; cbn [Schedule set_queue with_ker ker queue log Now now];
      apply Hlen.
Qed.

Lemma attach_failure_classes_witness :
  queue (ker (PointToPoint_quicbbr.AttachTraces
                {| GetSocket := fun _ => None; GetTotalRx := fun _ => 0 |}
                BulkSendApplication (startup (D := Q) [])))
  = [(100000000, AttachTraces_ev BulkSendApplication)].
Proof.
  destruct (attach_failure_classes Q Double_Q
              {| GetSocket := fun _ => None; GetTotalRx := fun _ => 0 |}
              (startup [])) as (_ & Hnull).
  destruct Hnull as (Hq & _); [reflexivity |].
  exact Hq.
Defined.

(** ** Periodic sampling *)

Lemma pending_insert_other (sel : event -> bool) (t : Time) (e : event)
    (q : list (Time * event)) :
  sel e = false -> pending sel (insert_event t e q) = pending sel q.
Proof.
  intros He; induction q as [| [t' e'] q IH]; cbn [insert_event].
  - unfold pending; cbn; rewrite He; reflexivity.
  - destruct (t <? t').
    + unfold pending; cbn [filter snd]; rewrite He; reflexivity.
    + unfold pending in *; cbn [filter snd].
      destruct (sel e'); cbn [map]; rewrite IH; reflexivity.
Qed.

Lemma pending_insert_only (sel : event -> bool) (t : Time) (e : event)
    (q : list (Time * event)) :
  sel e = true -> pending sel q = [] -> pending sel (insert_event t e q) = [t].
Proof.
  intros He; induction q as [| [t' e'] q IH]; cbn [insert_event]; intros Hq.
  - unfold pending; cbn; rewrite He; reflexivity.
  - unfold pending in Hq; cbn [filter snd] in Hq.
    destruct (sel e') eqn:He'; [discriminate Hq |].
    destruct (t <? t').
    + unfold pending; cbn [filter snd]; rewrite He, He'; cbn [map fst].
      f_equal; exact Hq.
    + unfold pending; cbn [filter snd]; rewrite He'; apply IH; exact Hq.
Qed.

Lemma sample_times_snoc (first period : Time) (m : nat) :
  sample_times first period (S m)
  = sample_times first period m ++ [first + Z.of_nat m * period].
Proof.
  unfold sample_times; rewrite seq_S, map_app; reflexivity.
Qed.

Lemma fold_left_preserves {A B : Type} (f : A -> B -> A) (P : A -> Prop)
    (l : list B) :
  (forall a b, P a -> P (f a b)) -> forall a, P a -> P (fold_left f l a).
Proof.
  intros Hf; induction l as [| b l IH]; intros a Ha; [exact Ha |].
  cbn [fold_left]; apply IH, Hf, Ha.
Qed.

Section Periodic.

Context {D : Type}.
Variable dispatch : event -> sim D -> sim D.
Variable sel : event -> bool.
Variable file : files D -> list (row D).
Variables first period : Time.

(** The selected event appends one row stamped with the current time and
    schedules itself one period later. *)
Hypothesis tick_step :
  forall (e : event) (s : sim D),
    sel e = true ->
    (exists v : D, file (out (dispatch e s)) = file (out s) ++ [(Now s, v)])
    /\ queue (ker (dispatch e s))
       = insert_event (Now s + period) e (queue (ker s)).

(** No other event writes the stream or schedules the selected event. *)
Hypothesis other_step :
  forall (e : event) (s : sim D),
    sel e = false ->
    file (out (dispatch e s)) = file (out s)
    /\ pending sel (queue (ker (dispatch e s))) = pending sel (queue (ker s)).

(** While [m] samples are written and the next one is the only one
    pending, an event of the simulator keeps it so or adds one sample. *)
Lemma sampling_step (m : nat) (s : sim D) :
  map fst (file (out s)) = sample_times first period m ->
  pending sel (queue (ker s)) = [first + Z.of_nat m * period] ->
  exists m' : nat,
    map fst (file (out (ProcessOneEvent dispatch s)))
      = sample_times first period m'
    /\ pending sel (queue (ker (ProcessOneEvent dispatch s)))
       = [first + Z.of_nat m' * period].
Proof.
  intros Hfile Hpend; unfold ProcessOneEvent.
  destruct (queue (ker s)) as [| [t e] q] eqn:Hq.
  { exists m; split; [exact Hfile | rewrite Hq; exact Hpend]. }
  unfold pending in Hpend; cbn [filter snd] in Hpend.
  destruct (sel e) eqn:He.
  - exists (S m). cbn [map fst] in Hpend.
    injection Hpend as Ht Hrest.
    destruct (tick_step e (set_now t (set_queue q s)) He) as [[v Hrow] Hsched].
    change (out (set_now t (set_queue q s))) with (out s) in Hrow.
    change (Now (set_now t (set_queue q s))) with t in Hrow, Hsched.
    change (queue (ker (set_now t (set_queue q s)))) with q in Hsched.
    split.
    + rewrite Hrow, map_app, sample_times_snoc.
      f_equal; [exact Hfile | cbn [map fst]; rewrite Ht; reflexivity].
    + rewrite Hsched, (pending_insert_only sel _ e q He Hrest), Ht.
      f_equal; lia.
  - exists m.
    destruct (other_step e (set_now t (set_queue q s)) He) as [Hrow Hsched].
    change (out (set_now t (set_queue q s))) with (out s) in Hrow.
    change (queue (ker (set_now t (set_queue q s)))) with q in Hsched.
    split; [rewrite Hrow; exact Hfile | rewrite Hsched; exact Hpend].
Qed.

Lemma sampling_run (fuel : nat) :
  forall (m : nat) (s : sim D),
    map fst (file (out s)) = sample_times first period m ->
    pending sel (queue (ker s)) = [first + Z.of_nat m * period] ->
    exists m' : nat,
      map fst (file (out (Run dispatch fuel s))) = sample_times first period m'.
Proof.
  induction fuel as [| fuel IH]; intros m s Hfile Hpend; cbn [Run];
    [exists m; exact Hfile |].
  destruct (finished s); [exists m; exact Hfile |].
  destruct (sampling_step m s Hfile Hpend) as (m' & Hfile' & Hpend').
  exact (IH m' _ Hfile' Hpend').
Qed.

End Periodic.

Lemma startup_pending {D} `{Double D} (sel : event -> bool)
    (net_events : list (Time * notification)) :
  (forall n, sel (Notify n) = false) ->
  pending sel (queue (ker (startup net_events))) = [].
Proof.
  intros Hsel; unfold startup.
  apply fold_left_preserves; [| reflexivity].
  intros s tn Hs; cbn [Schedule set_queue with_ker ker queue].
  rewrite pending_insert_other by apply Hsel; exact Hs.
Qed.

Lemma startup_now {D} `{Double D} (net_events : list (Time * notification)) :
  Now (startup net_events) = 0.
Proof. unfold startup; apply schedule_all_frame. Qed.

(** What a notification of the socket's trace sources leaves unchanged. *)
Lemma quicbbr_invoke_frame {D} `{Double D} (n : notification) (s : sim D)
    (cbs : list callback) :
  let s' := fold_left (PointToPoint_quicbbr.invoke n) cbs s in
  ker s' = ker s /\ out s' = out s
  /\ packetsSent (glob s') = packetsSent (glob s)
  /\ packetsReceived (glob s') = packetsReceived (glob s).
Proof.
  cbv zeta; apply fold_left_preserves; [| repeat split].
  intros a cb (Hk & Ho & Hs & Hr); rewrite <- Hk, <- Ho, <- Hs, <- Hr.
  destruct cb, n; repeat split.
Qed.

Lemma tcpcubic_invoke_frame {D} `{Double D} (n : notification) (s : sim D)
    (cbs : list callback) :
  let s' := fold_left (PointToPoint_tcpcubic.invoke n) cbs s in
  ker s' = ker s /\ glob s' = glob s
  /\ throughputFile (out s') = throughputFile (out s)
  /\ packetLossFile (out s') = packetLossFile (out s).
Proof.
  cbv zeta; apply fold_left_preserves; [| repeat split].
  intros a cb (Hk & Hg & Ht & Hl); rewrite <- Hk, <- Hg, <- Ht, <- Hl.
  destruct cb, n; repeat split.
Qed.

Lemma ring_invoke_frame {D} `{Double D} (n : notification) (s : sim D)
    (cbs : list callback) :
  let s' := fold_left (Ring_tcpcubic.invoke n) cbs s in
  ker s' = ker s /\ glob s' = glob s
  /\ throughputFile (out s') = throughputFile (out s)
  /\ packetLossFile (out s') = packetLossFile (out s).
Proof.
  cbv zeta; apply fold_left_preserves; [| repeat split].
  intros a cb (Hk & Hg & Ht & Hl); rewrite <- Hk, <- Hg, <- Ht, <- Hl.
  destruct cb, n; repeat split.
Qed.

(** Closes the goals left by a case analysis on the event that runs: a
    stream the event does not write, and a pending list it does not add
    a selected event to. *)
Ltac frame_cases :=
  repeat split;
  try reflexivity;
  try (cbn [Schedule set_queue with_ker ker queue log];
       rewrite pending_insert_other by reflexivity; reflexivity).

Lemma quicbbr_other_step {D} `{Double D} (net : network) (e : event)
    (s : sim D) :
  is_TraceMetrics e = false ->
  let s' := PointToPoint_quicbbr.dispatch net e s in
  throughputFile (out s') = throughputFile (out s)
  /\ rttFile (out s') = rttFile (out s)
  /\ cwndFile (out s') = cwndFile (out s)
  /\ pending is_TraceMetrics (queue (ker s'))
     = pending is_TraceMetrics (queue (ker s)).
Proof.
  intros He; cbv zeta.
  destruct e as [app | | | | | | | n]; try discriminate He;
    cbn [PointToPoint_quicbbr.dispatch].
  - unfold PointToPoint_quicbbr.AttachTraces.
    destruct app; [destruct (GetSocket net (Now s)) as [[| |] |] |];
      frame_cases.
  - unfold PointToPoint_quicbbr.CalculatePacketLoss.
    destruct (0 <? packetsSent (glob s)); frame_cases.
  - frame_cases.
  - frame_cases.
  - frame_cases.
  - frame_cases.
  - destruct n as [| | oldCwnd newCwnd | oldRtt newRtt];
      cbn [PointToPoint_quicbbr.deliver]; try solve [frame_cases].
    + destruct (quicbbr_invoke_frame (CongestionWindow oldCwnd newCwnd) s
                  (cwnd_callbacks (ker s))) as (Hk & Ho & _).
      rewrite Hk, Ho; frame_cases.
    + destruct (quicbbr_invoke_frame (RTT oldRtt newRtt) s
                  (rtt_callbacks (ker s))) as (Hk & Ho & _).
      rewrite Hk, Ho; frame_cases.
Qed.

Lemma quicbbr_tick_step {D} `{Double D} (net : network) (e : event)
    (s : sim D) :
  is_TraceMetrics e = true ->
  let s' := PointToPoint_quicbbr.dispatch net e s in
  (exists v, throughputFile (out s') = throughputFile (out s) ++ [(Now s, v)])
  /\ (exists v, rttFile (out s') = rttFile (out s) ++ [(Now s, v)])
  /\ (exists v, cwndFile (out s') = cwndFile (out s) ++ [(Now s, v)])
  /\ queue (ker s') = insert_event (Now s + Seconds 1) e (queue (ker s)).
Proof.
  intros He; destruct e; try discriminate He; cbv zeta.
  cbn [PointToPoint_quicbbr.dispatch]; unfold PointToPoint_quicbbr.TraceMetrics.
  repeat split; eexists; reflexivity.
Qed.

Lemma quicbbr_main_pending {D} `{Double D}
    (net_events : list (Time * notification)) :
  pending is_TraceMetrics
    (queue (ker (PointToPoint_quicbbr.main (D := D) net_events)))
  = [Seconds 1 + Z.of_nat 0 * Seconds 1]
  /\ out (PointToPoint_quicbbr.main (D := D) net_events)
     = {| cwndFile := []; rttFile := []; throughputFile := [];
          packetLossFile := [] |}.
Proof.
  unfold PointToPoint_quicbbr.main.
  cbn [Stop Schedule set_queue with_ker ker queue out Now now].
  change (now (ker (startup net_events))) with (Now (startup (D := D) net_events)).
  rewrite startup_now, startup_out; split; [| reflexivity].
  rewrite !pending_insert_other by reflexivity.
  apply pending_insert_only; [reflexivity |].
  rewrite pending_insert_other by reflexivity.
  apply startup_pending; reflexivity.
Qed.

Lemma tcpcubic_throughput_other_step {D} `{Double D} (net : network)
    (e : event) (s : sim D) :
  is_findThroughput e = false ->
  let s' := PointToPoint_tcpcubic.dispatch net e s in
  throughputFile (out s') = throughputFile (out s)
  /\ pending is_findThroughput (queue (ker s'))
     = pending is_findThroughput (queue (ker s)).
Proof.
  intros He; cbv zeta.
  destruct e as [app | | | | | | | n]; try discriminate He;
    cbn [PointToPoint_tcpcubic.dispatch]; try solve [frame_cases].
  - unfold PointToPoint_tcpcubic.CalculatePacketLoss.
    destruct (0 <? packetsSent (glob s)); frame_cases.
  - destruct n as [| | oldCwnd newCwnd | oldRtt newRtt];
      cbn [PointToPoint_tcpcubic.deliver]; try solve [frame_cases].
    + destruct (tcpcubic_invoke_frame (CongestionWindow oldCwnd newCwnd) s
                  (cwnd_callbacks (ker s))) as (Hk & _ & Ht & _).
      rewrite Hk, Ht; frame_cases.
    + destruct (tcpcubic_invoke_frame (RTT oldRtt newRtt) s
                  (rtt_callbacks (ker s))) as (Hk & _ & Ht & _).
      rewrite Hk, Ht; frame_cases.
Qed.

Lemma tcpcubic_loss_other_step {D} `{Double D} (net : network)
    (e : event) (s : sim D) :
  is_CalculatePacketLoss e = false ->
  let s' := PointToPoint_tcpcubic.dispatch net e s in
  packetLossFile (out s') = packetLossFile (out s)
  /\ pending is_CalculatePacketLoss (queue (ker s'))
     = pending is_CalculatePacketLoss (queue (ker s)).
Proof.
  intros He; cbv zeta.
  destruct e as [app | | | | | | | n]; try discriminate He;
    cbn [PointToPoint_tcpcubic.dispatch]; try solve [frame_cases].
  - unfold PointToPoint_tcpcubic.findThroughput; frame_cases.
  - destruct n as [| | oldCwnd newCwnd | oldRtt newRtt];
      cbn [PointToPoint_tcpcubic.deliver]; try solve [frame_cases].
    + destruct (tcpcubic_invoke_frame (CongestionWindow oldCwnd newCwnd) s
                  (cwnd_callbacks (ker s))) as (Hk & _ & _ & Hl).
      rewrite Hk, Hl; frame_cases.
    + destruct (tcpcubic_invoke_frame (RTT oldRtt newRtt) s
                  (rtt_callbacks (ker s))) as (Hk & _ & _ & Hl).
      rewrite Hk, Hl; frame_cases.
Qed.

Lemma tcpcubic_tick_step {D} `{Double D} (net : network) (s : sim D) :
  (exists v,
      throughputFile (out (PointToPoint_tcpcubic.findThroughput net s))
      = throughputFile (out s) ++ [(Now s, v)])
  /\ queue (ker (PointToPoint_tcpcubic.findThroughput net s))
     = insert_event (Now s + MilliSeconds 100) findThroughput_ev (queue (ker s))
  /\ (exists v,
         packetLossFile (out (PointToPoint_tcpcubic.CalculatePacketLoss s))
         = packetLossFile (out s) ++ [(Now s, v)])
  /\ queue (ker (PointToPoint_tcpcubic.CalculatePacketLoss s))
     = insert_event (Now s + MilliSeconds 100) CalculatePacketLoss_ev
         (queue (ker s)).
Proof.
  unfold PointToPoint_tcpcubic.findThroughput,
    PointToPoint_tcpcubic.CalculatePacketLoss.
  destruct (0 <? packetsSent (glob s)); repeat split; eexists; reflexivity.
Qed.

Lemma tcpcubic_main_pending {D} `{Double D}
    (net_events : list (Time * notification)) :
  pending is_findThroughput
    (queue (ker (PointToPoint_tcpcubic.main (D := D) net_events)))
  = [Seconds 1 + Z.of_nat 0 * MilliSeconds 100]
  /\ pending is_CalculatePacketLoss
       (queue (ker (PointToPoint_tcpcubic.main (D := D) net_events)))
     = [Seconds 1 + Z.of_nat 0 * MilliSeconds 100]
  /\ out (PointToPoint_tcpcubic.main (D := D) net_events)
     = {| cwndFile := []; rttFile := []; throughputFile := [];
          packetLossFile := [] |}.
Proof.
  unfold PointToPoint_tcpcubic.main.
  cbn [Stop Schedule set_queue with_ker ker queue out Now now].
  change (now (ker (startup net_events))) with (Now (startup (D := D) net_events)).
  rewrite startup_now, startup_out; repeat split.
  - rewrite !pending_insert_other by reflexivity.
    apply pending_insert_only; [reflexivity |].
    rewrite !pending_insert_other by reflexivity.
    apply startup_pending; reflexivity.
  - rewrite pending_insert_other by reflexivity.
    apply pending_insert_only; [reflexivity |].
    rewrite !pending_insert_other by reflexivity.
    apply startup_pending; reflexivity.
Qed.

Lemma ring_other_step {D} `{Double D} (net : network) (e : event)
    (s : sim D) :
  is_findThroughput e = false ->
  let s' := Ring_tcpcubic.dispatch net e s in
  throughputFile (out s') = throughputFile (out s)
  /\ pending is_findThroughput (queue (ker s'))
     = pending is_findThroughput (queue (ker s)).
Proof.
  intros He; cbv zeta.
  destruct e as [app | | | | | | | n]; try discriminate He;
    cbn [Ring_tcpcubic.dispatch]; try solve [frame_cases].
  - unfold Ring_tcpcubic.AttachSocketTraces, Ring_tcpcubic.TraceCwndRtt.
    destruct app; [destruct (GetSocket net (Now s)) as [[| |] |] |];
      frame_cases.
  - unfold Ring_tcpcubic.CalculatePacketLoss.
    destruct (0 <? packetsSent (glob s)); frame_cases.
  - destruct n as [| | oldCwnd newCwnd | oldRtt newRtt];
      cbn [Ring_tcpcubic.deliver]; try solve [frame_cases].
    + destruct (ring_invoke_frame (CongestionWindow oldCwnd newCwnd) s
                  (cwnd_callbacks (ker s))) as (Hk & _ & Ht & _).
      rewrite Hk, Ht; frame_cases.
    + destruct (ring_invoke_frame (RTT oldRtt newRtt) s
                  (rtt_callbacks (ker s))) as (Hk & _ & Ht & _).
      rewrite Hk, Ht; frame_cases.
Qed.

Lemma ring_tick_step {D} `{Double D} (net : network) (s : sim D) :
  (exists v,
      throughputFile (out (Ring_tcpcubic.findThroughput net s))
      = throughputFile (out s) ++ [(Now s, v)])
  /\ queue (ker (Ring_tcpcubic.findThroughput net s))
     = insert_event (Now s + Seconds 1) findThroughput_ev (queue (ker s)).
Proof.
  unfold Ring_tcpcubic.findThroughput; split; [eexists |]; reflexivity.
Qed.

Lemma ring_main_pending {D} `{Double D}
    (net_events : list (Time * notification)) :
  pending is_findThroughput
    (queue (ker (Ring_tcpcubic.main (D := D) net_events)))
  = [Seconds (1 # 100) + Z.of_nat 0 * Seconds 1]
  /\ out (Ring_tcpcubic.main (D := D) net_events)
     = {| cwndFile := []; rttFile := []; throughputFile := [];
          packetLossFile := [] |}.
Proof.
  unfold Ring_tcpcubic.main.
  cbn [Stop Schedule set_queue with_ker ker queue out Now now].
  change (now (ker (startup net_events))) with (Now (startup (D := D) net_events)).
  rewrite startup_now, startup_out; split; [| reflexivity].
  rewrite !pending_insert_other by reflexivity.
  apply pending_insert_only; [reflexivity |].
  rewrite !pending_insert_other by reflexivity.
  apply startup_pending; reflexivity.
Qed.

(** *** Samplers that skip ticks *)

Lemma increasing_below_weaken (m m' : nat) (ks : list nat) :
  (m <= m')%nat -> increasing_below m ks -> increasing_below m' ks.
Proof.
  intros Hm; induction ks as [| k ks IH]; [trivial |].
  intros (Hk & Hall & Hks); cbn [increasing_below].
  split; [lia | split; [exact Hall | apply IH, Hks]].
Qed.

Lemma increasing_below_snoc (m : nat) (ks : list nat) :
  increasing_below m ks -> increasing_below (S m) (ks ++ [m]).
Proof.
  induction ks as [| k ks IH]; cbn [app increasing_below].
  - intros _; split; [lia | split; [constructor | exact I]].
  - intros (Hk & Hall & Hks).
    split; [lia | split; [| apply IH, Hks]].
    apply Forall_app; split; [exact Hall | constructor; [exact Hk | constructor]].
Qed.

Section Skipping.

Context {D : Type}.
Variable dispatch : event -> sim D -> sim D.
Variable sel : event -> bool.
Variable file : files D -> list (row D).
Variables first period : Time.

(** The selected event appends one row stamped with the current time, or
    none, and schedules itself one period later. *)
Hypothesis tick_step :
  forall (e : event) (s : sim D),
    sel e = true ->
    (file (out (dispatch e s)) = file (out s)
     \/ exists v : D, file (out (dispatch e s)) = file (out s) ++ [(Now s, v)])
    /\ queue (ker (dispatch e s))
       = insert_event (Now s + period) e (queue (ker s)).

(** No other event writes the stream or schedules the selected event. *)
Hypothesis other_step :
  forall (e : event) (s : sim D),
    sel e = false ->
    file (out (dispatch e s)) = file (out s)
    /\ pending sel (queue (ker (dispatch e s))) = pending sel (queue (ker s)).

(** While the rows written are those of the ticks [ks] among the first
    [m] and tick [m] is the only one pending, an event of the simulator
    keeps it so, with one more tick and at most one more row. *)
Lemma skipping_step (m : nat) (ks : list nat) (s : sim D) :
  map fst (file (out s)) = tick_times first period ks ->
  increasing_below m ks ->
  pending sel (queue (ker s)) = [first + Z.of_nat m * period] ->
  exists (m' : nat) (ks' : list nat),
    map fst (file (out (ProcessOneEvent dispatch s)))
      = tick_times first period ks'
    /\ increasing_below m' ks'
    /\ pending sel (queue (ker (ProcessOneEvent dispatch s)))
       = [first + Z.of_nat m' * period].
Proof.
  intros Hfile Hinc Hpend; unfold ProcessOneEvent.
  destruct (queue (ker s)) as [| [t e] q] eqn:Hq.
  { exists m, ks; repeat split; [exact Hfile | exact Hinc |].
    rewrite Hq; exact Hpend. }
  unfold pending in Hpend; cbn [filter snd] in Hpend.
  destruct (sel e) eqn:He.
  - cbn [map fst] in Hpend.
    injection Hpend as Ht Hrest.
    destruct (tick_step e (set_now t (set_queue q s)) He) as [Hrow Hsched].
    change (out (set_now t (set_queue q s))) with (out s) in Hrow.
    change (Now (set_now t (set_queue q s))) with t in Hrow, Hsched.
    change (queue (ker (set_now t (set_queue q s)))) with q in Hsched.
    assert (Hnext : pending sel
                      (queue (ker (dispatch e (set_now t (set_queue q s)))))
                    = [first + Z.of_nat (S m) * period]).
    { rewrite Hsched, (pending_insert_only sel _ e q He Hrest), Ht.
      f_equal; lia. }
    destruct Hrow as [Hrow | [v Hrow]].
    + exists (S m), ks; repeat split; [| | exact Hnext].
      * rewrite Hrow; exact Hfile.
      * apply (increasing_below_weaken m); [lia | exact Hinc].
    + exists (S m), (ks ++ [m]%nat); repeat split; [| | exact Hnext].
      * rewrite Hrow, map_app; unfold tick_times; rewrite map_app.
        f_equal; [exact Hfile | cbn [map fst]; rewrite Ht; reflexivity].
      * apply increasing_below_snoc, Hinc.
  - exists m, ks.
    destruct (other_step e (set_now t (set_queue q s)) He) as [Hrow Hsched].
    change (out (set_now t (set_queue q s))) with (out s) in Hrow.
    change (queue (ker (set_now t (set_queue q s)))) with q in Hsched.
    repeat split; [rewrite Hrow; exact Hfile | exact Hinc |].
    rewrite Hsched; exact Hpend.
Qed.

Lemma skipping_run (fuel : nat) :
  forall (m : nat) (ks : list nat) (s : sim D),
    map fst (file (out s)) = tick_times first period ks ->
    increasing_below m ks ->
    pending sel (queue (ker s)) = [first + Z.of_nat m * period] ->
    exists (m' : nat) (ks' : list nat),
      map fst (file (out (Run dispatch fuel s))) = tick_times first period ks'
      /\ increasing_below m' ks'.
Proof.
  induction fuel as [| fuel IH]; intros m ks s Hfile Hinc Hpend; cbn [Run];
    [exists m, ks; split; assumption |].
  destruct (finished s); [exists m, ks; split; assumption |].
  destruct (skipping_step m ks s Hfile Hinc Hpend)
    as (m' & ks' & Hfile' & Hinc' & Hpend').
  exact (IH m' ks' _ Hfile' Hinc' Hpend').
Qed.

End Skipping.

Lemma quicbbr_loss_frame_step {D} `{Double D} (net : network) (e : event)
    (s : sim D) :
  is_CalculatePacketLoss e = false ->
  let s' := PointToPoint_quicbbr.dispatch net e s in
  packetLossFile (out s') = packetLossFile (out s)
  /\ pending is_CalculatePacketLoss (queue (ker s'))
     = pending is_CalculatePacketLoss (queue (ker s)).
Proof.
  intros He; cbv zeta.
  destruct e as [app | | | | | | | n]; try discriminate He;
    cbn [PointToPoint_quicbbr.dispatch].
  - unfold PointToPoint_quicbbr.AttachTraces.
    destruct app; [destruct (GetSocket net (Now s)) as [[| |] |] |];
      frame_cases.
  - unfold PointToPoint_quicbbr.TraceMetrics; frame_cases.
  - frame_cases.
  - frame_cases.
  - frame_cases.
  - frame_cases.
  - destruct n as [| | oldCwnd newCwnd | oldRtt newRtt];
      cbn [PointToPoint_quicbbr.deliver].
    + frame_cases.
    + frame_cases.
    + destruct (quicbbr_invoke_frame (CongestionWindow oldCwnd newCwnd) s
                  (cwnd_callbacks (ker s))) as (Hk & Ho & _).
      rewrite Hk, Ho; split; reflexivity.
    + destruct (quicbbr_invoke_frame (RTT oldRtt newRtt) s
                  (rtt_callbacks (ker s))) as (Hk & Ho & _).
      rewrite Hk, Ho; split; reflexivity.
Qed.

Lemma ring_loss_frame_step {D} `{Double D} (net : network) (e : event)
    (s : sim D) :
  is_CalculatePacketLoss e = false ->
  let s' := Ring_tcpcubic.dispatch net e s in
  packetLossFile (out s') = packetLossFile (out s)
  /\ pending is_CalculatePacketLoss (queue (ker s'))
     = pending is_CalculatePacketLoss (queue (ker s)).
Proof.
  intros He; cbv zeta.
  destruct e as [app | | | | | | | n]; try discriminate He;
    cbn [Ring_tcpcubic.dispatch].
  - unfold Ring_tcpcubic.AttachSocketTraces, Ring_tcpcubic.TraceCwndRtt.
    destruct app; [destruct (GetSocket net (Now s)) as [[| |] |] |];
      frame_cases.
  - frame_cases.
  - unfold Ring_tcpcubic.findThroughput; frame_cases.
  - frame_cases.
  - frame_cases.
  - frame_cases.
  - destruct n as [| | oldCwnd newCwnd | oldRtt newRtt];
      cbn [Ring_tcpcubic.deliver].
    + frame_cases.
    + frame_cases.
    + destruct (ring_invoke_frame (CongestionWindow oldCwnd newCwnd) s
                  (cwnd_callbacks (ker s))) as (Hk & _ & _ & Hl).
      rewrite Hk, Hl; split; reflexivity.
    + destruct (ring_invoke_frame (RTT oldRtt newRtt) s
                  (rtt_callbacks (ker s))) as (Hk & _ & _ & Hl).
      rewrite Hk, Hl; split; reflexivity.
Qed.

(** The loss ticks of the two programs write the row or skip it, and
    schedule the next tick one second later in either case. *)
Lemma skipping_loss_tick_step {D} `{Double D} (s : sim D) :
  ((packetLossFile (out (PointToPoint_quicbbr.CalculatePacketLoss s))
    = packetLossFile (out s)
    \/ exists v,
         packetLossFile (out (PointToPoint_quicbbr.CalculatePacketLoss s))
         = packetLossFile (out s) ++ [(Now s, v)])
   /\ queue (ker (PointToPoint_quicbbr.CalculatePacketLoss s))
      = insert_event (Now s + Seconds 1) CalculatePacketLoss_ev (queue (ker s)))
  /\ ((packetLossFile (out (Ring_tcpcubic.CalculatePacketLoss s))
       = packetLossFile (out s)
       \/ exists v,
            packetLossFile (out (Ring_tcpcubic.CalculatePacketLoss s))
            = packetLossFile (out s) ++ [(Now s, v)])
      /\ queue (ker (Ring_tcpcubic.CalculatePacketLoss s))
         = insert_event (Now s + Seconds 1) CalculatePacketLoss_ev
             (queue (ker s))).
Proof.
  unfold PointToPoint_quicbbr.CalculatePacketLoss,
    Ring_tcpcubic.CalculatePacketLoss.
  destruct (0 <? packetsSent (glob s)); repeat split;
    first [left; reflexivity | right; eexists; reflexivity].
Qed.

Lemma skipping_loss_main_pending {D} `{Double D}
    (net_events : list (Time * notification)) :
  pending is_CalculatePacketLoss
    (queue (ker (PointToPoint_quicbbr.main (D := D) net_events)))
  = [Seconds 1 + Z.of_nat 0 * Seconds 1]
  /\ pending is_CalculatePacketLoss
       (queue (ker (Ring_tcpcubic.main (D := D) net_events)))
     = [Seconds 1 + Z.of_nat 0 * Seconds 1].
Proof.
  unfold PointToPoint_quicbbr.main, Ring_tcpcubic.main.
  cbn [Stop Schedule set_queue with_ker ker queue out Now now].
  change (now (ker (startup net_events))) with (Now (startup (D := D) net_events)).
  rewrite startup_now; split.
  - rewrite pending_insert_other by reflexivity.
    apply pending_insert_only; [reflexivity |].
    rewrite !pending_insert_other by reflexivity.
    apply startup_pending; reflexivity.
  - rewrite pending_insert_other by reflexivity.
    apply pending_insert_only; [reflexivity |].
    rewrite !pending_insert_other by reflexivity.
    apply startup_pending; reflexivity.
Qed.

Lemma sample_times_nth (first period : Time) (m i : nat) :
  (i < m)%nat ->
  nth i (sample_times first period m) 0 = first + Z.of_nat i * period.
Proof.
  intros Hi; unfold sample_times.
  rewrite (nth_indep _ 0 ((fun k => first + Z.of_nat k * period) 0%nat))
    by (rewrite length_map, length_seq; exact Hi).
  rewrite (map_nth (fun k => first + Z.of_nat k * period)).
  rewrite seq_nth by exact Hi; reflexivity.
Qed.

(** C2 (as amended). Whatever the network does and however long the
    simulator has run, the rows a periodic sampler has written carry the
    times [first + k * period] for [k = 0, 1, ...], where [first] is the
    delay [main] gives the first tick: throughput, RTT and window rows of
    the point-to-point QUIC program with [first = period = 1 s] (so the
    [i]-th row is at [(i + 1) * period]); throughput and loss rows of the
    point-to-point TCP program with [first = 1 s], [period = 0.1 s];
    throughput rows of the ring TCP program with [first = 0.01 s],
    [period = 1 s]. No row is at time 0 and consecutive rows of a stream
    are one period apart. The loss tick of the point-to-point QUIC
    program and of the ring TCP program runs every second from 1 s on
    and writes no row while nothing has been sent: their loss rows are
    those of some of the ticks [1 s + k * 1 s], in strictly increasing
    order of [k], so that every one is at a positive multiple of the
    period and two consecutive ones are a positive multiple of the period
    apart. *)
Theorem sample_times_of_periodic_samplers :
  forall (D : Type) (DD : Double D) (net : network)
         (net_events : list (Time * notification)) (fuel : nat),
    (let s := Run (PointToPoint_quicbbr.dispatch net) fuel
                (PointToPoint_quicbbr.main net_events) in
     (exists m, map fst (throughputFile (out s))
                = sample_times (Seconds 1) (Seconds 1) m)
     /\ (exists m, map fst (rttFile (out s))
                   = sample_times (Seconds 1) (Seconds 1) m)
     /\ (exists m, map fst (cwndFile (out s))
                   = sample_times (Seconds 1) (Seconds 1) m))
    /\ (let s := Run (PointToPoint_tcpcubic.dispatch net) fuel
                   (PointToPoint_tcpcubic.main net_events) in
        (exists m, map fst (throughputFile (out s))
                   = sample_times (Seconds 1) (MilliSeconds 100) m)
        /\ (exists m, map fst (packetLossFile (out s))
                      = sample_times (Seconds 1) (MilliSeconds 100) m))
    /\ (let s := Run (Ring_tcpcubic.dispatch net) fuel
                   (Ring_tcpcubic.main net_events) in
        exists m, map fst (throughputFile (out s))
                  = sample_times (Seconds (1 # 100)) (Seconds 1) m)
    /\ (forall (first period : Time) (m i : nat),
           (i < m)%nat ->
           nth i (sample_times first period m) 0
           = first + Z.of_nat i * period)
    /\ (forall m i : nat,
           (i < m)%nat ->
           nth i (sample_times (Seconds 1) (Seconds 1) m) 0
           = Z.of_nat (S i) * Seconds 1)
    /\ (let s := Run (PointToPoint_quicbbr.dispatch net) fuel
                   (PointToPoint_quicbbr.main net_events) in
        exists (m : nat) (ks : list nat),
          map fst (packetLossFile (out s))
          = tick_times (Seconds 1) (Seconds 1) ks
          /\ increasing_below m ks)
    /\ (let s := Run (Ring_tcpcubic.dispatch net) fuel
                   (Ring_tcpcubic.main net_events) in
        exists (m : nat) (ks : list nat),
          map fst (packetLossFile (out s))
          = tick_times (Seconds 1) (Seconds 1) ks
          /\ increasing_below m ks)
    /\ (forall ks : list nat,
           Forall (fun t => exists j : Z, 1 <= j /\ t = j * Seconds 1)
             (tick_times (Seconds 1) (Seconds 1) ks)).
Proof.
  intros D DD net net_events fuel.
  destruct (skipping_loss_main_pending (D := D) net_events) as (Hql & Hrl).
  destruct (quicbbr_main_pending (D := D) net_events) as (Hqp & Hqo).
  destruct (tcpcubic_main_pending (D := D) net_events) as (Htp & Htl & Hto).
  destruct (ring_main_pending (D := D) net_events) as (Hrp & Hro).
  split; [cbv zeta; split; [| split] |].
  - apply (sampling_run (PointToPoint_quicbbr.dispatch net) is_TraceMetrics
             throughputFile (Seconds 1) (Seconds 1)) with (m := 0%nat).
    + intros e s He.
      destruct (quicbbr_tick_step net e s He) as (Hrow & _ & _ & Hq).
      split; assumption.
    + intros e s He.
      destruct (quicbbr_other_step net e s He) as (Hrow & _ & _ & Hq).
      split; assumption.
    + rewrite Hqo; reflexivity.
    + exact Hqp.
  - apply (sampling_run (PointToPoint_quicbbr.dispatch net) is_TraceMetrics
             rttFile (Seconds 1) (Seconds 1)) with (m := 0%nat).
    + intros e s He.
      destruct (quicbbr_tick_step net e s He) as (_ & Hrow & _ & Hq).
      split; assumption.
    + intros e s He.
      destruct (quicbbr_other_step net e s He) as (_ & Hrow & _ & Hq).
      split; assumption.
    + rewrite Hqo; reflexivity.
    + exact Hqp.
  - apply (sampling_run (PointToPoint_quicbbr.dispatch net) is_TraceMetrics
             cwndFile (Seconds 1) (Seconds 1)) with (m := 0%nat).
    + intros e s He.
      destruct (quicbbr_tick_step net e s He) as (_ & _ & Hrow & Hq).
      split; assumption.
    + intros e s He.
      destruct (quicbbr_other_step net e s He) as (_ & _ & Hrow & Hq).
      split; assumption.
    + rewrite Hqo; reflexivity.
    + exact Hqp.
  - split; [cbv zeta; split |].
    + apply (sampling_run (PointToPoint_tcpcubic.dispatch net)
               is_findThroughput throughputFile (Seconds 1) (MilliSeconds 100))
        with (m := 0%nat).
      * intros e s He; destruct e; try discriminate He.
        destruct (tcpcubic_tick_step net s) as (Hrow & Hq & _).
        split; assumption.
      * intros e s He; exact (tcpcubic_throughput_other_step net e s He).
      * rewrite Hto; reflexivity.
      * exact Htp.
    + apply (sampling_run (PointToPoint_tcpcubic.dispatch net)
               is_CalculatePacketLoss packetLossFile (Seconds 1)
               (MilliSeconds 100)) with (m := 0%nat).
      * intros e s He; destruct e; try discriminate He.
        destruct (tcpcubic_tick_step net s) as (_ & _ & Hrow & Hq).
        split; assumption.
      * intros e s He; exact (tcpcubic_loss_other_step net e s He).
      * rewrite Hto; reflexivity.
      * exact Htl.
    + split; [cbv zeta | split].
      * apply (sampling_run (Ring_tcpcubic.dispatch net) is_findThroughput
                 throughputFile (Seconds (1 # 100)) (Seconds 1))
          with (m := 0%nat).
        -- intros e s He; destruct e; try discriminate He.
           exact (ring_tick_step net s).
        -- intros e s He; exact (ring_other_step net e s He).
        -- rewrite Hro; reflexivity.
        -- exact Hrp.
      * intros first period m i Hi; apply sample_times_nth; exact Hi.
      * split; [| split; [cbv zeta | split; [cbv zeta |]]].
        -- intros m i Hi; rewrite sample_times_nth by exact Hi.
           change (Seconds 1) with 1000000000; lia.
        -- apply (skipping_run (PointToPoint_quicbbr.dispatch net)
                    is_CalculatePacketLoss packetLossFile (Seconds 1)
                    (Seconds 1)) with (m := 0%nat) (ks := @nil nat).
           ++ intros e s He; destruct e; try discriminate He.
              exact (proj1 (skipping_loss_tick_step s)).
           ++ intros e s He; exact (quicbbr_loss_frame_step net e s He).
           ++ rewrite Hqo; reflexivity.
           ++ exact I.
           ++ exact Hql.
        -- apply (skipping_run (Ring_tcpcubic.dispatch net)
                    is_CalculatePacketLoss packetLossFile (Seconds 1)
                    (Seconds 1)) with (m := 0%nat) (ks := @nil nat).
           ++ intros e s He; destruct e; try discriminate He.
              exact (proj2 (skipping_loss_tick_step s)).
           ++ intros e s He; exact (ring_loss_frame_step net e s He).
           ++ rewrite Hro; reflexivity.
           ++ exact I.
           ++ exact Hrl.
        -- intros ks; unfold tick_times; apply Forall_map, Forall_forall.
           intros k _; exists (Z.of_nat (S k)); split; [lia |].
           change (Seconds 1) with 1000000000; lia.
Qed.

(** The samplers do produce rows: without any notification from the
    network the point-to-point QUIC program stops with 99 throughput
    samples, one each second from 1 s to 99 s. *)
Example quicbbr_throughput_samples_of_a_run :
  map fst (throughputFile
             (out (Run (PointToPoint_quicbbr.dispatch (D := Q) example_network)
                     1000 (PointToPoint_quicbbr.main []))))
  = sample_times (Seconds 1) (Seconds 1) 99.
Proof. vm_compute. reflexivity. Qed.

(** C2 (as stated) fails: the first throughput sample of the
    point-to-point TCP program is at 1 s although its period is 0.1 s,
    and the first throughput sample of the ring TCP program is at 0.01 s,
    before one period of 1 s has elapsed and at no multiple of it. (And
    when the first packet is sent at 1.5 s, the loss rows of the
    point-to-point QUIC program, whose period is 1 s, begin at 2 s; and
    a window row of the point-to-point TCP program is at the time of the
    notification that writes it, 1.05 s here, no multiple of 0.1 s.) *)
Lemma first_sample_not_at_one_period :
  map fst (throughputFile
             (out (Run (PointToPoint_tcpcubic.dispatch (D := Q) example_network)
                     5 (PointToPoint_tcpcubic.main []))))
  = [1000000000; 1100000000]
  /\ MilliSeconds 100 = 100000000
  /\ 1000000000 <> MilliSeconds 100
  /\ map fst (throughputFile
                (out (Run (Ring_tcpcubic.dispatch (D := Q) example_network)
                        5 (Ring_tcpcubic.main []))))
     = [10000000; 1010000000]
  /\ 10000000 < Seconds 1
  /\ 10000000 mod Seconds 1 <> 0
  /\ map fst (packetLossFile
                (out (Run (PointToPoint_quicbbr.dispatch (D := Q) example_network)
                        8 (PointToPoint_quicbbr.main [(1500000000, Tx)]))))
     = [2000000000; 3000000000]
  /\ map fst (cwndFile
                (out (Run (PointToPoint_tcpcubic.dispatch (D := Q) example_network)
                        8 (PointToPoint_tcpcubic.main
                             [(1050000000, CongestionWindow 0 3000)]))))
     = [1050000000]
  /\ 1050000000 mod MilliSeconds 100 <> 0.
Proof.
  repeat split; try reflexivity; vm_compute; discriminate.
Qed.

(** ** Packet counters *)

(** What each event of the point-to-point QUIC program does to the two
    counters. *)
Lemma quicbbr_counters_step {D} `{Double D} (net : network) (e : event)
    (s : sim D) :
  let s' := PointToPoint_quicbbr.dispatch net e s in
  match e with
  | Notify Tx =>
      packetsSent (glob s') = u32 (packetsSent (glob s) + 1)
      /\ packetsReceived (glob s') = packetsReceived (glob s)
  | Notify Rx =>
      packetsSent (glob s') = packetsSent (glob s)
      /\ packetsReceived (glob s') = u32 (packetsReceived (glob s) + 1)
  | _ =>
      packetsSent (glob s') = packetsSent (glob s)
      /\ packetsReceived (glob s') = packetsReceived (glob s)
  end.
Proof.
  cbv zeta.
  destruct e as [app | | | | | | | n]; cbn [PointToPoint_quicbbr.dispatch];
    try solve [split; reflexivity].
  - unfold PointToPoint_quicbbr.AttachTraces.
    destruct app; [destruct (GetSocket net (Now s)) as [[| |] |] |];
      split; reflexivity.
  - unfold PointToPoint_quicbbr.CalculatePacketLoss.
    destruct (0 <? packetsSent (glob s)); split; reflexivity.
  - destruct n as [| | oldCwnd newCwnd | oldRtt newRtt];
      cbn [PointToPoint_quicbbr.deliver]; try solve [split; reflexivity].
    + destruct (quicbbr_invoke_frame (CongestionWindow oldCwnd newCwnd) s
                  (cwnd_callbacks (ker s))) as (_ & _ & Hs & Hr).
      split; assumption.
    + destruct (quicbbr_invoke_frame (RTT oldRtt newRtt) s
                  (rtt_callbacks (ker s))) as (_ & _ & Hs & Hr).
      split; assumption.
Qed.

Lemma u32_succ_bounds (c : Z) :
  0 <= c -> c + 1 < 2 ^ 32 -> u32 (c + 1) = c + 1.
Proof. intros H0 H1; apply u32_small; lia. Qed.

(** One event moves each counter up by at most one, as long as the
    counter is below its last 32-bit value. *)
Lemma quicbbr_counters_event {D} `{Double D} (net : network) (s : sim D) :
  let s' := ProcessOneEvent (PointToPoint_quicbbr.dispatch net) s in
  (0 <= packetsSent (glob s) -> packetsSent (glob s) + 1 < 2 ^ 32 ->
   packetsSent (glob s) <= packetsSent (glob s') <= packetsSent (glob s) + 1)
  /\ (0 <= packetsReceived (glob s) ->
      packetsReceived (glob s) + 1 < 2 ^ 32 ->
      packetsReceived (glob s) <= packetsReceived (glob s')
      <= packetsReceived (glob s) + 1).
Proof.
  cbv zeta; unfold ProcessOneEvent.
  destruct (queue (ker s)) as [| [t e] q]; [split; intros; lia |].
  pose proof (quicbbr_counters_step net e (set_now t (set_queue q s))) as Hstep.
  cbv zeta in Hstep.
  change (glob (set_now t (set_queue q s))) with (glob s) in Hstep.
  destruct e as [app | | | | | | | [| | oldCwnd newCwnd | oldRtt newRtt]];
    destruct Hstep as [Hs Hr]; rewrite Hs, Hr;
    split; intros H0 H1; try rewrite u32_succ_bounds by assumption; lia.
Qed.

Lemma quicbbr_counters_run {D} `{Double D} (net : network) (fuel : nat) :
  forall s : sim D,
    let s' := Run (PointToPoint_quicbbr.dispatch net) fuel s in
    (0 <= packetsSent (glob s) ->
     packetsSent (glob s) + Z.of_nat fuel < 2 ^ 32 ->
     packetsSent (glob s) <= packetsSent (glob s')
     <= packetsSent (glob s) + Z.of_nat fuel)
    /\ (0 <= packetsReceived (glob s) ->
        packetsReceived (glob s) + Z.of_nat fuel < 2 ^ 32 ->
        packetsReceived (glob s) <= packetsReceived (glob s')
        <= packetsReceived (glob s) + Z.of_nat fuel).
Proof.
  induction fuel as [| fuel IH]; intros s; cbv zeta.
  - cbn [Run]; split; intros; lia.
  - cbn [Run]. destruct (finished s); [split; intros; lia |].
    destruct (quicbbr_counters_event net s) as [Hs Hr].
    destruct (IH (ProcessOneEvent (PointToPoint_quicbbr.dispatch net) s))
      as [IHs IHr].
    split; intros H0 H1.
    + specialize (Hs H0 ltac:(lia)).
      specialize (IHs ltac:(lia) ltac:(lia)). lia.
    + specialize (Hr H0 ltac:(lia)).
      specialize (IHr ltac:(lia) ltac:(lia)). lia.
Qed.

Lemma Run_add {D} (dispatch : event -> sim D -> sim D) (a b : nat) :
  forall s : sim D, Run dispatch (a + b) s = Run dispatch b (Run dispatch a s).
Proof.
  induction a as [| a IH]; intros s; [reflexivity |].
  cbn [Nat.add Run].
  destruct (finished s) eqn:Hfin; [| apply IH].
  symmetry; apply Run_finished; exact Hfin.
Qed.

(** C8 (as amended). In the point-to-point QUIC program the counters
    change only when a ["Tx"] or ["Rx"] notification runs its callback,
    which adds one, modulo 2^32, to its own counter; every other event
    leaves both as they are, in particular each [TraceMetrics] and each
    [CalculatePacketLoss] tick. Hence along a run neither counter
    decreases while it stays below 2^32. In the bus program the loss tick
    leaves the sent counter as it is and overwrites the received counter
    with the sink's byte total divided by 1500. *)
Theorem counters_change_only_in_callbacks :
  forall (D : Type) (DD : Double D) (net : network),
    (forall (e : event) (s : sim D),
        let s' := PointToPoint_quicbbr.dispatch net e s in
        match e with
        | Notify Tx =>
            packetsSent (glob s') = u32 (packetsSent (glob s) + 1)
            /\ packetsReceived (glob s') = packetsReceived (glob s)
        | Notify Rx =>
            packetsSent (glob s') = packetsSent (glob s)
            /\ packetsReceived (glob s') = u32 (packetsReceived (glob s) + 1)
        | _ =>
            packetsSent (glob s') = packetsSent (glob s)
            /\ packetsReceived (glob s') = packetsReceived (glob s)
        end)
    /\ (forall s : sim D,
           packetsSent (glob (PointToPoint_quicbbr.TraceMetrics net s))
           = packetsSent (glob s)
           /\ packetsReceived (glob (PointToPoint_quicbbr.TraceMetrics net s))
              = packetsReceived (glob s)
           /\ packetsSent (glob (PointToPoint_quicbbr.CalculatePacketLoss s))
              = packetsSent (glob s)
           /\ packetsReceived
                (glob (PointToPoint_quicbbr.CalculatePacketLoss s))
              = packetsReceived (glob s))
    /\ (forall (s : sim D) (a b : nat),
           0 <= packetsSent (glob s) ->
           packetsSent (glob s) + Z.of_nat (a + b) < 2 ^ 32 ->
           packetsSent (glob (Run (PointToPoint_quicbbr.dispatch net) a s))
           <= packetsSent
                (glob (Run (PointToPoint_quicbbr.dispatch net) (a + b) s)))
    /\ (forall (s : sim D) (a b : nat),
           0 <= packetsReceived (glob s) ->
           packetsReceived (glob s) + Z.of_nat (a + b) < 2 ^ 32 ->
           packetsReceived (glob (Run (PointToPoint_quicbbr.dispatch net) a s))
           <= packetsReceived
                (glob (Run (PointToPoint_quicbbr.dispatch net) (a + b) s)))
    /\ (forall s : sim D,
           packetsSent (glob (Bus_quicbbr.CalculatePacketLoss net s))
           = packetsSent (glob s)
           /\ packetsReceived (glob (Bus_quicbbr.CalculatePacketLoss net s))
              = u32 (u64 (GetTotalRx net (Now s)) / 1500)).
Proof.
  intros D DD net.
  split; [intros e s; apply quicbbr_counters_step |].
  split.
  { intros s.
    destruct (quicbbr_counters_step net TraceMetrics_ev s) as [Hs Hr].
    destruct (quicbbr_counters_step net CalculatePacketLoss_ev s) as [Hs' Hr'].
    repeat split; assumption. }
  split.
  { intros s a b H0 H1. rewrite Run_add.
    destruct (quicbbr_counters_run net a s) as [Ha _].
    specialize (Ha H0 ltac:(lia)).
    destruct (quicbbr_counters_run net b
                (Run (PointToPoint_quicbbr.dispatch net) a s)) as [Hb _].
    specialize (Hb ltac:(lia) ltac:(lia)). lia. }
  split.
  { intros s a b H0 H1. rewrite Run_add.
    destruct (quicbbr_counters_run net a s) as [_ Ha].
    specialize (Ha H0 ltac:(lia)).
    destruct (quicbbr_counters_run net b
                (Run (PointToPoint_quicbbr.dispatch net) a s)) as [_ Hb].
    specialize (Hb ltac:(lia) ltac:(lia)). lia. }
  intros s; unfold Bus_quicbbr.CalculatePacketLoss.
  cbn [glob set_packetsReceived with_glob log with_ker packetsSent].
  destruct (0 <? packetsSent (glob s)); split; reflexivity.
Qed.

(** A run in which one packet is sent at 1.5 s and received at 1.6 s:
    the sent counter after four events is not above the one after ten. *)
Lemma counters_change_only_in_callbacks_witness :
  packetsSent
    (glob (Run (PointToPoint_quicbbr.dispatch (D := Q) example_network) 4
             (PointToPoint_quicbbr.main [(1500000000, Tx); (1600000000, Rx)])))
  <= packetsSent
       (glob (Run (PointToPoint_quicbbr.dispatch (D := Q) example_network)
                (4 + 6)
                (PointToPoint_quicbbr.main
                   [(1500000000, Tx); (1600000000, Rx)]))).
Proof.
  destruct (counters_change_only_in_callbacks Q Double_Q example_network)
    as (_ & _ & Hsent & _).
  apply Hsent; vm_compute; [discriminate | reflexivity].
Defined.

(** C8 (as stated) fails: a loss tick of the bus program changes the
    received counter, here from 0 to 2 when the sink has 3000 bytes. *)
Lemma loss_tick_overwrites_received :
  packetsReceived (glob (startup (D := Q) [])) = 0
  /\ packetsReceived
       (glob (Bus_quicbbr.CalculatePacketLoss
                {| GetSocket := fun _ => None; GetTotalRx := fun _ => 3000 |}
                (startup (D := Q) [])))
     = 2.
Proof. split; reflexivity. Qed.

(** The bound on the counters matters: the increment wraps at 2^32. *)
Example sent_counter_wraps :
  packetsSent (glob (PointToPoint_quicbbr.PacketSentCallback
                       (counted (D := Q) 4294967295 0))) = 0.
Proof. reflexivity. Qed.

(** ** Trace attachment within the whole program *)

Lemma quicbbr_attach_other_step {D} `{Double D} (net : network) (e : event)
    (s : sim D) :
  is_AttachTraces e = false ->
  let s' := PointToPoint_quicbbr.dispatch net e s in
  cwnd_callbacks (ker s') = cwnd_callbacks (ker s)
  /\ rtt_callbacks (ker s') = rtt_callbacks (ker s)
  /\ pending is_AttachTraces (queue (ker s'))
     = pending is_AttachTraces (queue (ker s)).
Proof.
  intros He; cbv zeta.
  destruct e as [app | | | | | | | n]; try discriminate He;
    cbn [PointToPoint_quicbbr.dispatch]; try solve [frame_cases].
  - unfold PointToPoint_quicbbr.TraceMetrics; frame_cases.
  - unfold PointToPoint_quicbbr.CalculatePacketLoss.
    destruct (0 <? packetsSent (glob s)); frame_cases.
  - destruct n as [| | oldCwnd newCwnd | oldRtt newRtt];
      cbn [PointToPoint_quicbbr.deliver]; try solve [frame_cases].
    + destruct (quicbbr_invoke_frame (CongestionWindow oldCwnd newCwnd) s
                  (cwnd_callbacks (ker s))) as (Hk & _).
      rewrite Hk; frame_cases.
    + destruct (quicbbr_invoke_frame (RTT oldRtt newRtt) s
                  (rtt_callbacks (ker s))) as (Hk & _).
      rewrite Hk; frame_cases.
Qed.

Section AttachOnce.

Context {D : Type} `{Double D}.
Variable net : network.

Lemma attaching_step (s : sim D) :
  attaching s ->
  attaching (ProcessOneEvent (PointToPoint_quicbbr.dispatch net) s).
Proof.
  unfold attaching, ProcessOneEvent.
  destruct (queue (ker s)) as [| [t e] q] eqn:Hq; [rewrite Hq; tauto |].
  destruct (is_AttachTraces e) eqn:He.
  - assert (Hcons : pending is_AttachTraces ((t, e) :: q)
                      = t :: pending is_AttachTraces q)
      by (unfold pending; cbn [filter snd]; rewrite He; reflexivity).
    rewrite Hcons.
    intros [([t0 Hp] & Hc & Hr) | [(Hp & _) | (Hp & _)]];
      try discriminate Hp.
    injection Hp as _ Hrest.
    destruct e as [app | | | | | | | n]; try discriminate He.
    cbn [PointToPoint_quicbbr.dispatch].
    unfold PointToPoint_quicbbr.AttachTraces.
    change (Now (set_now t (set_queue q s))) with t.
    destruct app; [destruct (GetSocket net t) as [[| |] |] |];
      cbn [Schedule log TraceConnect_CongestionWindow TraceConnect_RTT
           set_now set_queue with_ker ker queue cwnd_callbacks rtt_callbacks
           Now now];
      rewrite ?Hc, ?Hr.
    + right; left; repeat split; exact Hrest.
    + left; split; [| split; reflexivity].
      eexists; apply pending_insert_only; [reflexivity | exact Hrest].
    + left; split; [| split; reflexivity].
      eexists; apply pending_insert_only; [reflexivity | exact Hrest].
    + left; split; [| split; reflexivity].
      eexists; apply pending_insert_only; [reflexivity | exact Hrest].
    + right; right; repeat split; exact Hrest.
  - destruct (quicbbr_attach_other_step net e (set_now t (set_queue q s)) He)
      as (Hc & Hr & Hp).
    change (cwnd_callbacks (ker (set_now t (set_queue q s))))
      with (cwnd_callbacks (ker s)) in Hc.
    change (rtt_callbacks (ker (set_now t (set_queue q s))))
      with (rtt_callbacks (ker s)) in Hr.
    change (queue (ker (set_now t (set_queue q s)))) with q in Hp.
    assert (Hcons : pending is_AttachTraces ((t, e) :: q)
                      = pending is_AttachTraces q)
      by (unfold pending; cbn [filter snd]; rewrite He; reflexivity).
    rewrite Hc, Hr, Hp, Hcons; tauto.
Qed.

Lemma attaching_run (fuel : nat) :
  forall s : sim D,
    attaching s -> attaching (Run (PointToPoint_quicbbr.dispatch net) fuel s).
Proof.
  induction fuel as [| fuel IH]; intros s Hs; cbn [Run]; [exact Hs |].
  destruct (finished s); [exact Hs |].
  apply IH, attaching_step, Hs.
Qed.

(** In every run of the whole program, whatever the network does, each
    trace source of the socket has at most its one callback connected,
    and once it is connected no attachment attempt is pending. *)
Theorem attach_never_connects_twice :
  forall (net_events : list (Time * notification)) (fuel : nat),
    let s := Run (PointToPoint_quicbbr.dispatch net) fuel
               (PointToPoint_quicbbr.main net_events) in
    (cwnd_callbacks (ker s) = [] /\ rtt_callbacks (ker s) = [])
    \/ (cwnd_callbacks (ker s) = [CwndTracer_cb]
        /\ rtt_callbacks (ker s) = [RttTracer_cb]
        /\ pending is_AttachTraces (queue (ker s)) = []).
Proof.
  intros net_events fuel; cbv zeta.
  assert (Hinit : attaching (PointToPoint_quicbbr.main net_events)).
  { left. unfold PointToPoint_quicbbr.main.
    cbn [Stop Schedule set_queue with_ker ker queue Now now
         cwnd_callbacks rtt_callbacks].
    destruct (schedule_all_frame net_events
                {| ker := {| now := 0; queue := []; stopped := false;
                             cwnd_callbacks := []; rtt_callbacks := [];
                             ns_log := [] |};
                   glob := {| g_cwnd := to_double 0; g_rtt := to_double 0;
                              packetsSent := 0; packetsReceived := 0;
                              lastTotalRx := 0 |};
                   out := {| cwndFile := []; rttFile := [];
                             throughputFile := []; packetLossFile := [] |} |})
      as (_ & _ & _ & _ & Hc & Hr & _).
    split; [| split; [exact Hc | exact Hr]].
    rewrite !pending_insert_other by reflexivity.
    eexists; apply pending_insert_only; [reflexivity |].
    apply startup_pending; reflexivity. }
  destruct (attaching_run fuel _ Hinit) as [(_ & Hc & Hr) | [Hb | (_ & Hc & Hr)]].
  - left; split; assumption.
  - right; destruct Hb as (Hp & Hc & Hr); repeat split; assumption.
  - left; split; assumption.
Qed.

End AttachOnce.

(** * Further properties of the programs *)

(** ** Virtual time and the order of rows *)

Lemma insert_event_sorted (t : Time) (e : event) (q : list (Time * event)) :
  forall t0 : Time,
    t0 <= t -> sorted_from t0 q -> sorted_from t0 (insert_event t e q).
Proof.
  induction q as [| [t' e'] q IH]; intros t0 Ht Hq; cbn [insert_event].
  - cbn; split; [exact Ht | exact I].
  - destruct Hq as [Ht' Hq]. destruct (Z.ltb_spec t t') as [Hlt | Hge].
    + cbn; repeat split; try assumption; lia.
    + cbn [sorted_from]; split; [exact Ht' |]. apply IH; assumption.
Qed.

Lemma sorted_from_weaken (q : list (Time * event)) (t0 t1 : Time) :
  t0 <= t1 -> sorted_from t1 q -> sorted_from t0 q.
Proof.
  destruct q as [| [t' e'] q]; intros Hle Hq; [exact I |].
  destruct Hq as [Ht' Hq]; split; [lia | exact Hq].
Qed.

Lemma nondecreasing_snoc (l : list Time) (x : Time) :
  nondecreasing l -> Forall (fun t => t <= x) l -> nondecreasing (l ++ [x]).
Proof.
  induction l as [| t l IH]; intros Hl Hx; cbn.
  - split; [constructor | exact I].
  - destruct Hl as [Hall Hl]. inversion Hx as [| ? ? Htx Hx']; subst.
    split; [| apply IH; assumption].
    apply Forall_app; split; [exact Hall | constructor; [exact Htx | constructor]].
Qed.

Lemma in_order_later {D} (f : list (row D)) (t0 t1 : Time) :
  t0 <= t1 -> in_order t0 f -> in_order t1 f.
Proof.
  intros Hle [Hs Hb]; split; [exact Hs |].
  eapply Forall_impl; [| exact Hb]. cbn; intros r Hr; lia.
Qed.

Lemma in_order_snoc {D} (f : list (row D)) (t : Time) (v : D) :
  in_order t f -> in_order t (f ++ [(t, v)]).
Proof.
  intros [Hs Hb]; split.
  - rewrite map_app; apply nondecreasing_snoc; [exact Hs |].
    apply Forall_map; exact Hb.
  - apply Forall_app; split; [exact Hb | constructor; [cbn; lia | constructor]].
Qed.

Lemma timeline_Schedule {D} (d : Time) (e : event) (s : sim D) :
  0 <= d -> timeline s -> timeline (Schedule d e s).
Proof.
  intros Hd (Hq & Hfiles); split; [| exact Hfiles].
  cbn [Schedule set_queue with_ker ker queue Now now].
  apply insert_event_sorted; [unfold Now in *; lia | exact Hq].
Qed.

Lemma timeline_write_cwndFile {D} (t : Time) (v : D) (s : sim D) :
  t = Now s -> timeline s -> timeline (write_cwndFile (t, v) s).
Proof.
  intros -> (Hq & Hc & Hr & Ht & Hl); repeat split; try apply Hr; try apply Ht;
    try apply Hl; try exact Hq; apply (in_order_snoc _ _ v Hc).
Qed.

Lemma timeline_write_rttFile {D} (t : Time) (v : D) (s : sim D) :
  t = Now s -> timeline s -> timeline (write_rttFile (t, v) s).
Proof.
  intros -> (Hq & Hc & Hr & Ht & Hl); repeat split; try apply Hc; try apply Ht;
    try apply Hl; try exact Hq; apply (in_order_snoc _ _ v Hr).
Qed.

Lemma timeline_write_throughputFile {D} (t : Time) (v : D) (s : sim D) :
  t = Now s -> timeline s -> timeline (write_throughputFile (t, v) s).
Proof.
  intros -> (Hq & Hc & Hr & Ht & Hl); repeat split; try apply Hc; try apply Hr;
    try apply Hl; try exact Hq; apply (in_order_snoc _ _ v Ht).
Qed.

Lemma timeline_write_packetLossFile {D} (t : Time) (v : D) (s : sim D) :
  t = Now s -> timeline s -> timeline (write_packetLossFile (t, v) s).
Proof.
  intros -> (Hq & Hc & Hr & Ht & Hl); repeat split; try apply Hc; try apply Hr;
    try apply Ht; try exact Hq; apply (in_order_snoc _ _ v Hl).
Qed.

(** The earliest event leaves the list and the clock moves to its time. *)
Lemma timeline_pop {D} (t : Time) (e : event) (q : list (Time * event))
    (s : sim D) :
  queue (ker s) = (t, e) :: q ->
  timeline s -> timeline (set_now t (set_queue q s)).
Proof.
  intros Hq (Hs & Hc & Hr & Ht & Hl). rewrite Hq in Hs; destruct Hs as [Hle Hs].
  split; [exact Hs |].
  repeat split; first [apply (in_order_later _ (Now s) t Hle)]; assumption.
Qed.

(** Closes a goal [timeline (f s)] when [f] is made of writes stamped
    with the current time, of schedulings with the delays of the source,
    and of updates of what [timeline] does not read. *)
Ltac timeline_steps H :=
  repeat first
    [ exact H
    | apply timeline_Schedule; [vm_compute; discriminate |]
    | apply timeline_write_cwndFile; [reflexivity |]
    | apply timeline_write_rttFile; [reflexivity |]
    | apply timeline_write_throughputFile; [reflexivity |]
    | apply timeline_write_packetLossFile; [reflexivity |] ].

Lemma quicbbr_timeline_step {D} `{Double D} (net : network) (e : event)
    (s : sim D) :
  timeline s -> timeline (PointToPoint_quicbbr.dispatch net e s).
Proof.
  intros Hs.
  destruct e as [app | | | | | | | n]; cbn [PointToPoint_quicbbr.dispatch].
  - unfold PointToPoint_quicbbr.AttachTraces.
    destruct app; [destruct (GetSocket net (Now s)) as [[| |] |] |];
      timeline_steps Hs.
  - unfold PointToPoint_quicbbr.TraceMetrics; timeline_steps Hs.
  - unfold PointToPoint_quicbbr.CalculatePacketLoss.
    destruct (0 <? packetsSent (glob s)); timeline_steps Hs.
  - exact Hs.
  - exact Hs.
  - exact Hs.
  - exact Hs.
  - destruct n as [| | oldCwnd newCwnd | oldRtt newRtt];
      cbn [PointToPoint_quicbbr.deliver]; try exact Hs;
      (apply fold_left_preserves; [| exact Hs]);
      intros a cb Ha; destruct cb; exact Ha.
Qed.

Lemma tcpcubic_timeline_step {D} `{Double D} (net : network) (e : event)
    (s : sim D) :
  timeline s -> timeline (PointToPoint_tcpcubic.dispatch net e s).
Proof.
  intros Hs.
  destruct e as [app | | | | | | | n]; cbn [PointToPoint_tcpcubic.dispatch].
  - exact Hs.
  - exact Hs.
  - unfold PointToPoint_tcpcubic.CalculatePacketLoss.
    destruct (0 <? packetsSent (glob s)); timeline_steps Hs.
  - unfold PointToPoint_tcpcubic.findThroughput; timeline_steps Hs.
  - exact Hs.
  - exact Hs.
  - exact Hs.
  - destruct n as [| | oldCwnd newCwnd | oldRtt newRtt];
      cbn [PointToPoint_tcpcubic.deliver]; try exact Hs;
      (apply fold_left_preserves; [| exact Hs]);
      intros a cb Ha; destruct cb; cbn [PointToPoint_tcpcubic.invoke];
      unfold PointToPoint_tcpcubic.CwndChange, PointToPoint_tcpcubic.RttChange;
      timeline_steps Ha.
Qed.

Lemma ring_timeline_step {D} `{Double D} (net : network) (e : event)
    (s : sim D) :
  timeline s -> timeline (Ring_tcpcubic.dispatch net e s).
Proof.
  intros Hs.
  destruct e as [app | | | | | | | n]; cbn [Ring_tcpcubic.dispatch].
  - unfold Ring_tcpcubic.AttachSocketTraces, Ring_tcpcubic.TraceCwndRtt.
    destruct app; [destruct (GetSocket net (Now s)) as [[| |] |] |];
      timeline_steps Hs.
  - exact Hs.
  - unfold Ring_tcpcubic.CalculatePacketLoss.
    destruct (0 <? packetsSent (glob s)); timeline_steps Hs.
  - unfold Ring_tcpcubic.findThroughput; timeline_steps Hs.
  - exact Hs.
  - exact Hs.
  - exact Hs.
  - destruct n as [| | oldCwnd newCwnd | oldRtt newRtt];
      cbn [Ring_tcpcubic.deliver]; try exact Hs;
      (apply fold_left_preserves; [| exact Hs]);
      intros a cb Ha; destruct cb; cbn [Ring_tcpcubic.invoke];
      unfold Ring_tcpcubic.CwndChange, Ring_tcpcubic.RttChange;
      timeline_steps Ha.
Qed.

Lemma timeline_run {D} (dispatch : event -> sim D -> sim D) :
  (forall e s, timeline s -> timeline (dispatch e s)) ->
  forall (fuel : nat) (s : sim D),
    timeline s -> timeline (Run dispatch fuel s).
Proof.
  intros Hstep; induction fuel as [| fuel IH]; intros s Hs; cbn [Run];
    [exact Hs |].
  destruct (finished s); [exact Hs |].
  apply IH; unfold ProcessOneEvent.
  destruct (queue (ker s)) as [| [t e] q] eqn:Hq; [exact Hs |].
  apply Hstep, (timeline_pop t e q s Hq Hs).
Qed.

Lemma timeline_startup {D} `{Double D}
    (net_events : list (Time * notification)) :
  Forall (fun tn => 0 <= fst tn) net_events ->
  timeline (startup (D := D) net_events).
Proof.
  intros Hpos; unfold startup.
  match goal with |- timeline (fold_left _ _ ?s0) =>
    assert (H0 : timeline s0) by (repeat split; constructor);
    generalize dependent s0
  end.
  induction Hpos as [| tn evs Htn Hevs IH]; intros s0 H0; [exact H0 |].
  cbn [fold_left]; apply IH, timeline_Schedule; assumption.
Qed.

(** X2. In every run of the point-to-point programs and of the ring
    program, when no notification of the network is stamped before time
    0: the clock never goes back (no pending event is earlier than the
    clock) and each of the four output streams is in non-decreasing time
    order, no row being later than the clock. For the TCP programs this
    includes the window and RTT rows, which are written on notifications
    and not by a periodic tick. *)
Theorem rows_in_time_order :
  forall (D : Type) (DD : Double D) (net : network)
         (net_events : list (Time * notification)) (fuel : nat),
    Forall (fun tn => 0 <= fst tn) net_events ->
    timeline (Run (PointToPoint_quicbbr.dispatch net) fuel
                (PointToPoint_quicbbr.main (D := D) net_events))
    /\ timeline (Run (PointToPoint_tcpcubic.dispatch net) fuel
                   (PointToPoint_tcpcubic.main (D := D) net_events))
    /\ timeline (Run (Ring_tcpcubic.dispatch net) fuel
                   (Ring_tcpcubic.main (D := D) net_events)).
Proof.
  intros D DD net net_events fuel Hpos.
  pose proof (timeline_startup (D := D) net_events Hpos) as H0.
  split; [| split].
  - apply timeline_run; [intros e s; apply quicbbr_timeline_step |].
    unfold PointToPoint_quicbbr.main, Stop; timeline_steps H0.
  - apply timeline_run; [intros e s; apply tcpcubic_timeline_step |].
    unfold PointToPoint_tcpcubic.main, Stop; timeline_steps H0.
  - apply timeline_run; [intros e s; apply ring_timeline_step |].
    unfold Ring_tcpcubic.main, Stop; timeline_steps H0.
Qed.

Lemma rows_in_time_order_witness :
  nondecreasing
    (map fst
       (cwndFile
          (out (Run (PointToPoint_tcpcubic.dispatch (D := Q) example_network)
                  20
                  (PointToPoint_tcpcubic.main
                     [(1500000000, CongestionWindow 0 3000);
                      (1050000000, CongestionWindow 0 1500)]))))).
Proof.
  destruct (rows_in_time_order Q Double_Q example_network
              [(1500000000, CongestionWindow 0 3000);
               (1050000000, CongestionWindow 0 1500)] 20)
    as (_ & (_ & (Hsorted & _) & _) & _).
  - repeat constructor; cbn; lia.
  - exact Hsorted.
Defined.

(** ** The stop time *)

Lemma insert_event_before (t : Time) (e x : event) (hz : Time)
    (q1 q2 : list (Time * event)) :
  t < hz ->
  insert_event t e (q1 ++ (hz, x) :: q2) = insert_event t e q1 ++ (hz, x) :: q2.
Proof.
  intros Hlt; induction q1 as [| [t' e'] q1 IH]; cbn [insert_event app].
  - destruct (Z.ltb_spec t hz); [reflexivity | lia].
  - destruct (t <? t'); [reflexivity | rewrite IH; reflexivity].
Qed.

Lemma insert_event_after (t : Time) (e x : event) (hz : Time)
    (q1 q2 : list (Time * event)) :
  hz <= t -> Forall (fun te => fst te <= hz) q1 ->
  insert_event t e (q1 ++ (hz, x) :: q2) = q1 ++ (hz, x) :: insert_event t e q2.
Proof.
  intros Hge Hall; induction Hall as [| [t' e'] q1 Ht' Hall IH];
    cbn [insert_event app].
  - destruct (Z.ltb_spec t hz); [lia | reflexivity].
  - cbn in Ht'. destruct (Z.ltb_spec t t'); [lia | rewrite IH; reflexivity].
Qed.

Lemma insert_event_Forall (P : Time * event -> Prop) (t : Time) (e : event)
    (q : list (Time * event)) :
  P (t, e) -> Forall P q -> Forall P (insert_event t e q).
Proof.
  intros Hte Hq; induction Hq as [| [t' e'] q Hh Hq IH]; cbn [insert_event].
  - constructor; [exact Hte | constructor].
  - destruct (t <? t'); repeat constructor; assumption.
Qed.

Lemma stop_pending_insert (hz t : Time) (e : event)
    (q : list (Time * event)) :
  stop_pending hz q -> stop_pending hz (insert_event t e q).
Proof.
  intros (q1 & q2 & -> & Hall).
  destruct (Z.lt_ge_cases t hz) as [Hlt | Hge].
  - exists (insert_event t e q1), q2; split;
      [apply insert_event_before; exact Hlt |].
    apply insert_event_Forall; [cbn; split; [lia | intros _; exact Hlt] |].
    exact Hall.
  - exists q1, (insert_event t e q2); split; [| exact Hall].
    apply insert_event_after; [exact Hge |].
    eapply Forall_impl; [| exact Hall]. intros te [Hle _]; exact Hle.
Qed.

(** Scheduling the stop event when everything a program has scheduled so
    far is earlier. *)
Lemma stop_pending_Stop (hz : Time) (q : list (Time * event)) :
  Forall (fun te => is_Notify (snd te) = false -> fst te < hz) q ->
  stop_pending hz (insert_event hz Stop_ev q).
Proof.
  intros Hall; induction Hall as [| [t' e'] q Hh Hq IH]; cbn [insert_event].
  - exists [], []; split; [reflexivity | constructor].
  - destruct (Z.ltb_spec hz t') as [Hlt | Hge].
    + exists [], ((t', e') :: q); split; [reflexivity | constructor].
    + destruct IH as (q1 & q2 & Heq & Hall1).
      exists ((t', e') :: q1), q2; split; [cbn [app]; rewrite Heq; reflexivity |].
      constructor; [split; [exact Hge | exact Hh] | exact Hall1].
Qed.

Section Horizon.

Context {D : Type}.
Variable strict : bool.
Variable hz : Time.

Lemma within_Schedule (d : Time) (e : event) (s : sim D) :
  within_horizon strict hz s -> within_horizon strict hz (Schedule d e s).
Proof.
  intros (Hn & Hq & Hfiles); split; [exact Hn |]; split; [| exact Hfiles].
  intros Hrun; apply stop_pending_insert, Hq, Hrun.
Qed.

Lemma within_stopped (s : sim D) :
  within_horizon strict hz s -> within_horizon strict hz (set_stopped true s).
Proof.
  intros (Hn & _ & Hfiles); split; [exact Hn |]; split; [| exact Hfiles].
  cbn; discriminate.
Qed.

Lemma within_write_throughputFile (t : Time) (v : D) (s : sim D) :
  t < hz -> within_horizon strict hz s ->
  within_horizon strict hz (write_throughputFile (t, v) s).
Proof.
  intros Ht (Hn & Hq & Hc & Hr & Hth & Hl); repeat split; try assumption.
  apply Forall_app; split; [exact Hth | constructor; [exact Ht | constructor]].
Qed.

Lemma within_write_packetLossFile (t : Time) (v : D) (s : sim D) :
  t < hz -> within_horizon strict hz s ->
  within_horizon strict hz (write_packetLossFile (t, v) s).
Proof.
  intros Ht (Hn & Hq & Hc & Hr & Hth & Hl); repeat split; try assumption.
  apply Forall_app; split; [exact Hl | constructor; [exact Ht | constructor]].
Qed.

Lemma within_write_cwndFile (t : Time) (v : D) (s : sim D) :
  (if strict then t < hz else t <= hz) -> within_horizon strict hz s ->
  within_horizon strict hz (write_cwndFile (t, v) s).
Proof.
  intros Ht (Hn & Hq & Hc & Hr & Hth & Hl); repeat split; try assumption.
  apply Forall_app; split; [exact Hc | constructor; [exact Ht | constructor]].
Qed.

Lemma within_write_rttFile (t : Time) (v : D) (s : sim D) :
  (if strict then t < hz else t <= hz) -> within_horizon strict hz s ->
  within_horizon strict hz (write_rttFile (t, v) s).
Proof.
  intros Ht (Hn & Hq & Hc & Hr & Hth & Hl); repeat split; try assumption.
  apply Forall_app; split; [exact Hr | constructor; [exact Ht | constructor]].
Qed.

Variable dispatch : event -> sim D -> sim D.

Hypothesis dispatch_Stop : forall s, dispatch Stop_ev s = set_stopped true s.

Hypothesis dispatch_within :
  forall (e : event) (s : sim D),
    within_horizon strict hz s ->
    (is_Notify e = false -> Now s < hz) ->
    within_horizon strict hz (dispatch e s).

Lemma within_process (s : sim D) :
  within_horizon strict hz s -> stopped (ker s) = false ->
  within_horizon strict hz (ProcessOneEvent dispatch s).
Proof.
  intros Hs Hrun; unfold ProcessOneEvent.
  destruct Hs as (Hn & Hq & Hfiles).
  destruct (Hq Hrun) as (q1 & q2 & Heq & Hall).
  rewrite Heq. destruct q1 as [| [t e] q1]; cbn [app].
  - rewrite dispatch_Stop.
    split; [cbn; lia |]. split; [cbn; discriminate | exact Hfiles].
  - inversion Hall as [| ? ? [Hle Hlt] Hall']; subst. cbn in Hle, Hlt.
    apply dispatch_within; [| intros He; cbn; exact (Hlt He)].
    split; [exact Hle |]. split; [| exact Hfiles].
    intros _; exists q1, q2; split; [reflexivity | exact Hall'].
Qed.

Lemma within_run (fuel : nat) :
  forall s : sim D,
    within_horizon strict hz s ->
    within_horizon strict hz (Run dispatch fuel s).
Proof.
  induction fuel as [| fuel IH]; intros s Hs; cbn [Run]; [exact Hs |].
  unfold finished. destruct (stopped (ker s)) eqn:Hrun; [exact Hs |].
  cbn [orb].
  destruct (match queue (ker s) with [] => true | _ :: _ => false end);
    [exact Hs | apply IH, within_process; assumption].
Qed.

End Horizon.

Ltac within_steps H Hlt :=
  repeat first
    [ exact H
    | apply within_Schedule
    | apply within_write_throughputFile; [exact Hlt |]
    | apply within_write_packetLossFile; [exact Hlt |]
    | apply within_write_cwndFile; [exact Hlt |]
    | apply within_write_rttFile; [exact Hlt |] ].

Lemma quicbbr_within_step {D} `{Double D} (net : network) (hz : Time)
    (e : event) (s : sim D) :
  within_horizon true hz s ->
  (is_Notify e = false -> Now s < hz) ->
  within_horizon true hz (PointToPoint_quicbbr.dispatch net e s).
Proof.
  intros Hs Hlt.
  destruct e as [app | | | | | | | n]; cbn [PointToPoint_quicbbr.dispatch];
    try specialize (Hlt eq_refl).
  - unfold PointToPoint_quicbbr.AttachTraces.
    destruct app; [destruct (GetSocket net (Now s)) as [[| |] |] |];
      within_steps Hs Hlt.
  - unfold PointToPoint_quicbbr.TraceMetrics; within_steps Hs Hlt.
  - unfold PointToPoint_quicbbr.CalculatePacketLoss.
    destruct (0 <? packetsSent (glob s)); within_steps Hs Hlt.
  - exact Hs.
  - exact Hs.
  - exact Hs.
  - apply within_stopped; exact Hs.
  - destruct n as [| | oldCwnd newCwnd | oldRtt newRtt];
      cbn [PointToPoint_quicbbr.deliver]; try exact Hs;
      (apply fold_left_preserves; [| exact Hs]);
      intros a cb Ha; destruct cb; exact Ha.
Qed.

Lemma tcpcubic_within_step {D} `{Double D} (net : network) (hz : Time)
    (e : event) (s : sim D) :
  within_horizon false hz s ->
  (is_Notify e = false -> Now s < hz) ->
  within_horizon false hz (PointToPoint_tcpcubic.dispatch net e s).
Proof.
  intros Hs Hlt.
  destruct e as [app | | | | | | | n]; cbn [PointToPoint_tcpcubic.dispatch];
    try specialize (Hlt eq_refl).
  - exact Hs.
  - exact Hs.
  - unfold PointToPoint_tcpcubic.CalculatePacketLoss.
    destruct (0 <? packetsSent (glob s)); within_steps Hs Hlt.
  - unfold PointToPoint_tcpcubic.findThroughput; within_steps Hs Hlt.
  - exact Hs.
  - exact Hs.
  - apply within_stopped; exact Hs.
  - destruct n as [| | oldCwnd newCwnd | oldRtt newRtt];
      cbn [PointToPoint_tcpcubic.deliver]; try exact Hs;
      (apply fold_left_preserves; [| exact Hs]);
      intros a cb Ha; pose proof (proj1 Ha) as Hn;
      destruct cb; cbn [PointToPoint_tcpcubic.invoke];
      unfold PointToPoint_tcpcubic.CwndChange, PointToPoint_tcpcubic.RttChange;
      within_steps Ha Hn.
Qed.

Lemma startup_queue_notify {D} `{Double D}
    (net_events : list (Time * notification)) :
  Forall (fun te => is_Notify (snd te) = true)
    (queue (ker (startup (D := D) net_events))).
Proof.
  unfold startup; apply fold_left_preserves; [| constructor].
  intros s tn Hs; cbn [Schedule set_queue with_ker ker queue].
  apply insert_event_Forall; [reflexivity | exact Hs].
Qed.

(** The state [main] leaves is within the horizon once every event it
    has scheduled before the stop event is earlier than the stop time. *)
Lemma within_main {D} `{Double D} (strict : bool) (hz : Time)
    (net_events : list (Time * notification))
    (sched : list (Time * event)) :
  0 <= hz ->
  Forall (fun te => fst te < hz) sched ->
  within_horizon strict hz
    (Stop hz
       (fold_left (fun s te => Schedule (fst te) (snd te) s) sched
          (startup (D := D) net_events))).
Proof.
  intros Hhz Hsched.
  assert (Hframe : forall (l : list (Time * event)) (s : sim D),
             let s' := fold_left (fun s te => Schedule (fst te) (snd te) s) l s in
             Now s' = Now s /\ out s' = out s).
  { induction l as [| te l IH]; intros s; [split; reflexivity |].
    cbn [fold_left]; cbv zeta. apply (IH (Schedule (fst te) (snd te) s)). }
  assert (Hq : forall (l : list (Time * event)) (s : sim D),
             Now s = 0 ->
             Forall (fun te => fst te < hz) l ->
             Forall (fun te => is_Notify (snd te) = false -> fst te < hz)
               (queue (ker s)) ->
             Forall (fun te => is_Notify (snd te) = false -> fst te < hz)
               (queue (ker (fold_left
                              (fun s te => Schedule (fst te) (snd te) s) l s)))).
  { induction l as [| te l IH]; intros s Hn Hl Hs; [exact Hs |].
    inversion Hl as [| ? ? Hte Hl']; subst. cbn [fold_left].
    apply IH; [exact Hn | exact Hl' |].
    cbn [Schedule set_queue with_ker ker queue].
    apply insert_event_Forall; [| exact Hs].
    cbn [fst snd]; intros _; rewrite Hn, Z.add_0_l; exact Hte. }
  destruct (Hframe sched (startup net_events)) as [Hnow Hout].
  cbv zeta in Hnow, Hout. rewrite startup_now in Hnow.
  unfold within_horizon, Stop.
  cbn [Schedule set_queue with_ker ker queue out Now now stopped].
  fold (Now (fold_left (fun s te => Schedule (fst te) (snd te) s) sched
               (startup (D := D) net_events))).
  rewrite Hnow, Hout, startup_out. cbn [cwndFile rttFile throughputFile packetLossFile].
  split; [exact Hhz |]. split; [| repeat split; constructor].
  intros _. rewrite Z.add_0_l. apply stop_pending_Stop.
  apply Hq; [apply startup_now | exact Hsched |].
  eapply Forall_impl; [| apply startup_queue_notify].
  intros [t' e'] Hte Habs; cbn in Hte, Habs.
  rewrite Hte in Habs; discriminate Habs.
Qed.

Lemma quicbbr_throughput_times {D} `{Double D} (net : network)
    (net_events : list (Time * notification)) (fuel : nat) :
  exists m : nat,
    map fst (throughputFile
               (out (Run (PointToPoint_quicbbr.dispatch net) fuel
                       (PointToPoint_quicbbr.main (D := D) net_events))))
    = sample_times (Seconds 1) (Seconds 1) m.
Proof.
  destruct (quicbbr_main_pending (D := D) net_events) as (Hqp & Hqo).
  apply (sampling_run (PointToPoint_quicbbr.dispatch net) is_TraceMetrics
           throughputFile (Seconds 1) (Seconds 1)) with (m := 0%nat).
  - intros e s He.
    destruct (quicbbr_tick_step net e s He) as (Hrow & _ & _ & Hq).
    split; assumption.
  - intros e s He.
    destruct (quicbbr_other_step net e s He) as (Hrow & _ & _ & Hq).
    split; assumption.
  - rewrite Hqo; reflexivity.
  - exact Hqp.
Qed.

(** X3. In every run, whatever the network does, no tick runs at or
    after the stop time of 100 s: every row of the four streams of the
    point-to-point QUIC program, and every throughput and loss row of the
    point-to-point TCP program, is stamped earlier than 100 s (the window
    and RTT rows of the TCP program, written on notifications, are not
    later than 100 s), and the clock never passes 100 s. In particular
    the QUIC program writes at most 99 throughput rows. *)
Theorem no_sample_at_or_after_stop :
  forall (D : Type) (DD : Double D) (net : network)
         (net_events : list (Time * notification)) (fuel : nat),
    (let s := Run (PointToPoint_quicbbr.dispatch net) fuel
                (PointToPoint_quicbbr.main (D := D) net_events) in
     Now s <= Seconds 100
     /\ Forall (fun r => fst r < Seconds 100) (cwndFile (out s))
     /\ Forall (fun r => fst r < Seconds 100) (rttFile (out s))
     /\ Forall (fun r => fst r < Seconds 100) (throughputFile (out s))
     /\ Forall (fun r => fst r < Seconds 100) (packetLossFile (out s))
     /\ (List.length (throughputFile (out s)) <= 99)%nat)
    /\ (let s := Run (PointToPoint_tcpcubic.dispatch net) fuel
                   (PointToPoint_tcpcubic.main (D := D) net_events) in
        Now s <= Seconds 100
        /\ Forall (fun r => fst r <= Seconds 100) (cwndFile (out s))
        /\ Forall (fun r => fst r <= Seconds 100) (rttFile (out s))
        /\ Forall (fun r => fst r < Seconds 100) (throughputFile (out s))
        /\ Forall (fun r => fst r < Seconds 100) (packetLossFile (out s))).
Proof.
  intros D DD net net_events fuel; split; cbv zeta.
  - assert (Hw : within_horizon true (Seconds 100)
                   (Run (PointToPoint_quicbbr.dispatch net) fuel
                      (PointToPoint_quicbbr.main (D := D) net_events))).
    { apply within_run;
        [reflexivity | intros e s; apply quicbbr_within_step |].
      apply (within_main true (Seconds 100) net_events
               [(Seconds (1 # 10), AttachTraces_ev BulkSendApplication);
                (Seconds 1, TraceMetrics_ev);
                (Seconds 1, CalculatePacketLoss_ev)]);
        [vm_compute; discriminate |].
      repeat constructor. }
    destruct Hw as (Hn & _ & Hc & Hr & Ht & Hl).
    repeat split; try assumption.
    destruct (quicbbr_throughput_times net net_events fuel) as [m Hm].
    assert (Hlen : List.length
                     (throughputFile
                        (out (Run (PointToPoint_quicbbr.dispatch net) fuel
                                (PointToPoint_quicbbr.main (D := D) net_events))))
                   = m).
    { pose proof (f_equal (@List.length Time) Hm) as Hm'.
      unfold sample_times in Hm'.
      rewrite !length_map, length_seq in Hm'; exact Hm'. }
    rewrite Hlen. destruct (Nat.le_gt_cases m 99) as [Hle | Hgt]; [exact Hle |].
    exfalso.
    assert (Hin : In (nth 99 (sample_times (Seconds 1) (Seconds 1) m) 0)
                    (sample_times (Seconds 1) (Seconds 1) m)).
    { apply nth_In. unfold sample_times.
      rewrite length_map, length_seq; exact Hgt. }
    rewrite sample_times_nth in Hin by exact Hgt.
    rewrite <- Hm in Hin. apply in_map_iff in Hin.
    destruct Hin as (r & Hr1 & Hr2).
    unfold rows_before in Ht. rewrite Forall_forall in Ht.
    specialize (Ht r Hr2). destruct r as [tr vr]; cbn [fst] in Hr1, Ht.
    subst tr; revert Ht; vm_compute; intros Ht; discriminate Ht.
  - assert (Hw : within_horizon false (Seconds 100)
                   (Run (PointToPoint_tcpcubic.dispatch net) fuel
                      (PointToPoint_tcpcubic.main (D := D) net_events))).
    { apply within_run;
        [reflexivity | intros e s; apply tcpcubic_within_step |].
      apply (within_main false (Seconds 100) net_events
               [(Seconds (1 # 100), TraceCwnd_ev);
                (Seconds (1 # 100), TraceRtt_ev);
                (Seconds 1, findThroughput_ev);
                (Seconds 1, CalculatePacketLoss_ev)]);
        [vm_compute; discriminate |].
      repeat constructor. }
    destruct Hw as (Hn & _ & Hc & Hr & Ht & Hl).
    repeat split; assumption.
Qed.

(** ** The throughput stream as a function of the sink's totals *)

Lemma quicbbr_other_lastTotalRx {D} `{Double D} (net : network) (e : event)
    (s : sim D) :
  is_TraceMetrics e = false ->
  lastTotalRx (glob (PointToPoint_quicbbr.dispatch net e s))
  = lastTotalRx (glob s).
Proof.
  intros He.
  destruct e as [app | | | | | | | n]; try discriminate He;
    cbn [PointToPoint_quicbbr.dispatch]; try reflexivity.
  - unfold PointToPoint_quicbbr.AttachTraces.
    destruct app; [destruct (GetSocket net (Now s)) as [[| |] |] |];
      reflexivity.
  - unfold PointToPoint_quicbbr.CalculatePacketLoss.
    destruct (0 <? packetsSent (glob s)); reflexivity.
  - destruct n as [| | oldCwnd newCwnd | oldRtt newRtt];
      cbn [PointToPoint_quicbbr.deliver]; try reflexivity;
      (apply fold_left_preserves; [| reflexivity]);
      intros a cb Ha; destruct cb; exact Ha.
Qed.

Lemma cons_singleton {A : Type} (a b : A) (l : list A) :
  a :: l = [b] -> a = b /\ l = [].
Proof. intros Heq; injection Heq as Ha Hl; split; assumption. Qed.

Lemma throughput_rows_snoc {D} `{Double D} (net : network)
    (first period : Time) (m : nat) :
  throughput_rows (D := D) net first period (S m)
  = throughput_rows net first period m
    ++ [(first + Z.of_nat m * period,
         ddiv (dmul (to_double
                       (u64 (u64 (GetTotalRx net (first + Z.of_nat m * period))
                             - last_total net first period m)))
                    (to_double 8))
              (to_double 1000000))].
Proof. unfold throughput_rows; rewrite seq_S, map_app; reflexivity. Qed.

Lemma quicbbr_throughput_step {D} `{Double D} (net : network) (m : nat)
    (s : sim D) :
  throughputFile (out s) = throughput_rows net (Seconds 1) (Seconds 1) m ->
  pending is_TraceMetrics (queue (ker s)) = [Seconds 1 + Z.of_nat m * Seconds 1] ->
  lastTotalRx (glob s) = last_total net (Seconds 1) (Seconds 1) m ->
  exists m' : nat,
    let s' := ProcessOneEvent (PointToPoint_quicbbr.dispatch net) s in
    throughputFile (out s') = throughput_rows net (Seconds 1) (Seconds 1) m'
    /\ pending is_TraceMetrics (queue (ker s'))
       = [Seconds 1 + Z.of_nat m' * Seconds 1]
    /\ lastTotalRx (glob s') = last_total net (Seconds 1) (Seconds 1) m'.
Proof.
  intros Hfile Hpend Hlast; unfold ProcessOneEvent.
  destruct (queue (ker s)) as [| [t e] q] eqn:Hq.
  { exists m; cbv zeta; rewrite Hq; repeat split; assumption. }
  unfold pending in Hpend; cbn [filter snd] in Hpend.
  destruct (is_TraceMetrics e) eqn:He.
  - exists (S m). cbn [map fst] in Hpend.
    apply cons_singleton in Hpend; destruct Hpend as [Ht Hrest].
    destruct e; try discriminate He. cbv zeta.
    cbn [PointToPoint_quicbbr.dispatch].
    destruct (quicbbr_throughput_row net (set_now t (set_queue q s)))
      as (Hrow & Hl & _).
    change (out (set_now t (set_queue q s))) with (out s) in Hrow.
    change (glob (set_now t (set_queue q s))) with (glob s) in Hrow.
    change (Now (set_now t (set_queue q s))) with t in Hrow, Hl.
    rewrite Hrow, Hl, Hfile, Hlast, throughput_rows_snoc, Ht.
    split; [reflexivity |]. split; [| reflexivity].
    unfold PointToPoint_quicbbr.TraceMetrics.
    cbn [Schedule write_cwndFile write_rttFile write_throughputFile
         set_lastTotalRx set_now set_queue with_ker with_glob with_out
         ker queue now Now].
    rewrite (pending_insert_only is_TraceMetrics _ TraceMetrics_ev q eq_refl Hrest).
    f_equal. generalize (Seconds 1); intros p; lia.
  - exists m. cbv zeta.
    destruct (quicbbr_other_step net e (set_now t (set_queue q s)) He)
      as (Hrow & _ & _ & Hsched).
    pose proof (quicbbr_other_lastTotalRx net e (set_now t (set_queue q s)) He)
      as Hl.
    change (out (set_now t (set_queue q s))) with (out s) in Hrow.
    change (queue (ker (set_now t (set_queue q s)))) with q in Hsched.
    change (glob (set_now t (set_queue q s))) with (glob s) in Hl.
    rewrite Hrow, Hsched, Hl; repeat split; assumption.
Qed.

Lemma quicbbr_throughput_run {D} `{Double D} (net : network) (fuel : nat) :
  forall (m : nat) (s : sim D),
    throughputFile (out s) = throughput_rows net (Seconds 1) (Seconds 1) m ->
    pending is_TraceMetrics (queue (ker s))
    = [Seconds 1 + Z.of_nat m * Seconds 1] ->
    lastTotalRx (glob s) = last_total net (Seconds 1) (Seconds 1) m ->
    exists m' : nat,
      let s' := Run (PointToPoint_quicbbr.dispatch net) fuel s in
      throughputFile (out s') = throughput_rows net (Seconds 1) (Seconds 1) m'
      /\ lastTotalRx (glob s') = last_total net (Seconds 1) (Seconds 1) m'.
Proof.
  induction fuel as [| fuel IH]; intros m s Hfile Hpend Hlast; cbn [Run].
  - exists m; split; assumption.
  - destruct (finished s); [exists m; split; assumption |].
    destruct (quicbbr_throughput_step net m s Hfile Hpend Hlast)
      as (m' & Hf & Hp & Hl).
    exact (IH m' _ Hf Hp Hl).
Qed.

Lemma quicbbr_throughput_of_main {D} `{Double D} (net : network)
    (net_events : list (Time * notification)) (fuel : nat) :
  exists m : nat,
    let s := Run (PointToPoint_quicbbr.dispatch net) fuel
               (PointToPoint_quicbbr.main (D := D) net_events) in
    throughputFile (out s) = throughput_rows net (Seconds 1) (Seconds 1) m
    /\ lastTotalRx (glob s) = last_total net (Seconds 1) (Seconds 1) m.
Proof.
  destruct (quicbbr_main_pending (D := D) net_events) as (Hqp & Hqo).
  apply (quicbbr_throughput_run net fuel 0%nat).
  - rewrite Hqo; reflexivity.
  - exact Hqp.
  - unfold PointToPoint_quicbbr.main.
    cbn [Stop Schedule set_queue with_ker glob].
    rewrite startup_glob; reflexivity.
Qed.

(** X4. In every run of the point-to-point QUIC program the throughput
    stream is a function of the sink's byte totals at the tick times
    alone: its [k]-th row is stamped [(k + 1) s] and holds the difference
    between the total at that tick and the total at the tick before (0
    for the first row), times 8 over 1e6; notifications, attachment and
    loss ticks never change it. The total kept for the next tick is the
    one read at the last tick. *)
Theorem throughput_stream_from_sink_totals :
  forall (D : Type) (DD : Double D) (net : network)
         (net_events : list (Time * notification)) (fuel : nat),
    exists m : nat,
      let s := Run (PointToPoint_quicbbr.dispatch net) fuel
                 (PointToPoint_quicbbr.main net_events) in
      throughputFile (out s) = throughput_rows net (Seconds 1) (Seconds 1) m
      /\ lastTotalRx (glob s) = last_total net (Seconds 1) (Seconds 1) m.
Proof.
  intros D DD net net_events fuel.
  exact (quicbbr_throughput_of_main net net_events fuel).
Qed.

Lemma total_snoc (l : list Q) (x : Q) : (total (l ++ [x]) == total l + x)%Q.
Proof.
  induction l as [| y l IH]; cbn [app total fold_right].
  - ring.
  - fold (total (l ++ [x])); fold (total l); rewrite IH; ring.
Qed.

Lemma throughput_rows_total (net : network) (first period : Time) :
  0 <= period ->
  (forall t, 0 <= GetTotalRx net t < 2 ^ 64) ->
  (forall t1 t2, t1 <= t2 -> GetTotalRx net t1 <= GetTotalRx net t2) ->
  forall m : nat,
    (total (map snd (throughput_rows (D := Q) net first period m))
     == inject_Z (last_total net first period m) * 8 / 1000000)%Q.
Proof.
  intros Hp Hrange Hmono; induction m as [| m IH].
  - reflexivity.
  - rewrite throughput_rows_snoc, map_app. cbn [map snd].
    rewrite total_snoc, IH.
    cbn [to_double dmul ddiv Double_Q].
    rewrite (u64_small (GetTotalRx net (first + Z.of_nat m * period)))
      by apply Hrange.
    assert (Hle : last_total net first period m
                  <= GetTotalRx net (first + Z.of_nat m * period)).
    { destruct m as [| j]; cbn [last_total]; [apply Hrange |].
      rewrite u64_small by apply Hrange. apply Hmono; nia. }
    assert (H0 : 0 <= last_total net first period m).
    { destruct m as [| j]; cbn [last_total]; [lia | apply u64_range]. }
    rewrite u64_small by (pose proof (Hrange (first + Z.of_nat m * period)); lia).
    change (last_total net first period (S m))
      with (u64 (GetTotalRx net (first + Z.of_nat m * period))).
    rewrite (u64_small (GetTotalRx net (first + Z.of_nat m * period)))
      by apply Hrange.
    unfold Z.sub; rewrite inject_Z_plus, inject_Z_opp.
    change (inject_Z 8) with 8%Q; change (inject_Z 1000000) with 1000000%Q.
    field.
Qed.

(** X5. When the sink's byte total is a 64-bit value that never
    decreases, in every run of the point-to-point QUIC program the
    throughput rows written so far add up to the byte total read at the
    last tick, times 8 over 1e6 (on exact numbers): the stream accounts
    for every byte received up to its last row, none twice. *)
Theorem throughput_rows_add_up_to_bytes :
  forall (net : network) (net_events : list (Time * notification))
         (fuel : nat),
    (forall t, 0 <= GetTotalRx net t < 2 ^ 64) ->
    (forall t1 t2, t1 <= t2 -> GetTotalRx net t1 <= GetTotalRx net t2) ->
    let s := Run (PointToPoint_quicbbr.dispatch (D := Q) net) fuel
               (PointToPoint_quicbbr.main net_events) in
    (total (map snd (throughputFile (out s)))
     == inject_Z (lastTotalRx (glob s)) * 8 / 1000000)%Q.
Proof.
  intros net net_events fuel Hrange Hmono; cbv zeta.
  destruct (quicbbr_throughput_of_main (D := Q) net net_events fuel)
    as (m & Hfile & Hlast).
  cbv zeta in Hfile, Hlast; rewrite Hfile, Hlast.
  apply throughput_rows_total; [vm_compute; discriminate | assumption ..].
Qed.

Lemma example_network_totals :
  (forall t, 0 <= GetTotalRx example_network t < 2 ^ 64)
  /\ (forall t1 t2, t1 <= t2 ->
        GetTotalRx example_network t1 <= GetTotalRx example_network t2).
Proof.
  split.
  - intros t; cbn [GetTotalRx example_network].
    destruct (t <? 1000000000); [lia |]. destruct (t <? 2000000000); lia.
  - intros t1 t2 Hle; cbn [GetTotalRx example_network].
    destruct (Z.ltb_spec t1 1000000000), (Z.ltb_spec t2 1000000000),
      (Z.ltb_spec t1 2000000000), (Z.ltb_spec t2 2000000000); lia.
Qed.

Lemma throughput_rows_add_up_to_bytes_witness :
  (total (map snd
            (throughputFile
               (out (Run (PointToPoint_quicbbr.dispatch (D := Q) example_network)
                       7 (PointToPoint_quicbbr.main [])))))
   == inject_Z
        (lastTotalRx
           (glob (Run (PointToPoint_quicbbr.dispatch (D := Q) example_network)
                    7 (PointToPoint_quicbbr.main []))))
      * 8 / 1000000)%Q.
Proof.
  apply (throughput_rows_add_up_to_bytes example_network [] 7
           (proj1 example_network_totals) (proj2 example_network_totals)).
Defined.

(** ** Counters and notifications *)

Lemma u32_add_idemp (a b : Z) : u32 (u32 a + b) = u32 (a + b).
Proof. unfold u32; apply Zplus_mod_idemp_l. Qed.

Lemma count_cons (sel : event -> bool) (e : event) (l : list event) :
  count sel (e :: l) = (if sel e then 1 else 0) + count sel l.
Proof.
  unfold count; cbn [filter]; destruct (sel e); cbn [List.length]; lia.
Qed.

Lemma quicbbr_counters_count {D} `{Double D} (net : network) (fuel : nat) :
  forall s : sim D,
    0 <= packetsSent (glob s) < 2 ^ 32 ->
    0 <= packetsReceived (glob s) < 2 ^ 32 ->
    let s' := Run (PointToPoint_quicbbr.dispatch net) fuel s in
    let evs := processed (PointToPoint_quicbbr.dispatch net) fuel s in
    packetsSent (glob s') = u32 (packetsSent (glob s) + count is_Tx evs)
    /\ packetsReceived (glob s')
       = u32 (packetsReceived (glob s) + count is_Rx evs).
Proof.
  induction fuel as [| fuel IH]; intros s Hs Hr; cbv zeta.
  - cbn [Run processed]; unfold count; cbn.
    rewrite !Z.add_0_r, !u32_small by assumption; split; reflexivity.
  - cbn [Run processed]. destruct (finished s).
    { unfold count; cbn.
      rewrite !Z.add_0_r, !u32_small by assumption; split; reflexivity. }
    unfold ProcessOneEvent at 1 3.
    destruct (queue (ker s)) as [| [t e] q] eqn:Hq.
    { unfold count; cbn.
      destruct (IH s Hs Hr) as [IHs IHr]. cbv zeta in IHs, IHr.
      clear IHs IHr.
      assert (Hrun : forall n, Run (PointToPoint_quicbbr.dispatch net) n s = s).
      { induction n as [| n IHn]; [reflexivity |]. cbn [Run].
        destruct (finished s); [reflexivity |].
        unfold ProcessOneEvent; rewrite Hq; exact IHn. }
      rewrite Hrun, !Z.add_0_r, !u32_small by assumption; split; reflexivity. }
    pose proof (quicbbr_counters_step net e (set_now t (set_queue q s))) as Hstep.
    cbv zeta in Hstep.
    change (glob (set_now t (set_queue q s))) with (glob s) in Hstep.
    set (s1 := PointToPoint_quicbbr.dispatch net e (set_now t (set_queue q s)))
      in *.
    assert (Hmatch : ProcessOneEvent (PointToPoint_quicbbr.dispatch net) s = s1)
      by (unfold ProcessOneEvent; rewrite Hq; reflexivity).
    rewrite Hmatch. rewrite !count_cons.
    assert (Hrange : 0 <= packetsSent (glob s1) < 2 ^ 32
                     /\ 0 <= packetsReceived (glob s1) < 2 ^ 32).
    { destruct e as [app | | | | | | | [| | oldCwnd newCwnd | oldRtt newRtt]];
        destruct Hstep as [Hs1 Hr1]; rewrite Hs1, Hr1;
        split; try assumption; apply u32_range. }
    destruct Hrange as [Hs1 Hr1].
    destruct (IH s1 Hs1 Hr1) as [IHs IHr]. cbv zeta in IHs, IHr.
    rewrite IHs, IHr.
    destruct e as [app | | | | | | | [| | oldCwnd newCwnd | oldRtt newRtt]];
      destruct Hstep as [Hs2 Hr2]; rewrite Hs2, Hr2; cbn [is_Tx is_Rx];
      rewrite ?u32_add_idemp, ?Z.add_0_l, ?Z.add_assoc; split; reflexivity.
Qed.

(** X6. In every run of the point-to-point QUIC program, whatever the
    network does, the sent counter equals the number of ["Tx"]
    notifications processed so far and the received counter the number of
    ["Rx"] notifications processed so far, both modulo 2^32; no other
    event is counted and no notification is counted twice. *)
Theorem counters_count_notifications :
  forall (D : Type) (DD : Double D) (net : network)
         (net_events : list (Time * notification)) (fuel : nat),
    let s := Run (PointToPoint_quicbbr.dispatch net) fuel
               (PointToPoint_quicbbr.main (D := D) net_events) in
    let evs := processed (PointToPoint_quicbbr.dispatch net) fuel
                 (PointToPoint_quicbbr.main (D := D) net_events) in
    packetsSent (glob s) = u32 (count is_Tx evs)
    /\ packetsReceived (glob s) = u32 (count is_Rx evs).
Proof.
  intros D DD net net_events fuel.
  assert (Hglob : glob (PointToPoint_quicbbr.main (D := D) net_events)
                  = glob (startup (D := D) net_events)) by reflexivity.
  destruct (quicbbr_counters_count net fuel
              (PointToPoint_quicbbr.main (D := D) net_events)) as [Hs Hr];
    try (rewrite Hglob, startup_glob; cbn; lia).
  cbv zeta in Hs, Hr |- *.
  rewrite Hglob, startup_glob in Hs, Hr. cbn [packetsSent packetsReceived] in Hs, Hr.
  rewrite Z.add_0_l in Hs, Hr. split; assumption.
Qed.

(** ** Before the traces are attached *)

Lemma quicbbr_unattached_other_step {D} `{Double D} (net : network)
    (e : event) (s : sim D) :
  is_AttachTraces e = false ->
  let s' := PointToPoint_quicbbr.dispatch net e s in
  ns_log (ker s') = ns_log (ker s)
  /\ pending is_AttachTraces_other (queue (ker s'))
     = pending is_AttachTraces_other (queue (ker s))
  /\ (unattached s -> unattached s').
Proof.
  intros He; cbv zeta.
  destruct e as [app | | | | | | | n]; try discriminate He;
    cbn [PointToPoint_quicbbr.dispatch].
  - unfold PointToPoint_quicbbr.TraceMetrics.
    split; [reflexivity |]. split; [frame_cases |].
    intros (Hc & Hr & Hgc & Hgr & Hcw & Hrt).
    repeat split; try assumption.
    + cbn. apply Forall_app; split; [exact Hcw |].
      constructor; [exact Hgc | constructor].
    + cbn. apply Forall_app; split; [exact Hrt |].
      constructor; [cbn; rewrite Hgr; reflexivity | constructor].
  - unfold PointToPoint_quicbbr.CalculatePacketLoss.
    destruct (0 <? packetsSent (glob s));
      (split; [reflexivity |]; split; [frame_cases | intros Hu; exact Hu]).
  - split; [reflexivity |]; split; [reflexivity | intros Hu; exact Hu].
  - split; [reflexivity |]; split; [reflexivity | intros Hu; exact Hu].
  - split; [reflexivity |]; split; [reflexivity | intros Hu; exact Hu].
  - split; [reflexivity |]; split; [reflexivity | intros Hu; exact Hu].
  - destruct n as [| | oldCwnd newCwnd | oldRtt newRtt];
      cbn [PointToPoint_quicbbr.deliver].
    + split; [reflexivity |]; split; [reflexivity | intros Hu; exact Hu].
    + split; [reflexivity |]; split; [reflexivity | intros Hu; exact Hu].
    + destruct (quicbbr_invoke_frame (CongestionWindow oldCwnd newCwnd) s
                  (cwnd_callbacks (ker s))) as (Hk & _).
      rewrite Hk. split; [reflexivity |]. split; [reflexivity |].
      intros Hu. pose proof (proj1 Hu) as Hc. rewrite Hc. exact Hu.
    + destruct (quicbbr_invoke_frame (RTT oldRtt newRtt) s
                  (rtt_callbacks (ker s))) as (Hk & _).
      rewrite Hk. split; [reflexivity |]. split; [reflexivity |].
      intros Hu. pose proof (proj1 (proj2 Hu)) as Hr. rewrite Hr. exact Hu.
Qed.

Section Unattached.

Context {D : Type} `{Double D}.
Variable net : network.

Lemma attach_progress_step (s : sim D) :
  attach_progress net s ->
  attach_progress net (ProcessOneEvent (PointToPoint_quicbbr.dispatch net) s).
Proof.
  unfold ProcessOneEvent.
  destruct (queue (ker s)) as [| [t e] q] eqn:Hq;
    [unfold attach_progress; rewrite Hq; tauto |].
  intros (Hab & Hlog & Hcases); rewrite Hq in Hab, Hcases.
  destruct (is_AttachTraces e) eqn:He.
  - assert (Hcons : pending is_AttachTraces ((t, e) :: q)
                    = t :: pending is_AttachTraces q)
      by (unfold pending; cbn [filter snd]; rewrite He; reflexivity).
    rewrite Hcons in Hcases.
    destruct Hcases as [([t0 Hp] & Hu) | (_ & Hp & _)]; [| discriminate Hp].
    apply cons_singleton in Hp; destruct Hp as [_ Hrest].
    destruct e as [app | | | | | | | n]; try discriminate He.
    destruct app;
      [| unfold pending in Hab; cbn in Hab; discriminate Hab].
    assert (Hab' : pending is_AttachTraces_other q = [])
      by (unfold pending in Hab |- *; cbn [filter snd is_AttachTraces_other] in Hab;
          exact Hab).
    cbn [PointToPoint_quicbbr.dispatch].
    unfold PointToPoint_quicbbr.AttachTraces.
    change (Now (set_now t (set_queue q s))) with t.
    destruct Hu as (Hc & Hr & Hgc & Hgr & Hcw & Hrt).
    destruct (GetSocket net t) as [[| |] |] eqn:Hsock;
      unfold attach_progress;
      cbn [Schedule log TraceConnect_CongestionWindow TraceConnect_RTT
           set_now set_queue with_ker ker queue cwnd_callbacks rtt_callbacks
           ns_log Now now];
      rewrite ?Hc, ?Hr, ?pending_insert_other by reflexivity;
      (split; [exact Hab' |]);
      (split; [apply Forall_app; split;
               [exact Hlog | constructor; [reflexivity | constructor]] |]).
    + right. split; [intros Hnever; exact (Hnever t Hsock) |].
      repeat split; exact Hrest.
    + left; split;
        [eexists; apply pending_insert_only; [reflexivity | exact Hrest] |].
      repeat split; assumption.
    + left; split;
        [eexists; apply pending_insert_only; [reflexivity | exact Hrest] |].
      repeat split; assumption.
    + left; split;
        [eexists; apply pending_insert_only; [reflexivity | exact Hrest] |].
      repeat split; assumption.
  - destruct (quicbbr_unattached_other_step net e (set_now t (set_queue q s)) He)
      as (Hl & Hp & Hu).
    destruct (quicbbr_attach_other_step net e (set_now t (set_queue q s)) He)
      as (Hc & Hr & Hpa).
    change (ns_log (ker (set_now t (set_queue q s)))) with (ns_log (ker s)) in Hl.
    change (queue (ker (set_now t (set_queue q s)))) with q in Hp, Hpa.
    change (cwnd_callbacks (ker (set_now t (set_queue q s))))
      with (cwnd_callbacks (ker s)) in Hc.
    change (rtt_callbacks (ker (set_now t (set_queue q s))))
      with (rtt_callbacks (ker s)) in Hr.
    assert (Hcons : pending is_AttachTraces ((t, e) :: q)
                    = pending is_AttachTraces q)
      by (unfold pending; cbn [filter snd]; rewrite He; reflexivity).
    assert (Hcons' : pending is_AttachTraces_other ((t, e) :: q)
                     = pending is_AttachTraces_other q).
    { unfold pending; cbn [filter snd].
      destruct e as [app | | | | | | | n]; try discriminate He; reflexivity. }
    rewrite Hcons in Hcases. rewrite Hcons' in Hab.
    unfold attach_progress. rewrite Hl, Hp, Hpa, Hc, Hr.
    split; [exact Hab |]. split; [exact Hlog |].
    destruct Hcases as [(Hpend & Hun) | Hconn]; [left | right; exact Hconn].
    split; [exact Hpend |]. apply Hu. exact Hun.
Qed.

Lemma attach_progress_run (fuel : nat) :
  forall s : sim D,
    attach_progress net s ->
    attach_progress net (Run (PointToPoint_quicbbr.dispatch net) fuel s).
Proof.
  induction fuel as [| fuel IH]; intros s Hs; cbn [Run]; [exact Hs |].
  destruct (finished s); [exact Hs |].
  apply IH, attach_progress_step, Hs.
Qed.

Lemma attach_progress_main (net_events : list (Time * notification)) :
  attach_progress net (PointToPoint_quicbbr.main net_events).
Proof.
  unfold attach_progress, unattached, PointToPoint_quicbbr.main.
  cbn [Stop Schedule set_queue with_ker ker queue glob out Now now
       cwnd_callbacks rtt_callbacks ns_log].
  destruct (schedule_all_frame net_events
              {| ker := {| now := 0; queue := []; stopped := false;
                           cwnd_callbacks := []; rtt_callbacks := [];
                           ns_log := [] |};
                 glob := {| g_cwnd := to_double 0; g_rtt := to_double 0;
                            packetsSent := 0; packetsReceived := 0;
                            lastTotalRx := 0 |};
                 out := {| cwndFile := []; rttFile := [];
                           throughputFile := []; packetLossFile := [] |} |})
    as (Hg & Ho & _ & _ & Hc & Hr & Hl).
  fold (startup (D := D) net_events) in Hg, Ho, Hc, Hr, Hl.
  rewrite Hg, Ho, Hc, Hr, Hl. cbn [g_cwnd g_rtt cwndFile rttFile].
  rewrite !pending_insert_other by reflexivity.
  split; [apply startup_pending; reflexivity |].
  split; [constructor |]. left. split; [| repeat split; constructor].
  eexists; apply pending_insert_only; [reflexivity |].
  apply startup_pending; reflexivity.
Qed.

(** X7. When the socket of the sender never is a QUIC socket (it stays
    null, or it is a socket of another kind), the attachment neither ends
    nor reports anything: in every run of the point-to-point QUIC program
    exactly one attempt is pending, nothing is connected, and the log
    holds information lines only, no error. *)
Theorem attach_never_gives_up_nor_reports :
  forall (net_events : list (Time * notification)) (fuel : nat),
    (forall t, GetSocket net t <> Some QuicSocketBase) ->
    let s := Run (PointToPoint_quicbbr.dispatch net) fuel
               (PointToPoint_quicbbr.main net_events) in
    (exists t, pending is_AttachTraces (queue (ker s)) = [t])
    /\ cwnd_callbacks (ker s) = [] /\ rtt_callbacks (ker s) = []
    /\ Forall (fun l => fst l = LOG_INFO) (ns_log (ker s)).
Proof.
  intros net_events fuel Hnever; cbv zeta.
  destruct (attach_progress_run fuel _ (attach_progress_main net_events))
    as (_ & Hlog & [(Hp & Hc & Hr & _) | (Hno & _)]).
  - repeat split; assumption.
  - exfalso; apply Hno; exact Hnever.
Qed.

(** X8. In every run of the point-to-point QUIC program, as long as no
    callback is connected to the congestion-window source, every window
    row written so far holds the initial value 0 and every RTT row holds
    [0 * 1000], whatever notifications the socket has issued. *)
Theorem samples_are_zero_until_attached :
  forall (net_events : list (Time * notification)) (fuel : nat),
    let s := Run (PointToPoint_quicbbr.dispatch net) fuel
               (PointToPoint_quicbbr.main net_events) in
    cwnd_callbacks (ker s) = [] ->
    Forall (fun r => snd r = to_double 0) (cwndFile (out s))
    /\ Forall (fun r => snd r = dmul (to_double 0) (to_double 1000))
         (rttFile (out s)).
Proof.
  intros net_events fuel; cbv zeta; intros Hnone.
  destruct (attach_progress_run fuel _ (attach_progress_main net_events))
    as (_ & _ & [(_ & _ & _ & _ & _ & Hcw & Hrt) | (_ & _ & Hc & _)]).
  - split; assumption.
  - rewrite Hnone in Hc; discriminate Hc.
Qed.

End Unattached.

Lemma attach_never_gives_up_nor_reports_witness :
  cwnd_callbacks
    (ker (Run (PointToPoint_quicbbr.dispatch (D := Q)
                 {| GetSocket := fun _ => Some TcpSocketBase;
                    GetTotalRx := fun _ => 0 |})
            5 (PointToPoint_quicbbr.main []))) = [].
Proof.
  destruct (attach_never_gives_up_nor_reports (D := Q)
              {| GetSocket := fun _ => Some TcpSocketBase;
                 GetTotalRx := fun _ => 0 |} [] 5) as (_ & Hc & _).
  - intros t; discriminate.
  - exact Hc.
Defined.

Lemma samples_are_zero_until_attached_witness :
  Forall (fun r => snd r = 0%Q)
    (cwndFile
       (out (Run (PointToPoint_quicbbr.dispatch (D := Q)
                    {| GetSocket := fun _ => None; GetTotalRx := fun _ => 0 |})
               12
               (PointToPoint_quicbbr.main
                  [(150000000, CongestionWindow 0 30000)])))).
Proof.
  destruct (samples_are_zero_until_attached (D := Q)
              {| GetSocket := fun _ => None; GetTotalRx := fun _ => 0 |}
              [(150000000, CongestionWindow 0 30000)] 12) as (Hcw & _).
  - vm_compute; reflexivity.
  - exact Hcw.
Defined.

(** ** The retry loop of the trace attachment within the whole program *)

Lemma work_insert (T t : Time) (e : event) (q : list (Time * event)) :
  work T (insert_event t e q) = (weight T (t, e) + work T q)%nat.
Proof.
  induction q as [| [t' e'] q IH]; cbn [insert_event].
  - reflexivity.
  - destruct (t <? t'); [reflexivity |].
    change (work T ((t', e') :: insert_event t e q))
      with (weight T (t', e') + work T (insert_event t e q))%nat.
    change (work T ((t', e') :: q)) with (weight T (t', e') + work T q)%nat.
    rewrite IH; lia.
Qed.

Lemma quicbbr_period_pos (e : event) (p : Time) :
  quicbbr_period e = Some p -> 0 < p.
Proof.
  destruct e; cbn [quicbbr_period]; intros Hp; try discriminate Hp;
    injection Hp as <-; reflexivity.
Qed.

Lemma weight_pos (T t : Time) (e : event) :
  t <= T -> (1 <= weight T (t, e))%nat.
Proof.
  intros Ht; unfold weight; cbn [fst snd].
  destruct (Z.leb_spec t T); [| lia].
  destruct (quicbbr_period e); lia.
Qed.

(** The occurrence an event schedules of itself weighs less than the
    event. *)
Lemma weight_next (T t p : Time) (e : event) :
  quicbbr_period e = Some p -> t <= T ->
  (weight T ((t + p)%Z, e) < weight T (t, e))%nat.
Proof.
  intros Hp Ht; pose proof (quicbbr_period_pos e p Hp) as Hpos.
  unfold weight; cbn [fst snd]; rewrite Hp.
  destruct (Z.leb_spec t T); [| lia].
  destruct (Z.leb_spec (t + p) T); [| lia].
  replace (T - (t + p)) with ((T - t) + (-1) * p) by lia.
  rewrite Z.div_add by lia.
  assert (1 <= (T - t) / p) by (apply Z.div_le_lower_bound; lia).
  lia.
Qed.

(** What an event of the program does to the event list and to the stop
    flag: only the stop event stops the simulator, and an event leaves
    the list as it is or schedules itself after its period. *)
Lemma quicbbr_queue_shape {D} `{Double D} (net : network) (e : event)
    (s : sim D) :
  let s' := PointToPoint_quicbbr.dispatch net e s in
  (e <> Stop_ev -> stopped (ker s') = stopped (ker s))
  /\ (queue (ker s') = queue (ker s)
      \/ exists p : Time,
           quicbbr_period e = Some p
           /\ queue (ker s') = insert_event (Now s + p) e (queue (ker s))).
Proof.
  cbv zeta.
  destruct e as [app | | | | | | | n]; cbn [PointToPoint_quicbbr.dispatch].
  - unfold PointToPoint_quicbbr.AttachTraces.
    destruct app; [destruct (GetSocket net (Now s)) as [[| |] |] |].
    + split; [reflexivity | left; reflexivity].
    + split; [reflexivity | right; eexists; split; reflexivity].
    + split; [reflexivity | right; eexists; split; reflexivity].
    + split; [reflexivity | right; eexists; split; reflexivity].
    + split; [reflexivity | left; reflexivity].
  - split; [reflexivity | right; eexists; split; reflexivity].
  - unfold PointToPoint_quicbbr.CalculatePacketLoss.
    destruct (0 <? packetsSent (glob s));
      (split; [reflexivity | right; eexists; split; reflexivity]).
  - split; [reflexivity | left; reflexivity].
  - split; [reflexivity | left; reflexivity].
  - split; [reflexivity | left; reflexivity].
  - split; [intros Hne; contradiction Hne; reflexivity | left; reflexivity].
  - destruct n as [| | oldCwnd newCwnd | oldRtt newRtt];
      cbn [PointToPoint_quicbbr.deliver].
    + split; [reflexivity | left; reflexivity].
    + split; [reflexivity | left; reflexivity].
    + destruct (quicbbr_invoke_frame (CongestionWindow oldCwnd newCwnd) s
                  (cwnd_callbacks (ker s))) as (Hk & _).
      rewrite Hk; split; [reflexivity | left; reflexivity].
    + destruct (quicbbr_invoke_frame (RTT oldRtt newRtt) s
                  (rtt_callbacks (ker s))) as (Hk & _).
      rewrite Hk; split; [reflexivity | left; reflexivity].
Qed.

(** Running the earliest event, when it is not later than [T], takes one
    unit of the work left up to [T] at least. *)
Lemma quicbbr_work_step {D} `{Double D} (net : network) (T t : Time)
    (e : event) (q : list (Time * event)) (s : sim D) :
  t <= T ->
  (work T (queue (ker (PointToPoint_quicbbr.dispatch net e
                         (set_now t (set_queue q s)))))
   < work T ((t, e) :: q))%nat.
Proof.
  intros Ht.
  destruct (quicbbr_queue_shape net e (set_now t (set_queue q s)))
    as (_ & [Hq | (p & Hp & Hq)]); rewrite Hq;
    change (queue (ker (set_now t (set_queue q s)))) with q;
    change (work T ((t, e) :: q)) with (weight T (t, e) + work T q)%nat.
  - pose proof (weight_pos T t e Ht); lia.
  - change (Now (set_now t (set_queue q s))) with t.
    rewrite work_insert.
    apply Nat.add_lt_mono_r, (weight_next T t p e Hp Ht).
Qed.

Lemma quicbbr_no_stop_step {D} `{Double D} (net : network) (T t : Time)
    (e : event) (q : list (Time * event)) (s : sim D) :
  no_stop_until T ((t, e) :: q) ->
  no_stop_until T (queue (ker (PointToPoint_quicbbr.dispatch net e
                                 (set_now t (set_queue q s))))).
Proof.
  unfold no_stop_until; intros Hall.
  inversion Hall as [| te q' Hhead Htail]; subst.
  destruct (quicbbr_queue_shape net e (set_now t (set_queue q s)))
    as (_ & [Hq | (p & Hp & Hq)]); rewrite Hq;
    change (queue (ker (set_now t (set_queue q s)))) with q.
  - exact Htail.
  - apply insert_event_Forall; [| exact Htail].
    cbn [snd]; intros He; rewrite He in Hp; discriminate Hp.
Qed.

Lemma sorted_from_In (q : list (Time * event)) :
  forall (t0 t : Time) (e : event),
    sorted_from t0 q -> In (t, e) q -> t0 <= t.
Proof.
  induction q as [| [t' e'] q IH]; intros t0 t e Hs Hin; [contradiction Hin |].
  destruct Hs as [Hle Hs]; destruct Hin as [Heq | Hin].
  - injection Heq as -> _; exact Hle.
  - specialize (IH t' t e Hs Hin); lia.
Qed.

Lemma pending_In (sel : event -> bool) (q : list (Time * event)) (t : Time) :
  In t (pending sel q) -> exists e : event, In (t, e) q.
Proof.
  unfold pending; intros Hin.
  apply in_map_iff in Hin; destruct Hin as ([t' e] & Ht & Hin).
  apply filter_In in Hin; destruct Hin as [Hin _].
  cbn in Ht; subst t'; exists e; exact Hin.
Qed.

(** What an event other than an attachment attempt leaves unchanged. *)
Lemma quicbbr_nonattach_step {D} `{Double D} (net : network) (e : event)
    (s : sim D) :
  is_AttachTraces e = false ->
  let s' := PointToPoint_quicbbr.dispatch net e s in
  ns_log (ker s') = ns_log (ker s)
  /\ pending is_AttachTraces_other (queue (ker s'))
     = pending is_AttachTraces_other (queue (ker s)).
Proof.
  intros He; cbv zeta.
  destruct e as [app | | | | | | | n]; try discriminate He;
    cbn [PointToPoint_quicbbr.dispatch].
  - unfold PointToPoint_quicbbr.TraceMetrics; frame_cases.
  - unfold PointToPoint_quicbbr.CalculatePacketLoss.
    destruct (0 <? packetsSent (glob s)); frame_cases.
  - frame_cases.
  - frame_cases.
  - frame_cases.
  - frame_cases.
  - destruct n as [| | oldCwnd newCwnd | oldRtt newRtt];
      cbn [PointToPoint_quicbbr.deliver].
    + frame_cases.
    + frame_cases.
    + destruct (quicbbr_invoke_frame (CongestionWindow oldCwnd newCwnd) s
                  (cwnd_callbacks (ker s))) as (Hk & _).
      rewrite Hk; split; reflexivity.
    + destruct (quicbbr_invoke_frame (RTT oldRtt newRtt) s
                  (rtt_callbacks (ker s))) as (Hk & _).
      rewrite Hk; split; reflexivity.
Qed.

Lemma attempt_time_next (k : nat) :
  attempt_time k + Seconds (1 # 10) = attempt_time (S k).
Proof. unfold attempt_time; lia. Qed.

Lemma attempt_time_le (k n : nat) :
  (k <= n)%nat -> attempt_time k <= attempt_time n.
Proof.
  intros Hk; unfold attempt_time.
  change (Seconds (1 # 10)) with 100000000; lia.
Qed.

Section RetryLoop.

Context {D : Type} `{Double D}.
Variable net : network.
Variable n : nat.

Hypothesis socket_unavailable :
  forall k : nat,
    (k < n)%nat -> GetSocket net (attempt_time k) <> Some QuicSocketBase.

Lemma attached_step (s : sim D) :
  attached net n s ->
  attached net n (ProcessOneEvent (PointToPoint_quicbbr.dispatch net) s).
Proof.
  unfold attached, ProcessOneEvent.
  destruct (queue (ker s)) as [| [t e] q] eqn:Hq; [rewrite Hq; tauto |].
  intros (Hp & Hlog & Hc & Hr).
  destruct (is_AttachTraces e) eqn:He.
  { unfold pending in Hp; cbn [filter snd] in Hp; rewrite He in Hp.
    discriminate Hp. }
  assert (Hcons : pending is_AttachTraces ((t, e) :: q)
                  = pending is_AttachTraces q)
    by (unfold pending; cbn [filter snd]; rewrite He; reflexivity).
  rewrite Hcons in Hp.
  destruct (quicbbr_attach_other_step net e (set_now t (set_queue q s)) He)
    as (Hc' & Hr' & Hp').
  destruct (quicbbr_nonattach_step net e (set_now t (set_queue q s)) He)
    as (Hlog' & _).
  rewrite Hc', Hr', Hp', Hlog'.
  repeat split; assumption.
Qed.

(** While the loop is retrying, an event of the simulator leaves it
    retrying, unless the event is attempt number [n]. *)
Lemma retrying_step (s : sim D) :
  pending is_AttachTraces_other (queue (ker s)) = [] ->
  retrying net n s ->
  (pending is_AttachTraces_other
     (queue (ker (ProcessOneEvent (PointToPoint_quicbbr.dispatch net) s))) = []
   /\ retrying net n (ProcessOneEvent (PointToPoint_quicbbr.dispatch net) s))
  \/ (exists q : list (Time * event),
        queue (ker s)
        = (attempt_time n, AttachTraces_ev BulkSendApplication) :: q
        /\ pending is_AttachTraces q = []
        /\ pending is_AttachTraces_other q = []
        /\ ns_log (ker s) = retry_log net n
        /\ cwnd_callbacks (ker s) = [] /\ rtt_callbacks (ker s) = []).
Proof.
  intros Hother Hretry.
  unfold ProcessOneEvent; unfold retrying in Hretry.
  destruct (queue (ker s)) as [| [t e] q] eqn:Hq.
  { left; split; [rewrite Hq; exact Hother |].
    unfold retrying; rewrite Hq; exact Hretry. }
  assert (Hother_q : is_AttachTraces_other e = false
                     /\ pending is_AttachTraces_other q = []).
  { unfold pending in Hother |- *; cbn [filter snd] in Hother.
    destruct (is_AttachTraces_other e); [discriminate Hother |].
    split; [reflexivity | exact Hother]. }
  destruct Hother_q as (Hnot_other & Hother_q).
  destruct Hretry as (k & Hk & Hp & Hlog & Hc & Hr).
  destruct (is_AttachTraces e) eqn:He.
  - assert (Hcons : pending is_AttachTraces ((t, e) :: q)
                    = t :: pending is_AttachTraces q)
      by (unfold pending; cbn [filter snd]; rewrite He; reflexivity).
    rewrite Hcons in Hp; apply cons_singleton in Hp; destruct Hp as [Ht Hrest].
    destruct e as [app | | | | | | | ev]; try discriminate He.
    destruct app; [| discriminate Hnot_other].
    assert (Hcase : (k < n)%nat \/ k = n) by lia.
    destruct Hcase as [Hlt | ->].
    + left.
      cbn [PointToPoint_quicbbr.dispatch].
      unfold PointToPoint_quicbbr.AttachTraces.
      change (Now (set_now t (set_queue q s))) with t.
      rewrite Ht.
      pose proof (socket_unavailable k Hlt) as Hsock.
      assert (Hnext : retry_log net (S k)
                      = retry_log net k
                        ++ [retry_line (GetSocket net (attempt_time k))])
        by (unfold retry_log; rewrite seq_S, map_app; reflexivity).
      destruct (GetSocket net (attempt_time k)) as [[| |] |];
        [contradiction Hsock; reflexivity | | |];
        (cbn [Schedule log set_now set_queue with_ker ker queue Now now];
         split;
         [ rewrite pending_insert_other by reflexivity; exact Hother_q
         | exists (S k); split; [lia |];
           cbn [Schedule log set_now set_queue with_ker ker queue Now now
                ns_log cwnd_callbacks rtt_callbacks];
           rewrite (pending_insert_only is_AttachTraces _
                      (AttachTraces_ev BulkSendApplication) q eq_refl Hrest);
           rewrite attempt_time_next, Hlog, Hnext;
           repeat split; assumption ]).
    + right; exists q; rewrite Ht.
      repeat split; assumption.
  - left.
    assert (Hcons : pending is_AttachTraces ((t, e) :: q)
                    = pending is_AttachTraces q)
      by (unfold pending; cbn [filter snd]; rewrite He; reflexivity).
    rewrite Hcons in Hp.
    destruct (quicbbr_attach_other_step net e (set_now t (set_queue q s)) He)
      as (Hc' & Hr' & Hp').
    destruct (quicbbr_nonattach_step net e (set_now t (set_queue q s)) He)
      as (Hlog' & Hother').
    split; [rewrite Hother'; exact Hother_q |].
    exists k; rewrite Hc', Hr', Hp', Hlog'.
    repeat split; assumption.
Qed.

(** *** The socket is a QUIC socket at attempt [n] *)

Lemma retry_step (s : sim D) :
  GetSocket net (attempt_time n) = Some QuicSocketBase ->
  retry_stage net n s ->
  retry_stage net n (ProcessOneEvent (PointToPoint_quicbbr.dispatch net) s).
Proof.
  intros socket_quic (Hother & [Hretry | Hatt]).
  - destruct (retrying_step s Hother Hretry)
      as [(Hother' & Hretry')
         | (q & Hq & Hrest & Hother_q & Hlog & Hc & Hr)].
    + split; [exact Hother' | left; exact Hretry'].
    + unfold ProcessOneEvent; rewrite Hq.
      cbn [PointToPoint_quicbbr.dispatch].
      unfold PointToPoint_quicbbr.AttachTraces.
      change (Now (set_now (attempt_time n) (set_queue q s)))
        with (attempt_time n).
      rewrite socket_quic.
      split; [exact Hother_q |].
      right; unfold attached.
      cbn [log TraceConnect_CongestionWindow TraceConnect_RTT set_now
           set_queue with_ker ker queue ns_log cwnd_callbacks rtt_callbacks].
      rewrite Hlog, Hc, Hr; repeat split; exact Hrest.
  - split; [| right; apply attached_step, Hatt].
    unfold ProcessOneEvent.
    destruct (queue (ker s)) as [| [t e] q] eqn:Hq; [rewrite Hq; exact Hother |].
    destruct Hatt as (Hp & _); rewrite Hq in Hp.
    destruct (is_AttachTraces e) eqn:He.
    { unfold pending in Hp; cbn [filter snd] in Hp; rewrite He in Hp.
      discriminate Hp. }
    destruct (quicbbr_nonattach_step net e (set_now t (set_queue q s)) He)
      as (_ & Hother').
    rewrite Hother'.
    change (queue (ker (set_now t (set_queue q s)))) with q.
    unfold pending in Hother |- *; cbn [filter snd] in Hother.
    destruct (is_AttachTraces_other e); [discriminate Hother | exact Hother].
Qed.

Lemma retry_run (fuel : nat) :
  GetSocket net (attempt_time n) = Some QuicSocketBase ->
  forall s : sim D,
    retry_stage net n s ->
    retry_stage net n (Run (PointToPoint_quicbbr.dispatch net) fuel s).
Proof.
  intros socket_quic.
  induction fuel as [| fuel IH]; intros s Hs; cbn [Run]; [exact Hs |].
  destruct (finished s); [exact Hs |].
  apply IH, retry_step; [exact socket_quic | exact Hs].
Qed.

Lemma attached_run (fuel : nat) :
  forall s : sim D,
    attached net n s -> attached net n (Run (PointToPoint_quicbbr.dispatch net) fuel s).
Proof.
  induction fuel as [| fuel IH]; intros s Hs; cbn [Run]; [exact Hs |].
  destruct (finished s); [exact Hs |].
  apply IH, attached_step, Hs.
Qed.

(** While the attempt that succeeds is ahead, the simulator is not
    stopped and every event it runs takes from the work left up to the
    time of that attempt: the attempt is reached. *)
Lemma retry_progress (m : nat) :
  GetSocket net (attempt_time n) = Some QuicSocketBase ->
  forall s : sim D,
    (work (attempt_time n) (queue (ker s)) < m)%nat ->
    timeline s ->
    stopped (ker s) = false ->
    no_stop_until (attempt_time n) (queue (ker s)) ->
    retry_stage net n s ->
    exists fuel : nat,
      attached net n (Run (PointToPoint_quicbbr.dispatch net) fuel s).
Proof.
  intros socket_quic.
  induction m as [| m IH]; intros s Hwork Htime Hrun Hstop Hstage; [lia |].
  destruct Hstage as (Hother & [Hretry | Hatt]);
    [| exists 0%nat; exact Hatt].
  destruct Hretry as (k & Hk & Hp & Hrest).
  assert (Hin : exists e, In (attempt_time k, e) (queue (ker s))).
  { apply (pending_In is_AttachTraces); rewrite Hp; left; reflexivity. }
  destruct Hin as (ea & Hin).
  destruct (queue (ker s)) as [| [t e] q] eqn:Hq; [contradiction Hin |].
  assert (Ht : t <= attempt_time n).
  { pose proof (attempt_time_le k n Hk) as Hkn.
    destruct Htime as (Hsorted & _); rewrite Hq in Hsorted.
    destruct Hsorted as [_ Hsorted].
    destruct Hin as [Heq | Hin].
    - injection Heq as -> _; exact Hkn.
    - pose proof (sorted_from_In q t _ ea Hsorted Hin); lia. }
  assert (Hne : e <> Stop_ev).
  { intros ->. unfold no_stop_until in Hstop.
    inversion Hstop as [| te q' Hhead Htail]; subst.
    specialize (Hhead eq_refl); cbn [fst] in Hhead; lia. }
  set (s1 := ProcessOneEvent (PointToPoint_quicbbr.dispatch net) s).
  assert (Hs1 : s1 = PointToPoint_quicbbr.dispatch net e
                       (set_now t (set_queue q s)))
    by (unfold s1, ProcessOneEvent; rewrite Hq; reflexivity).
  destruct (IH s1) as (fuel & Hfuel).
  - rewrite Hs1.
    pose proof (quicbbr_work_step net (attempt_time n) t e q s Ht); lia.
  - rewrite Hs1; apply quicbbr_timeline_step, (timeline_pop t e q s Hq Htime).
  - rewrite Hs1.
    destruct (quicbbr_queue_shape net e (set_now t (set_queue q s)))
      as (Hstopped & _).
    rewrite (Hstopped Hne); exact Hrun.
  - rewrite Hs1; apply quicbbr_no_stop_step; exact Hstop.
  - apply retry_step; [exact socket_quic |].
    split; [rewrite Hq; exact Hother |].
    left; exists k; rewrite Hq; repeat split; try assumption; apply Hrest.
  - exists (S fuel); cbn [Run].
    unfold finished; rewrite Hrun, Hq; cbn [orb]; exact Hfuel.
Qed.

(** *** Attempt [n] is not earlier than the stop time *)

Lemma still_retrying_run (hz : Time) (fuel : nat) :
  hz <= attempt_time n ->
  forall s : sim D,
    within_horizon true hz s ->
    pending is_AttachTraces_other (queue (ker s)) = [] ->
    retrying net n s ->
    retrying net n (Run (PointToPoint_quicbbr.dispatch net) fuel s).
Proof.
  intros Hhz.
  induction fuel as [| fuel IH]; intros s Hwithin Hother Hretry; cbn [Run];
    [exact Hretry |].
  destruct (finished s) eqn:Hfin; [exact Hretry |].
  assert (Hrun : stopped (ker s) = false).
  { unfold finished in Hfin; destruct (stopped (ker s));
      [discriminate Hfin | reflexivity]. }
  destruct (retrying_step s Hother Hretry)
    as [(Hother' & Hretry')
       | (q & Hq & _)].
  - apply IH; [| exact Hother' | exact Hretry'].
    apply within_process;
      [reflexivity | intros e s0; apply quicbbr_within_step
      | exact Hwithin | exact Hrun].
  - exfalso.
    destruct Hwithin as (_ & Hpending & _).
    destruct (Hpending Hrun) as (q1 & q2 & Heq & Hall).
    rewrite Hq in Heq.
    destruct q1 as [| te q1]; cbn [app] in Heq.
    + discriminate Heq.
    + inversion Hall as [| te' q1' [_ Hlt] Hall']; subst.
      injection Heq as <- _.
      specialize (Hlt eq_refl); cbn [fst] in Hlt; lia.
Qed.

Lemma retry_main (net_events : list (Time * notification)) :
  pending is_AttachTraces_other
    (queue (ker (PointToPoint_quicbbr.main (D := D) net_events))) = []
  /\ retrying net n (PointToPoint_quicbbr.main (D := D) net_events)
  /\ stopped (ker (PointToPoint_quicbbr.main (D := D) net_events)) = false
  /\ (attempt_time n < Seconds PointToPoint_quicbbr.DURATION ->
      no_stop_until (attempt_time n)
        (queue (ker (PointToPoint_quicbbr.main (D := D) net_events)))).
Proof.
  destruct (schedule_all_frame net_events
              {| ker := {| now := 0; queue := []; stopped := false;
                           cwnd_callbacks := []; rtt_callbacks := [];
                           ns_log := [] |};
                 glob := {| g_cwnd := to_double 0; g_rtt := to_double 0;
                            packetsSent := 0; packetsReceived := 0;
                            lastTotalRx := 0 |};
                 out := {| cwndFile := []; rttFile := [];
                           throughputFile := []; packetLossFile := [] |} |})
    as (_ & _ & _ & Hstopped & Hc & Hr & Hlog).
  unfold PointToPoint_quicbbr.main.
  split; [| split].
  - cbn [Stop Schedule set_queue with_ker ker queue Now now].
    rewrite !pending_insert_other by reflexivity.
    apply startup_pending; reflexivity.
  - exists 0%nat; split; [lia |].
    cbn [Stop Schedule set_queue with_ker ker queue Now now
         ns_log cwnd_callbacks rtt_callbacks].
    change (now (ker (startup net_events)))
      with (Now (startup (D := D) net_events)).
    rewrite startup_now.
    rewrite !pending_insert_other by reflexivity.
    rewrite (pending_insert_only is_AttachTraces _
               (AttachTraces_ev BulkSendApplication) _ eq_refl
               (startup_pending is_AttachTraces net_events
                  (fun _ => eq_refl))).
    split; [reflexivity |].
    split; [exact Hlog |].
    split; [exact Hc | exact Hr].
  - cbn [Stop Schedule set_queue with_ker ker queue Now now stopped].
    change (now (ker (startup net_events)))
      with (Now (startup (D := D) net_events)).
    rewrite startup_now.
    split; [exact Hstopped |].
    intros Hbefore; unfold no_stop_until.
    apply insert_event_Forall; [intros _; exact Hbefore |].
    repeat (apply insert_event_Forall; [cbn [snd]; discriminate |]).
    eapply Forall_impl; [| apply (startup_queue_notify (D := D) net_events)].
    intros [t e] Hnotify Hstop; cbn [snd] in Hnotify, Hstop.
    rewrite Hstop in Hnotify; discriminate Hnotify.
Qed.

End RetryLoop.

(** C3 (as amended). Take any run of the point-to-point QUIC program,
    whatever else the network does, in which the socket of the bulk
    sender is not available (null, or not a QUIC socket) at the attempts
    number 0 to [n - 1], made every 0.1 s from 0.1 s on. When the socket
    is a QUIC socket at attempt [n]: at every moment either some [k <= n]
    retries are logged, attempt [k] is pending and nothing is connected,
    or [n] retries and then one success are logged, each trace source has
    exactly one connected callback and no attempt is pending; and when
    attempt [n] is earlier than the stop time of [main], the run reaches
    the second stage and stays in it. When attempt [n] is not earlier
    than the stop time, it never runs: the loop is retrying to the end of
    the run and nothing is ever connected. *)
Theorem attach_retries_then_connects_once :
  forall (D : Type) (DD : Double D) (net : network)
         (net_events : list (Time * notification)) (n : nat),
    Forall (fun tn => 0 <= fst tn) net_events ->
    (forall k : nat,
        (k < n)%nat -> GetSocket net (attempt_time k) <> Some QuicSocketBase) ->
    (GetSocket net (attempt_time n) = Some QuicSocketBase ->
     (forall fuel : nat,
         let s := Run (PointToPoint_quicbbr.dispatch net) fuel
                    (PointToPoint_quicbbr.main (D := D) net_events) in
         retrying net n s \/ attached net n s)
     /\ (attempt_time n < Seconds PointToPoint_quicbbr.DURATION ->
         exists fuel0 : nat,
           forall fuel : nat,
             (fuel0 <= fuel)%nat ->
             attached net n
               (Run (PointToPoint_quicbbr.dispatch net) fuel
                  (PointToPoint_quicbbr.main (D := D) net_events))))
    /\ (Seconds PointToPoint_quicbbr.DURATION <= attempt_time n ->
        forall fuel : nat,
          retrying net n
            (Run (PointToPoint_quicbbr.dispatch net) fuel
               (PointToPoint_quicbbr.main (D := D) net_events))).
Proof.
  intros D DD net net_events n Hpos Hnull.
  destruct (retry_main (D := D) net n net_events)
    as (Hother & Hretry & Hrun & Hstop).
  split; [intros Hquic; split |].
  - intros fuel; cbv zeta.
    apply (retry_run net n Hnull fuel Hquic).
    split; [exact Hother | left; exact Hretry].
  - intros Hbefore; specialize (Hstop Hbefore).
    assert (Htime : timeline (PointToPoint_quicbbr.main (D := D) net_events)).
    { pose proof (timeline_startup (D := D) net_events Hpos) as H0.
      unfold PointToPoint_quicbbr.main, Stop; timeline_steps H0. }
    destruct (retry_progress net n Hnull _ Hquic _ (Nat.lt_succ_diag_r _)
                Htime Hrun Hstop (conj Hother (or_introl Hretry)))
      as (fuel0 & Hatt).
    exists fuel0; intros fuel Hfuel.
    replace fuel with (fuel0 + (fuel - fuel0))%nat by lia.
    rewrite Run_add.
    apply (attached_run net n); exact Hatt.
  - intros Hafter fuel.
    apply (still_retrying_run net n Hnull
             (Seconds PointToPoint_quicbbr.DURATION) fuel Hafter);
      [| exact Hother | exact Hretry].
    apply (within_main true (Seconds 100) net_events
             [(Seconds (1 # 10), AttachTraces_ev BulkSendApplication);
              (Seconds 1, TraceMetrics_ev);
              (Seconds 1, CalculatePacketLoss_ev)]);
      [vm_compute; discriminate |].
    repeat constructor.
Qed.

(** The socket that is null before 0.4 s and a QUIC socket from then on,
    one packet being sent at 0.15 s: three attempts fail, the fourth
    connects. *)
Lemma attach_retries_then_connects_once_witness :
  exists fuel0 : nat,
    forall fuel : nat,
      (fuel0 <= fuel)%nat ->
      let s := Run (PointToPoint_quicbbr.dispatch (D := Q)
                      {| GetSocket := fun t => if t <? 400000000 then None
                                               else Some QuicSocketBase;
                         GetTotalRx := fun _ => 0 |})
                 fuel (PointToPoint_quicbbr.main [(150000000, Tx)]) in
      ns_log (ker s)
      = [(LOG_INFO, "Socket is null, retrying..."%string);
         (LOG_INFO, "Socket is null, retrying..."%string);
         (LOG_INFO, "Socket is null, retrying..."%string);
         (LOG_INFO, "Successfully attached traces for cwnd and RTT."%string)]
      /\ cwnd_callbacks (ker s) = [CwndTracer_cb]
      /\ rtt_callbacks (ker s) = [RttTracer_cb]
      /\ pending is_AttachTraces (queue (ker s)) = [].
Proof.
  destruct (attach_retries_then_connects_once Q Double_Q
              {| GetSocket := fun t => if t <? 400000000 then None
                                       else Some QuicSocketBase;
                 GetTotalRx := fun _ => 0 |} [(150000000, Tx)] 3%nat)
    as (Hquic & _).
  - repeat constructor; cbn; lia.
  - intros k Hk.
    destruct k as [| [| [| k]]];
      [discriminate | discriminate | discriminate | lia].
  - destruct (Hquic eq_refl) as (_ & Hreach).
    destruct (Hreach eq_refl) as (fuel0 & Hfuel0).
    exists fuel0; intros fuel Hfuel; cbv zeta.
    destruct (Hfuel0 fuel Hfuel) as (Hp & Hlog & Hc & Hr).
    split; [exact Hlog |].
    split; [exact Hc |].
    split; [exact Hr | exact Hp].
Defined.

(** C3 (as stated) fails from [n = 999] on: when the socket is null at
    the 999 attempts made before 100 s and is a QUIC socket from 100 s on,
    the attempt number 999 is scheduled for 100 s, behind the stop event,
    and the run ends with 999 retries logged, that attempt still pending
    and nothing connected. *)
Lemma attach_after_stop_time_never_connects :
  let net := {| GetSocket := fun t => if t <? 100000000000 then None
                                      else Some QuicSocketBase;
                GetTotalRx := fun _ => 0 |} in
  let s := Run (PointToPoint_quicbbr.dispatch (D := Q) net) 1200
             (PointToPoint_quicbbr.main []) in
  (forall k : nat, (k < 999)%nat -> GetSocket net (attempt_time k) = None)
  /\ GetSocket net (attempt_time 999) = Some QuicSocketBase
  /\ attempt_time 999 = Seconds PointToPoint_quicbbr.DURATION
  /\ stopped (ker s) = true
  /\ Now s = Seconds PointToPoint_quicbbr.DURATION
  /\ ns_log (ker s)
     = repeat (LOG_INFO, "Socket is null, retrying..."%string) 999
  /\ pending is_AttachTraces (queue (ker s)) = [attempt_time 999]
  /\ cwnd_callbacks (ker s) = [] /\ rtt_callbacks (ker s) = []
  /\ (forall fuel : nat,
         Run (PointToPoint_quicbbr.dispatch (D := Q) net) fuel s = s).
Proof.
  cbv zeta.
  split.
  { intros k Hk; cbn [GetSocket]; unfold attempt_time.
    change (Seconds (1 # 10)) with 100000000.
    destruct (Z.ltb_spec (100000000 + Z.of_nat k * 100000000) 100000000000);
      [reflexivity | lia]. }
  split; [reflexivity |].
  split; [reflexivity |].
  split; [vm_compute; reflexivity |].
  split; [vm_compute; reflexivity |].
  split; [vm_compute; reflexivity |].
  split; [vm_compute; reflexivity |].
  split; [vm_compute; reflexivity |].
  split; [vm_compute; reflexivity |].
  intros fuel; apply Run_finished.
  vm_compute; reflexivity.
Qed.

(** ** The cached window is the last one notified *)

Lemma quicbbr_deliver_frame {D} `{Double D} (n : notification) (s : sim D) :
  ker (PointToPoint_quicbbr.deliver n s) = ker s
  /\ out (PointToPoint_quicbbr.deliver n s) = out s.
Proof.
  destruct n as [| | oldCwnd newCwnd | oldRtt newRtt];
    cbn [PointToPoint_quicbbr.deliver]; try (split; reflexivity).
  - destruct (quicbbr_invoke_frame (CongestionWindow oldCwnd newCwnd) s
                (cwnd_callbacks (ker s))) as (Hk & Ho & _); split; assumption.
  - destruct (quicbbr_invoke_frame (RTT oldRtt newRtt) s
                (rtt_callbacks (ker s))) as (Hk & Ho & _); split; assumption.
Qed.

Lemma quicbbr_deliver_other_cwnd {D} `{Double D} (n : notification)
    (s : sim D) :
  (forall oldCwnd newCwnd, n <> CongestionWindow oldCwnd newCwnd) ->
  g_cwnd (glob (PointToPoint_quicbbr.deliver n s)) = g_cwnd (glob s).
Proof.
  intros Hn.
  destruct n as [| | oldCwnd newCwnd | oldRtt newRtt];
    cbn [PointToPoint_quicbbr.deliver]; try reflexivity.
  - exfalso; exact (Hn oldCwnd newCwnd eq_refl).
  - apply fold_left_preserves; [| reflexivity].
    intros a cb Ha; destruct cb; exact Ha.
Qed.

(** X9. Once [CwndTracer] is connected, however many notifications the
    network delivers between two ticks, the window row written by the
    next [TraceMetrics] holds the value of the last congestion-window
    notification only ([newCwnd / 1500], integer quotient): earlier
    values are overwritten and never reach the stream. *)
Theorem cwnd_sample_is_last_notified :
  forall (D : Type) (DD : Double D) (net : network) (s : sim D)
         (before after : list notification) (oldCwnd newCwnd : Z),
    cwnd_callbacks (ker s) = [CwndTracer_cb] ->
    (forall n o c, In n after -> n <> CongestionWindow o c) ->
    let s' := fold_left (fun s n => PointToPoint_quicbbr.deliver n s)
                (before ++ CongestionWindow oldCwnd newCwnd :: after) s in
    cwndFile (out (PointToPoint_quicbbr.TraceMetrics net s'))
    = cwndFile (out s) ++ [(Now s, to_double (u32 newCwnd / 1500))].
Proof.
  intros D DD net s before after oldCwnd newCwnd Hconn Hafter; cbv zeta.
  rewrite fold_left_app; cbn [fold_left].
  set (s1 := fold_left (fun s n => PointToPoint_quicbbr.deliver n s) before s).
  assert (Hframe : forall (l : list notification) (a : sim D),
             ker (fold_left (fun s n => PointToPoint_quicbbr.deliver n s) l a)
             = ker a
             /\ out (fold_left (fun s n => PointToPoint_quicbbr.deliver n s) l a)
                = out a).
  { induction l as [| n l IH]; intros a; [split; reflexivity |].
    cbn [fold_left].
    destruct (IH (PointToPoint_quicbbr.deliver n a)) as [Hk Ho].
    destruct (quicbbr_deliver_frame n a) as [Hk' Ho'].
    rewrite Hk, Ho, Hk', Ho'; split; reflexivity. }
  destruct (Hframe before s) as [Hk1 Ho1]. fold s1 in Hk1, Ho1.
  set (s2 := PointToPoint_quicbbr.deliver (CongestionWindow oldCwnd newCwnd) s1).
  assert (Hg2 : g_cwnd (glob s2) = to_double (u32 newCwnd / 1500)).
  { unfold s2; cbn [PointToPoint_quicbbr.deliver].
    rewrite Hk1, Hconn; reflexivity. }
  destruct (quicbbr_deliver_frame (CongestionWindow oldCwnd newCwnd) s1)
    as [Hk2 Ho2]. fold s2 in Hk2, Ho2.
  assert (Hg3 : forall (l : list notification) (a : sim D),
             (forall n o c, In n l -> n <> CongestionWindow o c) ->
             g_cwnd (glob (fold_left
                             (fun s n => PointToPoint_quicbbr.deliver n s) l a))
             = g_cwnd (glob a)).
  { induction l as [| n l IH]; intros a Hl; [reflexivity |].
    cbn [fold_left]. rewrite IH by (intros n' o c Hin; apply Hl; right; exact Hin).
    apply quicbbr_deliver_other_cwnd.
    intros o c; apply Hl; left; reflexivity. }
  destruct (Hframe after s2) as [Hk3 Ho3].
  unfold PointToPoint_quicbbr.TraceMetrics.
  cbn [Schedule write_cwndFile write_rttFile write_throughputFile
       set_lastTotalRx set_queue with_ker with_glob with_out
       ker glob out cwndFile g_cwnd].
  rewrite (Hg3 after s2 Hafter), Hg2, Ho3, Ho2, Ho1.
  unfold Now; rewrite Hk3, Hk2, Hk1; reflexivity.
Qed.

Lemma cwnd_sample_is_last_notified_witness :
  cwndFile
    (out (PointToPoint_quicbbr.TraceMetrics example_network
            (fold_left (fun s n => PointToPoint_quicbbr.deliver n s)
               ([CongestionWindow 0 15000; Tx]
                  ++ CongestionWindow 15000 4500 :: [Rx; RTT 0 2000000])
               (TraceConnect_CongestionWindow CwndTracer_cb
                  (startup (D := Q) [])))))
  = [(0, 3%Q)].
Proof.
  apply (cwnd_sample_is_last_notified Q Double_Q example_network
           (TraceConnect_CongestionWindow CwndTracer_cb (startup []))
           [CongestionWindow 0 15000; Tx] [Rx; RTT 0 2000000] 15000 4500).
  - reflexivity.
  - intros n o c [<- | [<- | []]]; discriminate.
Defined.

(** ** The ring TCP program *)

Lemma ring_attach_other_step {D} `{Double D} (net : network) (e : event)
    (s : sim D) :
  is_AttachTraces e = false ->
  let s' := Ring_tcpcubic.dispatch net e s in
  cwnd_callbacks (ker s') = cwnd_callbacks (ker s)
  /\ rtt_callbacks (ker s') = rtt_callbacks (ker s)
  /\ pending is_AttachTraces (queue (ker s'))
     = pending is_AttachTraces (queue (ker s)).
Proof.
  intros He; cbv zeta.
  destruct e as [app | | | | | | | n]; try discriminate He;
    cbn [Ring_tcpcubic.dispatch]; try solve [frame_cases].
  - unfold Ring_tcpcubic.CalculatePacketLoss.
    destruct (0 <? packetsSent (glob s)); frame_cases.
  - unfold Ring_tcpcubic.findThroughput; frame_cases.
  - destruct n as [| | oldCwnd newCwnd | oldRtt newRtt];
      cbn [Ring_tcpcubic.deliver]; try solve [frame_cases].
    + destruct (ring_invoke_frame (CongestionWindow oldCwnd newCwnd) s
                  (cwnd_callbacks (ker s))) as (Hk & _).
      rewrite Hk; frame_cases.
    + destruct (ring_invoke_frame (RTT oldRtt newRtt) s
                  (rtt_callbacks (ker s))) as (Hk & _).
      rewrite Hk; frame_cases.
Qed.

Lemma ring_attaching_step {D} `{Double D} (net : network) (s : sim D) :
  ring_attaching s ->
  ring_attaching (ProcessOneEvent (Ring_tcpcubic.dispatch net) s).
Proof.
  unfold ring_attaching, ProcessOneEvent.
  destruct (queue (ker s)) as [| [t e] q] eqn:Hq; [rewrite Hq; tauto |].
  destruct (is_AttachTraces e) eqn:He.
  - assert (Hcons : pending is_AttachTraces ((t, e) :: q)
                    = t :: pending is_AttachTraces q)
      by (unfold pending; cbn [filter snd]; rewrite He; reflexivity).
    rewrite Hcons.
    intros [([t0 Hp] & Hc & Hr) | [(Hp & _) | (Hp & _)]];
      try discriminate Hp.
    apply cons_singleton in Hp; destruct Hp as [_ Hrest].
    destruct e as [app | | | | | | | n]; try discriminate He.
    cbn [Ring_tcpcubic.dispatch].
    unfold Ring_tcpcubic.AttachSocketTraces, Ring_tcpcubic.TraceCwndRtt.
    change (Now (set_now t (set_queue q s))) with t.
    destruct app; [destruct (GetSocket net t) as [[| |] |] |];
      cbn [Schedule log TraceConnect_CongestionWindow TraceConnect_RTT
           set_now set_queue with_ker ker queue cwnd_callbacks rtt_callbacks
           Now now];
      rewrite ?Hc, ?Hr.
    + right; right; repeat split; exact Hrest.
    + right; left; repeat split; exact Hrest.
    + right; right; repeat split; exact Hrest.
    + left; split; [| split; reflexivity].
      eexists; apply pending_insert_only; [reflexivity | exact Hrest].
    + right; right; repeat split; exact Hrest.
  - destruct (ring_attach_other_step net e (set_now t (set_queue q s)) He)
      as (Hc & Hr & Hp).
    change (cwnd_callbacks (ker (set_now t (set_queue q s))))
      with (cwnd_callbacks (ker s)) in Hc.
    change (rtt_callbacks (ker (set_now t (set_queue q s))))
      with (rtt_callbacks (ker s)) in Hr.
    change (queue (ker (set_now t (set_queue q s)))) with q in Hp.
    assert (Hcons : pending is_AttachTraces ((t, e) :: q)
                    = pending is_AttachTraces q)
      by (unfold pending; cbn [filter snd]; rewrite He; reflexivity).
    rewrite Hc, Hr, Hp, Hcons; tauto.
Qed.

Lemma ring_attaching_run {D} `{Double D} (net : network) (fuel : nat) :
  forall s : sim D,
    ring_attaching s -> ring_attaching (Run (Ring_tcpcubic.dispatch net) fuel s).
Proof.
  induction fuel as [| fuel IH]; intros s Hs; cbn [Run]; [exact Hs |].
  destruct (finished s); [exact Hs |].
  apply IH, ring_attaching_step, Hs.
Qed.

(** X10. In every run of the ring TCP program each trace source of the
    socket has at most one connected callback ([CwndChange],
    [RttChange]), and once connected no attempt is pending. Unlike the
    QUIC programs, an attempt that finds a socket which is not a TCP
    socket is the last one: it connects nothing and schedules no retry. *)
Theorem ring_attach_connects_at_most_once :
  forall (D : Type) (DD : Double D) (net : network),
    (forall (net_events : list (Time * notification)) (fuel : nat),
        let s := Run (Ring_tcpcubic.dispatch net) fuel
                   (Ring_tcpcubic.main (D := D) net_events) in
        (cwnd_callbacks (ker s) = [] /\ rtt_callbacks (ker s) = [])
        \/ (cwnd_callbacks (ker s) = [CwndChange_cb]
            /\ rtt_callbacks (ker s) = [RttChange_cb]
            /\ pending is_AttachTraces (queue (ker s)) = []))
    /\ (forall (s : sim D) (sock : socket),
           GetSocket net (Now s) = Some sock -> sock <> TcpSocketBase ->
           let s' := Ring_tcpcubic.AttachSocketTraces net BulkSendApplication s in
           queue (ker s') = queue (ker s)
           /\ cwnd_callbacks (ker s') = cwnd_callbacks (ker s)
           /\ rtt_callbacks (ker s') = rtt_callbacks (ker s)
           /\ ns_log (ker s')
              = ns_log (ker s)
                ++ [(STDOUT,
                     "Failed to attach traces. Socket is not a TcpSocketBase."%string)]).
Proof.
  intros D DD net; split.
  - intros net_events fuel; cbv zeta.
    assert (Hinit : ring_attaching (Ring_tcpcubic.main (D := D) net_events)).
    { left. unfold Ring_tcpcubic.main.
      cbn [Stop Schedule set_queue with_ker ker queue Now now
           cwnd_callbacks rtt_callbacks].
      destruct (schedule_all_frame net_events
                  {| ker := {| now := 0; queue := []; stopped := false;
                               cwnd_callbacks := []; rtt_callbacks := [];
                               ns_log := [] |};
                     glob := {| g_cwnd := to_double 0; g_rtt := to_double 0;
                                packetsSent := 0; packetsReceived := 0;
                                lastTotalRx := 0 |};
                     out := {| cwndFile := []; rttFile := [];
                               throughputFile := []; packetLossFile := [] |} |})
        as (_ & _ & _ & _ & Hc & Hr & _).
      split; [| split; [exact Hc | exact Hr]].
      rewrite !pending_insert_other by reflexivity.
      eexists; apply pending_insert_only; [reflexivity |].
      apply startup_pending; reflexivity. }
    destruct (ring_attaching_run net fuel _ Hinit)
      as [(_ & Hc & Hr) | [Hb | (_ & Hc & Hr)]].
    + left; split; assumption.
    + right; destruct Hb as (Hp & Hc & Hr); repeat split; assumption.
    + left; split; assumption.
  - intros s sock Hsock Hnot; cbv zeta.
    unfold Ring_tcpcubic.AttachSocketTraces, Ring_tcpcubic.TraceCwndRtt.
    rewrite Hsock.
    destruct sock; [| exfalso; apply Hnot; reflexivity |];
      repeat split.
Qed.

Lemma ring_attach_connects_at_most_once_witness :
  queue (ker (Ring_tcpcubic.AttachSocketTraces (D := Q) example_network
                BulkSendApplication (startup [])))
  = [].
Proof.
  destruct (ring_attach_connects_at_most_once Q Double_Q example_network)
    as (_ & Hlast).
  destruct (Hlast (startup []) QuicSocketBase) as (Hq & _);
    [reflexivity | discriminate |].
  exact Hq.
Defined.



(** The same values on binary64: 5 lost of 100 sent and 2 received for 1
    sent, and the pairs of counters closest to each other below 2^53,
    where the quotient is closest to 1. *)
Example ring_loss_percent_binary64 :
  let loss := Ring_tcpcubic.packetLossPercent (D := float) in
  loss 100 95 = 0x1.4000000000005p+2%float
  /\ loss 1 2 = (-100)%float
  /\ PrimFloat.ltb (loss (2 ^ 53 - 2) (2 ^ 53 - 1)) 0 = true
  /\ PrimFloat.leb 0 (loss (2 ^ 53 - 1) (2 ^ 53 - 2)) = true
  /\ PrimFloat.leb (loss (2 ^ 53 - 1) (2 ^ 53 - 2)) 100 = true.
Proof. vm_compute; repeat split. Qed.

(** ** One pending occurrence of each periodic task *)

Section OnePending.

Context {D : Type}.
Variable dispatch : event -> sim D -> sim D.
Variable sel : event -> bool.

Hypothesis tick_reschedules :
  forall (e : event) (s : sim D),
    sel e = true ->
    exists t, queue (ker (dispatch e s)) = insert_event t e (queue (ker s)).

Hypothesis other_keeps :
  forall (e : event) (s : sim D),
    sel e = false ->
    pending sel (queue (ker (dispatch e s))) = pending sel (queue (ker s)).

Lemma one_pending_step (s : sim D) :
  (exists t, pending sel (queue (ker s)) = [t]) ->
  exists t, pending sel (queue (ker (ProcessOneEvent dispatch s))) = [t].
Proof.
  intros [t0 Hp]; unfold ProcessOneEvent.
  destruct (queue (ker s)) as [| [t e] q] eqn:Hq;
    [exists t0; rewrite Hq; exact Hp |].
  unfold pending in Hp; cbn [filter snd] in Hp.
  destruct (sel e) eqn:He.
  - cbn [map fst] in Hp. apply cons_singleton in Hp; destruct Hp as [_ Hrest].
    destruct (tick_reschedules e (set_now t (set_queue q s)) He) as [t' Ht'].
    change (queue (ker (set_now t (set_queue q s)))) with q in Ht'.
    exists t'; rewrite Ht'; apply pending_insert_only; assumption.
  - pose proof (other_keeps e (set_now t (set_queue q s)) He) as Hk.
    change (queue (ker (set_now t (set_queue q s)))) with q in Hk.
    exists t0; rewrite Hk; exact Hp.
Qed.

Lemma one_pending_run (fuel : nat) :
  forall s : sim D,
    (exists t, pending sel (queue (ker s)) = [t]) ->
    exists t, pending sel (queue (ker (Run dispatch fuel s))) = [t].
Proof.
  induction fuel as [| fuel IH]; intros s Hs; cbn [Run]; [exact Hs |].
  destruct (finished s); [exact Hs |].
  apply IH, one_pending_step, Hs.
Qed.

End OnePending.

Lemma quicbbr_loss_other_step {D} `{Double D} (net : network) (e : event)
    (s : sim D) :
  is_CalculatePacketLoss e = false ->
  pending is_CalculatePacketLoss
    (queue (ker (PointToPoint_quicbbr.dispatch net e s)))
  = pending is_CalculatePacketLoss (queue (ker s)).
Proof.
  intros He.
  destruct e as [app | | | | | | | n]; try discriminate He;
    cbn [PointToPoint_quicbbr.dispatch]; try solve [frame_cases].
  - unfold PointToPoint_quicbbr.AttachTraces.
    destruct app; [destruct (GetSocket net (Now s)) as [[| |] |] |];
      frame_cases.
  - unfold PointToPoint_quicbbr.TraceMetrics; frame_cases.
  - destruct n as [| | oldCwnd newCwnd | oldRtt newRtt];
      cbn [PointToPoint_quicbbr.deliver]; try solve [frame_cases].
    + destruct (quicbbr_invoke_frame (CongestionWindow oldCwnd newCwnd) s
                  (cwnd_callbacks (ker s))) as (Hk & _).
      rewrite Hk; reflexivity.
    + destruct (quicbbr_invoke_frame (RTT oldRtt newRtt) s
                  (rtt_callbacks (ker s))) as (Hk & _).
      rewrite Hk; reflexivity.
Qed.

(** X13. In every run of the point-to-point programs, whatever the
    network does, each periodic task has exactly one occurrence pending
    in the event list: [TraceMetrics] and [CalculatePacketLoss] in the
    QUIC program (also at the ticks where the loss tick writes no row),
    [findThroughput] and [CalculatePacketLoss] in the TCP program. A tick
    is never scheduled twice and never lost. *)
Theorem one_pending_tick_per_task :
  forall (D : Type) (DD : Double D) (net : network)
         (net_events : list (Time * notification)) (fuel : nat),
    (let s := Run (PointToPoint_quicbbr.dispatch net) fuel
                (PointToPoint_quicbbr.main (D := D) net_events) in
     (exists t, pending is_TraceMetrics (queue (ker s)) = [t])
     /\ (exists t, pending is_CalculatePacketLoss (queue (ker s)) = [t]))
    /\ (let s := Run (PointToPoint_tcpcubic.dispatch net) fuel
                   (PointToPoint_tcpcubic.main (D := D) net_events) in
        (exists t, pending is_findThroughput (queue (ker s)) = [t])
        /\ (exists t, pending is_CalculatePacketLoss (queue (ker s)) = [t])).
Proof.
  intros D DD net net_events fuel.
  destruct (quicbbr_main_pending (D := D) net_events) as (Hqp & _).
  destruct (tcpcubic_main_pending (D := D) net_events) as (Htp & Htl & _).
  split; cbv zeta; split.
  - apply one_pending_run; [| | eexists; exact Hqp].
    + intros e s He; destruct e; try discriminate He.
      eexists; reflexivity.
    + intros e s He; apply (quicbbr_other_step net e s He).
  - apply one_pending_run.
    + intros e s He; destruct e; try discriminate He.
      cbn [PointToPoint_quicbbr.dispatch].
      unfold PointToPoint_quicbbr.CalculatePacketLoss.
      destruct (0 <? packetsSent (glob s)); eexists; reflexivity.
    + intros e s He; apply (quicbbr_loss_other_step net e s He).
    + unfold PointToPoint_quicbbr.main.
      cbn [Stop Schedule set_queue with_ker ker queue Now now].
      rewrite pending_insert_other by reflexivity.
      eexists; apply pending_insert_only; [reflexivity |].
      rewrite !pending_insert_other by reflexivity.
      apply startup_pending; reflexivity.
  - apply one_pending_run; [| | eexists; exact Htp].
    + intros e s He; destruct e; try discriminate He.
      eexists; reflexivity.
    + intros e s He; apply (tcpcubic_throughput_other_step net e s He).
  - apply one_pending_run; [| | eexists; exact Htl].
    + intros e s He; destruct e; try discriminate He.
      cbn [PointToPoint_tcpcubic.dispatch].
      unfold PointToPoint_tcpcubic.CalculatePacketLoss.
      destruct (0 <? packetsSent (glob s)); eexists; reflexivity.
    + intros e s He; apply (tcpcubic_loss_other_step net e s He).
Qed.
